(** * AgentStack: the model-call resilience layer and the agent graph

    A shallow embedding of [app/services/llm.py] (the registry of models,
    the retry decorator and the circular fallback loop of [LLMService]) and
    of [app/core/langgraph/graph.py] (the [chat] and [tool_call] nodes and
    [get_response]), with the properties of the specification that concern
    them.

    Python objects are modelled as records, exceptions as an inductive type
    with the [isinstance] tests the code performs, and the effects of the
    code (calls to the model backends, to the tools and to the memory
    client, sleeping, logging, mutation of the shared [llm_service]) as a
    state-and-exception monad over an abstract world. *)

From Stdlib Require Import ZArith Lia Ascii String.
From stdpp Require Import gmap strings list.

Open Scope string_scope.
Open Scope list_scope.

(** ** Exceptions *)

(** The exception classes the code names or can meet.  [APIError] stands for
    [openai.APIError] and any subclass of it other than the two the code
    names; [OpenAIError] for an [openai.OpenAIError] that is not an
    [APIError]; [OtherException] for any exception outside these families. *)
Inductive exn : Type :=
| RateLimitError
| APITimeoutError
| APIError
| OpenAIError
| RuntimeError (msg : string)
| ValueError
| IndexError
| KeyError (key : string)
| AttributeError
| TypeError
| GraphRecursionError
| OtherException (msg : string).

(** [isinstance(e, APIError)]: [RateLimitError] and [APITimeoutError] are
    subclasses of [APIError] in the openai package. *)
Definition isinstance_APIError (e : exn) : bool :=
  match e with
  | RateLimitError | APITimeoutError | APIError => true
  | _ => false
  end.

Definition isinstance_RateLimitError (e : exn) : bool :=
  match e with RateLimitError => true | _ => false end.

Definition isinstance_APITimeoutError (e : exn) : bool :=
  match e with APITimeoutError => true | _ => false end.

(** [isinstance(e, OpenAIError)]: the root of the openai hierarchy. *)
Definition isinstance_OpenAIError (e : exn) : bool :=
  match e with
  | RateLimitError | APITimeoutError | APIError | OpenAIError => true
  | _ => false
  end.

Inductive result (A : Type) : Type :=
| Return (a : A)
| Raise (e : exn).
Arguments Return {A} a.
Arguments Raise {A} e.

(** ** Messages, tools, models *)

Record ToolCall : Type := {
  tc_name : string;
  tc_args : string;
  tc_id : string;
}.

(** LangChain's message classes, with the fields the code reads. *)
Inductive BaseMessage : Type :=
| HumanMessage (content : string)
| AIMessage (content : string) (tool_calls : list ToolCall)
| ToolMessage (content : string) (name : string) (tool_call_id : string)
| SystemMessage (content : string).

(** The pydantic schema [Message] of the API. *)
Record Message : Type := {
  role : string;
  content : string;
}.

Record BaseTool : Type := {
  tool_name : string;
  tool_handle : nat;
}.

(** A chat model handle: the model it talks to and the tools bound to it. *)
Record BaseChatModel : Type := {
  model : string;
  bound_tools : list BaseTool;
}.

(** An entry [{"name": ..., "llm": ...}] of [LLMRegistry.LLMS]. *)
Record Entry : Type := {
  entry_name : string;
  entry_llm : BaseChatModel;
}.

Record Settings : Type := {
  DEFAULT_LLM_MODEL : string;
  MAX_LLM_CALL_RETRIES : Z;
}.

(** A memory hit of [memory_client.search]: [res['memory']]. *)
Record MemoryFact : Type := {
  memory : string;
}.

(** [LLMService]'s two attributes. *)
Record LLMService : Type := {
  _llm : option BaseChatModel;
  _current_model_index : nat;
}.

(** ** Effects *)

(** What the code does to the outside, in program order. *)
Inductive event : Type :=
| EvInvoke (llm : BaseChatModel) (messages : list BaseMessage)
| EvSleep (seconds : Z)
| LogBeforeSleep (seconds : Z) (error : exn)
| LogSwitchingModelFallback (old_index : nat) (new_model : string)
| LogModelSwitchFailed
| LogModelFailedExhaustedRetries (model_name : string) (error : exn)
| LogLlmCallNodeFailed (error : exn)
| EvToolInvoke (tool : BaseTool) (args : string)
| EvMemorySearch (user_id query : string)
| EvCreateTask (user_id : string) (messages : list BaseMessage).

(** The level argument of a logger's [log] method: Python takes a level
    name, a [str], as readily as a level number. *)
Inductive Level : Type :=
| LevelName (name : string)
| LevelNo (n : Z).

(** The collaborators: the model backends, the tools, the memory client and
    the set-up of the graph and of the memory client.  Each acts on a world
    of its own and returns or raises.  [recursion_limit] is the number of
    steps langgraph allows a run: [graph.py] passes none in the [config] of
    [ainvoke], so it is the default of the langgraph release in use. *)
Record Collaborators : Type := {
  World : Type;
  ainvoke : BaseChatModel -> list BaseMessage -> World -> result BaseMessage * World;
  tool_ainvoke : BaseTool -> string -> World -> result string * World;
  memory_search : string -> string -> World -> result (option (list MemoryFact)) * World;
  create_graph : World -> result unit * World;
  _long_term_memory : World -> result unit * World;
  checkpoint_messages : string -> World -> list BaseMessage;
  recursion_limit : nat;
}.

(** The state a computation runs in: the world of the collaborators, the
    global [llm_service] object, and the trace of events so far (oldest
    first). *)
Record St (C : Collaborators) : Type := {
  world : World C;
  llm_service : LLMService;
  trace : list event;
}.
Arguments world {C} s.
Arguments llm_service {C} s.
Arguments trace {C} s.

Definition M (C : Collaborators) (A : Type) : Type := St C -> result A * St C.

Definition ret {C A} (a : A) : M C A := fun st => (Return a, st).

Definition bind {C A B} (m : M C A) (k : A -> M C B) : M C B :=
  fun st =>
    match m st with
    | (Return a, st1) => k a st1
    | (Raise e, st1) => (Raise e, st1)
    end.

Definition raise {C A} (e : exn) : M C A := fun st => (Raise e, st).

(** [try: m except Exception as e: h e]. *)
Definition try_except {C A} (m : M C A) (h : exn -> M C A) : M C A :=
  fun st =>
    match m st with
    | (Return a, st1) => (Return a, st1)
    | (Raise e, st1) => h e st1
    end.

Notation "'let*' x := c 'in' k" := (bind c (fun x => k))
  (at level 10, x name, c at level 100, k at level 200).
Notation "c >> k" := (bind c (fun _ => k)) (at level 65, right associativity).

Definition emit {C} (ev : event) : M C unit :=
  fun st => (Return tt, {| world := world st; llm_service := llm_service st;
                           trace := trace st ++ [ev] |}).

Definition get_self {C} : M C LLMService :=
  fun st => (Return (llm_service st), st).

Definition set_self {C} (self : LLMService) : M C unit :=
  fun st => (Return tt, {| world := world st; llm_service := self;
                           trace := trace st |}).

Definition lift_world {C A} (f : World C -> result A * World C) : M C A :=
  fun st =>
    let '(r, w) := f (world st) in
    (r, {| world := w; llm_service := llm_service st; trace := trace st |}).

(** ** [LLMRegistry] *)

Section Registry.

Variable LLMS : list Entry.

Fixpoint get_loop (entries : list Entry) (model_name : string)
  : option BaseChatModel :=
  match entries with
  | [] => None
  | entry :: entries' =>
      if String.eqb (entry_name entry) model_name
      then Some (entry_llm entry)
      else get_loop entries' model_name
  end.

(** [LLMRegistry.get]: the first entry of that name, else [LLMS[0]]. *)
Definition LLMRegistry_get (model_name : string) : result BaseChatModel :=
  match get_loop LLMS model_name with
  | Some l => Return l
  | None =>
      match LLMS !! 0%nat with
      | Some entry => Return (entry_llm entry)
      | None => Raise IndexError
      end
  end.

Definition LLMRegistry_get_all_names : list string :=
  map entry_name LLMS.

(** [list.index]: the position of the first equal element, [None] standing
    for [ValueError]. *)
Fixpoint list_index (x : string) (l : list string) : option nat :=
  match l with
  | [] => None
  | y :: l' => if String.eqb y x then Some 0%nat else S <$> list_index x l'
  end.

(** ** [LLMService] *)

Variable settings : Settings.

(** [LLMService.__init__]. *)
Definition LLMService_init : result LLMService :=
  match LLMRegistry_get (DEFAULT_LLM_MODEL settings) with
  | Raise e => Raise e
  | Return l =>
      match list_index (DEFAULT_LLM_MODEL settings) LLMRegistry_get_all_names with
      | Some i => Return {| _llm := Some l; _current_model_index := i |}
      | None =>
          (* except ValueError *)
          match LLMS !! 0%nat with
          | Some entry =>
              Return {| _llm := Some (entry_llm entry); _current_model_index := 0 |}
          | None => Raise IndexError
          end
      end
  end.

Variable C : Collaborators.

(** [LLMService._switch_to_next_model]: the modulo raises on an empty
    registry, which the handler turns into [False]. *)
Definition _switch_to_next_model : M C bool :=
  let* self := get_self in
  match length LLMS with
  | O => emit LogModelSwitchFailed >> ret false
  | S _ =>
      let next_index := ((_current_model_index self + 1) mod length LLMS)%nat in
      match LLMS !! next_index with
      | None => emit LogModelSwitchFailed >> ret false
      | Some next_model_entry =>
          emit (LogSwitchingModelFallback (_current_model_index self)
                  (entry_name next_model_entry)) >>
          set_self {| _llm := Some (entry_llm next_model_entry);
                      _current_model_index := next_index |} >>
          ret true
      end
  end.

(** *** The retry decorator (tenacity) *)

Definition retry_if_exception_type (e : exn) : bool :=
  isinstance_RateLimitError e || isinstance_APITimeoutError e
  || isinstance_APIError e.

(** [stop_after_attempt(n)]: [attempt_number >= n]. *)
Definition stop_after_attempt (max_attempt_number attempt_number : Z) : bool :=
  (max_attempt_number <=? attempt_number)%Z.

(** [wait_exponential(multiplier, min, max)] with [exp_base] 2, as tenacity
    computes it (version 8 and later, which langchain requires):
    [exp = exp_base ** (attempt_number - 1)], [result = multiplier * exp],
    and the wait is [max(max(0, min), min(result, max))]. *)
Definition wait_exponential (multiplier min max attempt_number : Z) : Z :=
  let exp := (2 ^ (attempt_number - 1))%Z in
  let result := (multiplier * exp)%Z in
  Z.max (Z.max 0 min) (Z.min result max).

(** The wait of the decorator of [_call_with_retry]:
    [wait_exponential(multiplier=1, min=2, max=10)]. *)
Definition wait (attempt_number : Z) : Z :=
  wait_exponential 1 2 10 attempt_number.

(** [logger.log(level, event)] of the module's [logger], the structlog
    bound logger that [get_logger] returns: the method compares [level] with
    the logger's minimum level, a number ([level < min_level]), so a level
    given as a [str] raises [TypeError]; with a number the call is made (the
    trace records the calls to the logger, whatever the minimum level lets
    through). *)
Definition logger_log (level : Level) (ev : event) : M C unit :=
  match level with
  | LevelName _ => raise TypeError
  | LevelNo _ => emit ev
  end.

(** tenacity's [before_sleep_log(logger, log_level)]: the hook calls
    [logger.log(log_level, "Retrying ... in ... seconds as it raised ...")]. *)
Definition before_sleep_log (log_level : Level) (seconds : Z) (e : exn) : M C unit :=
  logger_log log_level (LogBeforeSleep seconds e).

(** The loop of the decorator: run [fn]; a raised error outside the retried
    classes is raised again at once; a retried one is raised again
    ([reraise=True]) when [stop] says so, else the loop calls the
    [before_sleep] hook, [before_sleep_log(logger, "WARNING")], sleeps and
    runs the next attempt.  The hook is given the level as the string
    ["WARNING"]: what it raises leaves the loop before the sleep.  [fuel]
    bounds the attempts still allowed after this one; [retrying_fuel] shows
    that the decorator's own stop comes first. *)
Fixpoint retrying {A} (fuel : nat) (attempt_number : Z) (fn : M C A) : M C A :=
  try_except fn (fun e =>
    if retry_if_exception_type e then
      if stop_after_attempt (MAX_LLM_CALL_RETRIES settings) attempt_number
      then raise e
      else
        match fuel with
        | O => raise e
        | S fuel' =>
            let seconds := wait attempt_number in
            before_sleep_log (LevelName "WARNING") seconds e >>
            emit (EvSleep seconds) >>
            retrying fuel' (attempt_number + 1)%Z fn
        end
    else raise e).

(** The body of [_call_with_retry]. *)
Definition _call_with_retry_body (messages : list BaseMessage) : M C BaseMessage :=
  let* self := get_self in
  match _llm self with
  | None => raise (RuntimeError "LLM not initialized")
  | Some l => emit (EvInvoke l messages) >> lift_world (ainvoke C l messages)
  end.

Definition _call_with_retry (messages : list BaseMessage) : M C BaseMessage :=
  retrying (Z.to_nat (MAX_LLM_CALL_RETRIES settings)) 1
    (_call_with_retry_body messages).

Definition exhausted_all_options : exn :=
  RuntimeError "Failed to get response from any LLM after exhausting all options.".

(** The [while models_tried < total_models] loop of [call].  [fuel] is the
    number of iterations still possible, [total_models - models_tried]. *)
Fixpoint call_loop (fuel models_tried total_models : nat)
    (messages : list BaseMessage) : M C BaseMessage :=
  if (models_tried <? total_models)%nat then
    match fuel with
    | O => raise exhausted_all_options
    | S fuel' =>
        try_except (_call_with_retry messages) (fun e =>
          if isinstance_OpenAIError e then
            let models_tried := (models_tried + 1)%nat in
            let* self := get_self in
            match LLMS !! _current_model_index self with
            | None => raise IndexError
            | Some entry =>
                emit (LogModelFailedExhaustedRetries (entry_name entry) e) >>
                if (total_models <=? models_tried)%nat
                then raise exhausted_all_options
                else
                  _switch_to_next_model >>
                  call_loop fuel' models_tried total_models messages
            end
          else raise e)
    end
  else raise exhausted_all_options.

(** [LLMService.call]. *)
Definition call (messages : list BaseMessage) : M C BaseMessage :=
  call_loop (length LLMS) 0 (length LLMS) messages.

Definition get_llm : M C (option BaseChatModel) :=
  let* self := get_self in ret (_llm self).

(** [LLMService.bind_tools]. *)
Definition bind_tools (tools : list BaseTool) : M C unit :=
  let* self := get_self in
  match _llm self with
  | Some l =>
      set_self {| _llm := Some {| model := model l; bound_tools := tools |};
                  _current_model_index := _current_model_index self |}
  | None => ret tt
  end.

End Registry.

(** ** The agent graph ([LangGraphAgent]) *)

Record GraphState : Type := {
  state_messages : list BaseMessage;
  long_term_memory : string;
}.

(** The nodes ["chat"] and ["tool_call"] of the graph, and langgraph's [END]. *)
Inductive Node : Type := node_chat | node_tool_call | END.

(** [Command(update={"messages": ...}, goto=...)]. *)
Record Command : Type := {
  update : list BaseMessage;
  goto : Node;
}.

Definition newline : string := String "010"%char "".

Definition no_relevant_memory : string := "No relevant memory found.".

Section Agent.

Variable LLMS : list Entry.
Variable settings : Settings.
Variable C : Collaborators.

(** [app.core.langgraph.tools.tools]. *)
Variable tools : list BaseTool.

(** The helpers of [app.utils] and the prompt loader, whose results the
    properties below do not depend on. *)
Variable load_system_prompt : string -> result string.
Variable prepare_messages :
  list BaseMessage -> option BaseChatModel -> string -> list Message.
Variable dump_messages : list Message -> list BaseMessage.
Variable process_llm_response : BaseMessage -> BaseMessage.

(** [{tool.name: tool for tool in tools}]: a later tool of the same name
    replaces an earlier one. *)
Definition tools_by_name : gmap string BaseTool :=
  foldl (fun d tool => <[tool_name tool := tool]> d) ∅ tools.

(** The [chat] node. *)
Definition _chat (state : GraphState) : M C Command :=
  let* SYSTEM_PROMPT :=
    (fun st => (load_system_prompt (long_term_memory state), st)) in
  let* current_llm := get_llm C in
  let messages := prepare_messages (state_messages state) current_llm SYSTEM_PROMPT in
  try_except
    (let* response_message := call LLMS settings C (dump_messages messages) in
     let response_message := process_llm_response response_message in
     match response_message with
     | AIMessage _ tool_calls =>
         ret {| update := [response_message];
                goto := match tool_calls with [] => END | _ :: _ => node_tool_call end |}
     | _ => raise AttributeError
     end)
    (fun e => emit (LogLlmCallNodeFailed e) >> raise e).

(** The [for tool_call in ...] loop of the [tool_call] node, [outputs] being
    the list built so far. *)
Fixpoint _tool_call_loop (tool_calls : list ToolCall)
    (outputs : list BaseMessage) : M C (list BaseMessage) :=
  match tool_calls with
  | [] => ret outputs
  | tool_call :: tool_calls' =>
      match tools_by_name !! tc_name tool_call with
      | None => raise (KeyError (tc_name tool_call))
      | Some tool =>
          let* tool_result :=
            emit (EvToolInvoke tool (tc_args tool_call)) >>
            lift_world (tool_ainvoke C tool (tc_args tool_call)) in
          _tool_call_loop tool_calls'
            (outputs ++ [ToolMessage tool_result (tc_name tool_call)
                           (tc_id tool_call)])
      end
  end.

(** The [tool_call] node: [state.messages[-1].tool_calls]. *)
Definition _tool_call (state : GraphState) : M C Command :=
  match last (state_messages state) with
  | None => raise IndexError
  | Some (AIMessage _ tool_calls) =>
      let* outputs := _tool_call_loop tool_calls [] in
      ret {| update := outputs; goto := node_chat |}
  | Some _ => raise AttributeError
  end.

(** Modelled from the spec: the reducer of [GraphState.messages]
    (app/schemas is not among the sources): the messages of a node's update
    are appended to the state. *)
Definition apply_update (state : GraphState) (command : Command) : GraphState :=
  {| state_messages := state_messages state ++ update command;
     long_term_memory := long_term_memory state |}.

(** The run of the compiled graph from a node, as langgraph drives it: each
    node's command updates the state and names the next node, until [END];
    [fuel] is langgraph's recursion limit. *)
Fixpoint run_nodes (fuel : nat) (node : Node) (state : GraphState)
  : M C GraphState :=
  match node with
  | END => ret state
  | node_chat | node_tool_call =>
      match fuel with
      | O => raise GraphRecursionError
      | S fuel' =>
          let* command :=
            match node with
            | node_tool_call => _tool_call state
            | _ => _chat state
            end in
          run_nodes fuel' (goto command) (apply_update state command)
      end
  end.

(** [self._graph.ainvoke(input_state, config)]: the thread's checkpointed
    messages come first, the entry point is the chat node. *)
Definition graph_ainvoke (input_state : GraphState) (thread_id : string)
  : M C GraphState :=
  let* saved :=
    lift_world (fun w => (Return (checkpoint_messages C thread_id w), w)) in
  run_nodes (recursion_limit C) node_chat
    {| state_messages := saved ++ state_messages input_state;
       long_term_memory := long_term_memory input_state |}.

Definition openai_role (m : BaseMessage) : string :=
  match m with
  | HumanMessage _ => "user"
  | AIMessage _ _ => "assistant"
  | ToolMessage _ _ _ => "tool"
  | SystemMessage _ => "system"
  end.

Definition openai_content (m : BaseMessage) : string :=
  match m with
  | HumanMessage c | AIMessage c _ | ToolMessage c _ _ | SystemMessage c => c
  end.

(** [_process_messages]: user and assistant messages of non-empty content. *)
Definition _process_messages (messages : list BaseMessage) : list Message :=
  map (fun m => {| role := openai_role m; content := openai_content m |})
    (filter (fun m => (openai_role m = "assistant" \/ openai_role m = "user")
                      /\ openai_content m <> "") messages).

(** The memory context of [get_response]:
    ["\n".join([f"* {res['memory']}" for res in relevant_memory.get("results", [])])]. *)
Definition memory_context (relevant_memory : option (list MemoryFact)) : string :=
  String.concat newline
    (map (fun res => String.append "* " (memory res))
       (default [] relevant_memory)).

(** [memory_context or "No relevant memory found."]. *)
Definition injected_context (relevant_memory : option (list MemoryFact)) : string :=
  match memory_context relevant_memory with
  | "" => no_relevant_memory
  | s => s
  end.

(** [LangGraphAgent.get_response]. *)
Definition get_response (messages : list Message) (session_id user_id : string)
  : M C (list Message) :=
  lift_world (create_graph C) >>
  lift_world (_long_term_memory C) >>
  match last messages with
  | None => raise IndexError
  | Some m =>
      let query := content m in
      let* relevant_memory :=
        emit (EvMemorySearch user_id query) >>
        lift_world (memory_search C user_id query) in
      let input_state :=
        {| state_messages := dump_messages messages;
           long_term_memory := injected_context relevant_memory |} in
      let* final_state := graph_ainvoke input_state session_id in
      emit (EvCreateTask user_id (state_messages final_state)) >>
      ret (_process_messages (state_messages final_state))
  end.

End Agent.

(** ** Reading a trace *)

Definition sleeps (evs : list event) : list Z :=
  omap (fun ev => match ev with EvSleep s => Some s | _ => None end) evs.

Definition invoked (evs : list event) : list BaseChatModel :=
  omap (fun ev => match ev with EvInvoke l _ => Some l | _ => None end) evs.

Definition retried_errors (evs : list event) : list exn :=
  omap (fun ev => match ev with LogBeforeSleep _ e => Some e | _ => None end) evs.

Definition switches (evs : list event) : list nat :=
  omap (fun ev => match ev with
                  | LogSwitchingModelFallback i _ => Some i
                  | _ => None
                  end) evs.

Definition failed_rounds (evs : list event) : list string :=
  omap (fun ev => match ev with
                  | LogModelFailedExhaustedRetries m _ => Some m
                  | _ => None
                  end) evs.

Definition tool_invocations (evs : list event) : list (BaseTool * string) :=
  omap (fun ev => match ev with
                  | EvToolInvoke t a => Some (t, a)
                  | _ => None
                  end) evs.

Definition memory_searches (evs : list event) : list (string * string) :=
  omap (fun ev => match ev with
                  | EvMemorySearch u q => Some (u, q)
                  | _ => None
                  end) evs.

(** [n; n+1; ...], [k] numbers. *)
Fixpoint zseq (n : Z) (k : nat) : list Z :=
  match k with
  | O => []
  | S k' => n :: zseq (n + 1)%Z k'
  end.

(** The index is that of an entry of the registry. *)
Definition index_ok (LLMS : list Entry) {C} (st : St C) : Prop :=
  (_current_model_index (llm_service st) < length LLMS)%nat.

(** The state after a failed round of [call] that switches: the failure and
    the switch are logged, index and model are those of the next entry. *)
Definition after_switch (LLMS : list Entry) {C} (e : exn) (st1 : St C) : St C :=
  let i := _current_model_index (llm_service st1) in
  let j := ((i + 1) mod length LLMS)%nat in
  {| world := world st1;
     llm_service :=
       {| _llm := entry_llm <$> LLMS !! j; _current_model_index := j |};
     trace := trace st1
              ++ [LogModelFailedExhaustedRetries
                    (default "" (entry_name <$> LLMS !! i)) e;
                  LogSwitchingModelFallback i
                    (default "" (entry_name <$> LLMS !! j))] |}.

(** ** The program's own configuration *)

Definition chat_model (name : string) : BaseChatModel :=
  {| model := name; bound_tools := [] |}.

(** [LLMRegistry.LLMS] as the source has it. *)
Definition LLMS_source : list Entry :=
  [ {| entry_name := "gpt-5-mini"; entry_llm := chat_model "gpt-5-mini" |};
    {| entry_name := "gpt-4o"; entry_llm := chat_model "gpt-4o" |};
    {| entry_name := "gpt-4o-mini"; entry_llm := chat_model "gpt-4o-mini" |} ].

(** The defaults of [Settings]. *)
Definition settings_source : Settings :=
  {| DEFAULT_LLM_MODEL := "gpt-4o-mini"; MAX_LLM_CALL_RETRIES := 3 |}.

Definition duckduckgo_search_tool : BaseTool :=
  {| tool_name := "duckduckgo_results_json"; tool_handle := 0 |}.

Definition tools_source : list BaseTool := [duckduckgo_search_tool].

(** Collaborators without a state of their own: a backend's answer depends
    on the model called, a tool's on its name and arguments; no checkpoint is
    saved, and a run is allowed 25 steps. *)
Definition scripted
    (backend : string -> result BaseMessage)
    (tool : string -> string -> result string)
    (search : result (option (list MemoryFact))) : Collaborators :=
  {| World := unit;
     ainvoke := fun l _ w => (backend (model l), w);
     tool_ainvoke := fun t a w => (tool (tool_name t) a, w);
     memory_search := fun _ _ w => (search, w);
     create_graph := fun w => (Return tt, w);
     _long_term_memory := fun w => (Return tt, w);
     checkpoint_messages := fun _ _ => [];
     recursion_limit := 25 |}.

Definition initial (C : Collaborators) (w : World C) (self : LLMService) : St C :=
  {| world := w; llm_service := self; trace := [] |}.

(** ** Definitions for the statements *)

(** The state after the model [l] has been invoked on [messages]. *)
Definition model_invoked (C : Collaborators) (l : BaseChatModel)
    (messages : list BaseMessage) (st : St C) : St C :=
  {| world := snd (ainvoke C l messages (world st));
     llm_service := llm_service st;
     trace := trace st ++ [EvInvoke l messages] |}.

(** The state after [_switch_to_next_model] on a registry with an entry. *)
Definition switched (LLMS : list Entry) (C : Collaborators) (st : St C) : St C :=
  let i := _current_model_index (llm_service st) in
  let j := ((i + 1) mod length LLMS)%nat in
  {| world := world st;
     llm_service := {| _llm := entry_llm <$> LLMS !! j; _current_model_index := j |};
     trace := trace st
              ++ [LogSwitchingModelFallback i (default "" (entry_name <$> LLMS !! j))] |}.

(** The state after the failure of a round has been logged. *)
Definition failure_logged (LLMS : list Entry) (C : Collaborators) (e : exn)
    (st : St C) : St C :=
  {| world := world st; llm_service := llm_service st;
     trace := trace st
              ++ [LogModelFailedExhaustedRetries
                    (default "" (entry_name <$> LLMS !! _current_model_index (llm_service st)))
                    e] |}.

(** The backend of round [j] of a call that starts at index [i]. *)
Definition round_index (LLMS : list Entry) (i j : nat) : nat :=
  ((i + j) mod length LLMS)%nat.

(** What a run of the loop of [call] leaves behind, [k] being the number of
    switches: the switches start from the indices [i], [i+1], ... taken
    modulo [N], the index ends [k] places further round the registry, and
    the rounds that failed are [k], or [k + 1] when the last backend left
    failed too. *)
Definition fallback_outcome (LLMS : list Entry) (C : Collaborators) (tried : nat)
    (st st' : St C) (r : result BaseMessage) (k : nat) (evs : list event) : Prop :=
  let i := _current_model_index (llm_service st) in
  (tried + k < length LLMS)%nat
  /\ trace st' = trace st ++ evs
  /\ switches evs = map (round_index LLMS i) (seq 0 k)
  /\ _current_model_index (llm_service st') = round_index LLMS i k
  /\ (k = 0%nat -> llm_service st' = llm_service st)
  /\ ((0 < k)%nat ->
      _llm (llm_service st') = entry_llm <$> LLMS !! round_index LLMS i k)
  /\ (length (failed_rounds evs) = k
      \/ (length (failed_rounds evs) = S k /\ (tried + S k = length LLMS)%nat
          /\ r = Raise exhausted_all_options))
  /\ (forall m, r = Return m ->
      exists l, last (invoked evs) = Some l /\ _llm (llm_service st') = Some l).

(** Every round fails: whatever the call, every backend raises an
    [OpenAIError], and one of a retried class only when the settings allow
    a single attempt. *)
Definition every_round_fails (settings : Settings) (C : Collaborators) : Prop :=
  forall (l : BaseChatModel) (messages : list BaseMessage) (w : World C),
    exists e : exn,
      fst (ainvoke C l messages w) = Raise e
      /\ isinstance_OpenAIError e = true
      /\ (isinstance_APIError e = true -> (MAX_LLM_CALL_RETRIES settings <= 1)%Z).

(** [tools_by_name[tool_call["name"]]]. *)
Definition resolve (tools : list BaseTool) (tc : ToolCall) : option BaseTool :=
  tools_by_name tools !! tc_name tc.

(** The invocation a resolved request leads to. *)
Definition invocation_of (tools : list BaseTool) (tc : ToolCall)
  : option (BaseTool * string) :=
  (fun tool => (tool, tc_args tc)) <$> resolve tools tc.

(** The state after a tool has been invoked. *)
Definition tool_invoked (C : Collaborators) (tool : BaseTool) (args : string)
    (st : St C) : St C :=
  {| world := snd (tool_ainvoke C tool args (world st));
     llm_service := llm_service st;
     trace := trace st ++ [EvToolInvoke tool args] |}.

(** No tool raises. *)
Definition tools_return (C : Collaborators) : Prop :=
  forall (tool : BaseTool) (args : string) (w : World C),
    exists s : string, fst (tool_ainvoke C tool args w) = Return s.

(** The invocations of the requests of one message all return: each
    request's tool, invoked on the request's arguments in the world the
    earlier invocations have left, returns.  A request that names no tool
    leads to no invocation. *)
Fixpoint invocations_return (C : Collaborators) (tools : list BaseTool)
    (tool_calls : list ToolCall) (w : World C) : Prop :=
  match tool_calls with
  | [] => True
  | tc :: tool_calls' =>
      match resolve tools tc with
      | None => True
      | Some tool =>
          (exists s : string, fst (tool_ainvoke C tool (tc_args tc) w) = Return s)
          /\ invocations_return C tools tool_calls'
               (snd (tool_ainvoke C tool (tc_args tc) w))
      end
  end.

(** A tool-result message answers a request: its [tool_call_id] is the
    request's id, its name the request's name. *)
Definition answers (tc : ToolCall) (out : BaseMessage) : Prop :=
  exists s : string, out = ToolMessage s (tc_name tc) (tc_id tc).

(** The first two awaits of [get_response]. *)
Definition setup (C : Collaborators) : M C unit :=
  lift_world (create_graph C) >> lift_world (_long_term_memory C).

(** The state after the memory search has been called. *)
Definition searched (C : Collaborators) (user_id query : string) (st : St C) : St C :=
  {| world := snd (memory_search C user_id query (world st));
     llm_service := llm_service st;
     trace := trace st ++ [EvMemorySearch user_id query] |}.

Section RunTurn.

Variable LLMS : list Entry.
Variable settings : Settings.
Variable C : Collaborators.
Variable tools : list BaseTool.
Variable load_system_prompt : string -> result string.
Variable prepare_messages :
  list BaseMessage -> option BaseChatModel -> string -> list Message.
Variable dump_messages : list Message -> list BaseMessage.
Variable process_llm_response : BaseMessage -> BaseMessage.

(** [get_response] from the run of the graph on. *)
Definition run_turn (messages : list Message) (session_id user_id : string)
    (relevant_memory : option (list MemoryFact)) : M C (list Message) :=
  let input_state :=
    {| state_messages := dump_messages messages;
       long_term_memory := injected_context relevant_memory |} in
  let* final_state :=
    graph_ainvoke LLMS settings C tools load_system_prompt prepare_messages
      dump_messages process_llm_response input_state session_id in
  emit (EvCreateTask user_id (state_messages final_state)) >>
  ret (_process_messages (state_messages final_state)).

End RunTurn.

(** ** Collaborators, states and requests of the examples *)

Definition answer (text : string) : result BaseMessage :=
  Return (AIMessage text []).

(** Every backend raises a rate-limit error, always. *)
Definition all_backends_down : Collaborators :=
  scripted (fun _ => Raise RateLimitError) (fun _ _ => Return "") (Return None).

(** The first two backends of the source's registry raise a rate-limit
    error, the third answers. *)
Definition two_backends_down : Collaborators :=
  scripted (fun name => if String.eqb name "gpt-4o-mini" then answer "ok"
                        else Raise RateLimitError)
           (fun _ _ => Return "") (Return None).

(** The first backend raises an [OpenAIError] that is not an [APIError],
    the others answer. *)
Definition first_backend_rejects : Collaborators :=
  scripted (fun name => if String.eqb name "gpt-5-mini" then Raise OpenAIError
                        else answer "ok")
           (fun _ _ => Return "") (Return None).

(** The first two backends of the source's registry raise an [OpenAIError]
    that is not an [APIError], the third answers. *)
Definition two_backends_reject : Collaborators :=
  scripted (fun name => if String.eqb name "gpt-4o-mini" then answer "ok"
                        else Raise OpenAIError)
           (fun _ _ => Return "") (Return None).

(** Every backend raises an [OpenAIError] that is not an [APIError]. *)
Definition all_backends_reject : Collaborators :=
  scripted (fun _ => Raise OpenAIError) (fun _ _ => Return "") (Return None).

(** The settings of the source with a single attempt a round. *)
Definition settings_single_attempt : Settings :=
  {| DEFAULT_LLM_MODEL := "gpt-4o-mini"; MAX_LLM_CALL_RETRIES := 1 |}.

(** A service that points at the first entry of the source's registry. *)
Definition service_at_0 : LLMService :=
  {| _llm := Some (chat_model "gpt-5-mini"); _current_model_index := 0 |}.

(** Every backend raises a [ValueError]. *)
Definition backends_broken : Collaborators :=
  scripted (fun _ => Raise ValueError) (fun _ _ => Return "") (Return None).

(** The helpers of [app.utils], made concrete for the examples. *)
Definition load_system_prompt_example (long_term_memory : string) : result string :=
  Return (String.append "You are an agent. Memory: " long_term_memory).

Definition dump_messages_example (messages : list Message) : list BaseMessage :=
  map (fun m => if String.eqb (role m) "user" then HumanMessage (content m)
                else AIMessage (content m) []) messages.

Definition prepare_messages_example (messages : list BaseMessage)
    (llm : option BaseChatModel) (system_prompt : string) : list Message :=
  {| role := "system"; content := system_prompt |}
  :: map (fun m => {| role := openai_role m; content := openai_content m |}) messages.

(** A tool that raises, backends that answer. *)
Definition tool_down : Collaborators :=
  scripted (fun _ => answer "ok")
           (fun _ _ => Raise (OtherException "search failed")) (Return None).

(** A memory client whose search raises, backends that answer. *)
Definition memory_down : Collaborators :=
  scripted (fun _ => answer "ok") (fun _ _ => Return "")
           (Raise (OtherException "vector store unreachable")).

(** A memory client that finds nothing, backends that answer. *)
Definition memory_empty : Collaborators :=
  scripted (fun _ => answer "ok") (fun _ _ => Return "") (Return (Some [])).

Definition search_request : ToolCall :=
  {| tc_name := "duckduckgo_results_json"; tc_args := "weather in Paris";
     tc_id := "call_1" |}.

Definition weather_request : ToolCall :=
  {| tc_name := "get_weather"; tc_args := "Paris"; tc_id := "call_2" |}.

Definition asking (tool_calls : list ToolCall) : GraphState :=
  {| state_messages := [HumanMessage "What is the weather in Paris?";
                        AIMessage "" tool_calls];
     long_term_memory := no_relevant_memory |}.

(** A search tool that returns, backends that answer. *)
Definition tool_up : Collaborators :=
  scripted (fun _ => answer "ok") (fun _ _ => Return "15C, cloudy") (Return None).

(** A search tool that returns, except on the query ["boom"], on which it
    raises; backends that answer. *)
Definition tool_picky : Collaborators :=
  scripted (fun _ => answer "ok")
           (fun _ args => if String.eqb args "boom"
                          then Raise (OtherException "search failed")
                          else Return "15C, cloudy")
           (Return None).

Definition process_llm_response_example (m : BaseMessage) : BaseMessage := m.

Definition service_default : LLMService :=
  {| _llm := Some (chat_model "gpt-4o-mini"); _current_model_index := 2 |}.

Definition hello : list Message := [ {| role := "user"; content := "hello" |} ].

(** [get_response] with the registry, the settings and the tools of the
    source. *)
Definition get_response_example (C : Collaborators) :=
  get_response LLMS_source settings_source C tools_source
    load_system_prompt_example prepare_messages_example dump_messages_example
    process_llm_response_example.

(** ** Definitions for further properties *)

(** The service points inside the registry and holds a model. *)
Definition service_ok (LLMS : list Entry) {C} (st : St C) : Prop :=
  index_ok LLMS st /\ is_Some (_llm (llm_service st)).

(** [_switch_to_next_model] called [k] times in a row. *)
Fixpoint switch_times (LLMS : list Entry) (C : Collaborators) (k : nat) : M C unit :=
  match k with
  | O => ret tt
  | S k' => _switch_to_next_model LLMS C >> switch_times LLMS C k'
  end.

(** The sum of a list of delays. *)
Definition total (l : list Z) : Z := foldr Z.add 0%Z l.

(** The background tasks a trace has created. *)
Definition tasks (evs : list event) : list (string * list BaseMessage) :=
  omap (fun ev => match ev with
                  | EvCreateTask u ms => Some (u, ms)
                  | _ => None
                  end) evs.

(** The model calls of a trace, retries included. *)
Definition invocations (evs : list event) : nat := length (invoked evs).

(** The state after the [chat] node has logged a failure. *)
Definition node_failed (C : Collaborators) (e : exn) (st : St C) : St C :=
  {| world := world st; llm_service := llm_service st;
     trace := trace st ++ [LogLlmCallNodeFailed e] |}.

(** The messages the [chat] node sends to the model. *)
Definition chat_input
    (load_system_prompt : string -> result string)
    (prepare_messages :
       list BaseMessage -> option BaseChatModel -> string -> list Message)
    (dump_messages : list Message -> list BaseMessage)
    (state : GraphState) (llm : option BaseChatModel) (prompt : string)
  : list BaseMessage :=
  dump_messages (prepare_messages (state_messages state) llm prompt).

(** The command of the [chat] node for a response. *)
Definition route (text : string) (tool_calls : list ToolCall) : Command :=
  {| update := [AIMessage text tool_calls];
     goto := match tool_calls with [] => END | _ :: _ => node_tool_call end |}.

(** The message lists a trace has sent to the models, one for each
    invocation. *)
Definition sent (evs : list event) : list (list BaseMessage) :=
  omap (fun ev => match ev with EvInvoke _ ms => Some ms | _ => None end) evs.

(** ** The resources [LangGraphAgent] creates on first use *)

Module Resources.

Section Lazy.

(** The outside: its state, the handles it gives out, and the calls the
    agent makes to it: [AsyncMemory.from_config], the constructor of
    [AsyncConnectionPool] (with [open=False]), the pool's [open], the
    checkpointer's [setup], and the compilation of the graph builder with
    the checkpointer of a pool. *)
Variable World : Type.
Variable Memory : Type.
Variable Pool : Type.
Variable Graph : Type.
Variable from_config : World -> result Memory * World.
Variable AsyncConnectionPool : World -> result Pool * World.
Variable open : Pool -> World -> result unit * World.
Variable setup : Pool -> World -> result unit * World.
Variable compile : Pool -> Graph.

(** The three attributes of [LangGraphAgent] that start as [None]. *)
Record LangGraphAgent : Type := {
  _connection_pool : option Pool;
  _graph : option Graph;
  memory : option Memory;
}.

(** [LangGraphAgent.__init__], as far as these attributes go. *)
Definition fresh : LangGraphAgent :=
  {| _connection_pool := None; _graph := None; memory := None |}.

(** [LangGraphAgent._long_term_memory]. *)
Definition _long_term_memory (self : LangGraphAgent) (w : World)
  : result Memory * LangGraphAgent * World :=
  match memory self with
  | Some m => (Return m, self, w)
  | None =>
      match from_config w with
      | (Return m, w1) =>
          (Return m,
           {| _connection_pool := _connection_pool self; _graph := _graph self;
              memory := Some m |}, w1)
      | (Raise e, w1) => (Raise e, self, w1)
      end
  end.

(** [LangGraphAgent._get_connection_pool]: the pool is assigned to the
    attribute before it is opened. *)
Definition _get_connection_pool (self : LangGraphAgent) (w : World)
  : result Pool * LangGraphAgent * World :=
  match _connection_pool self with
  | Some pool => (Return pool, self, w)
  | None =>
      match AsyncConnectionPool w with
      | (Raise e, w1) => (Raise e, self, w1)
      | (Return pool, w1) =>
          let self1 := {| _connection_pool := Some pool; _graph := _graph self;
                          memory := memory self |} in
          match open pool w1 with
          | (Return _, w2) => (Return pool, self1, w2)
          | (Raise e, w2) => (Raise e, self1, w2)
          end
      end
  end.

(** [LangGraphAgent.create_graph]. *)
Definition create_graph (self : LangGraphAgent) (w : World)
  : result Graph * LangGraphAgent * World :=
  match _graph self with
  | Some graph => (Return graph, self, w)
  | None =>
      match _get_connection_pool self w with
      | (Raise e, self1, w1) => (Raise e, self1, w1)
      | (Return connection_pool, self1, w1) =>
          match setup connection_pool w1 with
          | (Raise e, w2) => (Raise e, self1, w2)
          | (Return _, w2) =>
              let graph := compile connection_pool in
              (Return graph,
               {| _connection_pool := _connection_pool self1;
                  _graph := Some graph; memory := memory self1 |}, w2)
          end
      end
  end.

End Lazy.

(** An outside that counts the calls made to it: a database that refuses
    the first [refused] attempts to open a pool. *)
Record Counts : Type := {
  configs : nat;
  pools : nat;
  opens : nat;
  setups : nat;
}.

Definition from_config_counting (w : Counts) : result nat * Counts :=
  (Return (configs w),
   {| configs := S (configs w); pools := pools w; opens := opens w;
      setups := setups w |}).

Definition pool_counting (w : Counts) : result nat * Counts :=
  (Return (pools w),
   {| configs := configs w; pools := S (pools w); opens := opens w;
      setups := setups w |}).

Definition open_counting (refused : nat) (pool : nat) (w : Counts)
  : result unit * Counts :=
  (if (opens w <? refused)%nat then Raise (OtherException "connection refused")
   else Return tt,
   {| configs := configs w; pools := pools w; opens := S (opens w);
      setups := setups w |}).

Definition setup_counting (pool : nat) (w : Counts) : result unit * Counts :=
  (Return tt,
   {| configs := configs w; pools := pools w; opens := opens w;
      setups := S (setups w) |}).

Definition nothing_yet : Counts :=
  {| configs := 0; pools := 0; opens := 0; setups := 0 |}.

End Resources.

(** * Properties *)

(** A state whose index is inside the registry has a registry with an entry. *)
Lemma index_ok_length (LLMS : list Entry) {C} (st : St C) :
  index_ok LLMS st -> exists n : nat, length LLMS = S n.
Proof.
  unfold index_ok. destruct LLMS as [|entry LLMS]; simpl; [lia | eauto].
Qed.

(** ** The registry and the construction of the service *)

Lemma get_loop_found (entries : list Entry) (model_name : string) (l : BaseChatModel) :
  get_loop entries model_name = Some l ->
  exists (i : nat) (entry : Entry),
    entries !! i = Some entry /\ entry_name entry = model_name
    /\ l = entry_llm entry
    /\ forall (j : nat) (entry' : Entry),
         (j < i)%nat -> entries !! j = Some entry' ->
         entry_name entry' <> model_name.
Proof.
  induction entries as [|entry0 entries IH]; simpl; [discriminate|].
  destruct (String.eqb (entry_name entry0) model_name) eqn:Heq.
  - intros [= <-]. apply String.eqb_eq in Heq.
    exists 0%nat, entry0. repeat split; auto. intros j entry' Hj; lia.
  - intros Hget. apply String.eqb_neq in Heq.
    destruct (IH Hget) as (i & entry & Hi & Hname & Hl & Hfirst).
    exists (S i), entry. repeat split; auto.
    intros [|j] entry' Hj Hlook; simpl in Hlook.
    + injection Hlook as <-. exact Heq.
    + apply (Hfirst j); [lia | exact Hlook].
Qed.

Lemma get_loop_absent (entries : list Entry) (model_name : string) :
  get_loop entries model_name = None <->
  model_name ∉ map entry_name entries.
Proof.
  induction entries as [|entry0 entries IH]; simpl.
  - split; [intros _; apply not_elem_of_nil | reflexivity].
  - destruct (String.eqb (entry_name entry0) model_name) eqn:Heq.
    + apply String.eqb_eq in Heq. split; [discriminate|].
      intros Hnot. exfalso. apply Hnot. rewrite Heq. apply list_elem_of_here.
    + apply String.eqb_neq in Heq. rewrite IH, not_elem_of_cons. intuition.
Qed.

Lemma list_index_absent (x : string) (l : list string) :
  list_index x l = None <-> x ∉ l.
Proof.
  induction l as [|y l IH]; simpl.
  - split; [intros _; apply not_elem_of_nil | reflexivity].
  - destruct (String.eqb y x) eqn:Heq.
    + apply String.eqb_eq in Heq. split; [discriminate|].
      intros Hnot. exfalso. apply Hnot. rewrite Heq. apply list_elem_of_here.
    + apply String.eqb_neq in Heq. rewrite not_elem_of_cons.
      destruct (list_index x l); simpl.
      * split; [discriminate|]. intros [_ Hnot]. exfalso. apply IH in Hnot.
        discriminate.
      * split; [|reflexivity]. intros _. split; [congruence|].
        apply IH. reflexivity.
Qed.

Lemma list_index_lt (x : string) (l : list string) (i : nat) :
  list_index x l = Some i -> (i < length l)%nat.
Proof.
  revert i. induction l as [|y l IH]; simpl; intros i; [discriminate|].
  destruct (String.eqb y x).
  - intros [= <-]. lia.
  - destruct (list_index x l) as [i'|]; simpl; [|discriminate].
    intros [= <-]. specialize (IH i' eq_refl). lia.
Qed.

(** An instance built by [__init__] has its index inside the registry. *)
Lemma LLMService_init_index (LLMS : list Entry) (settings : Settings)
    (self : LLMService) :
  LLMService_init LLMS settings = Return self ->
  (_current_model_index self < length LLMS)%nat.
Proof.
  unfold LLMService_init.
  destruct (LLMRegistry_get LLMS (DEFAULT_LLM_MODEL settings)); [|discriminate].
  destruct (list_index _ _) as [i|] eqn:Hidx.
  - intros [= <-]; simpl. apply list_index_lt in Hidx.
    unfold LLMRegistry_get_all_names in Hidx.
    rewrite length_map in Hidx. exact Hidx.
  - destruct LLMS as [|entry LLMS]; simpl; [discriminate|].
    intros [= <-]; simpl. lia.
Qed.

(** C10: over a registry that has an entry (as the source's has),
    [LLMRegistry.get] returns for every name: the model of the first entry
    of that name if there is one, else the model of the first entry; and a
    service built with a default model name that no entry has starts at
    index 0 with the first entry's model. *)
Theorem C10_registry_get_total (LLMS : list Entry) (settings : Settings) :
  LLMS <> [] ->
  (forall model_name : string,
      exists l : BaseChatModel,
        LLMRegistry_get LLMS model_name = Return l
        /\ (model_name ∈ LLMRegistry_get_all_names LLMS ->
            exists (i : nat) (entry : Entry),
              LLMS !! i = Some entry /\ entry_name entry = model_name
              /\ l = entry_llm entry
              /\ forall (j : nat) (entry' : Entry),
                   (j < i)%nat -> LLMS !! j = Some entry' ->
                   entry_name entry' <> model_name)
        /\ (model_name ∉ LLMRegistry_get_all_names LLMS ->
            exists entry : Entry, LLMS !! 0%nat = Some entry /\ l = entry_llm entry))
  /\ (DEFAULT_LLM_MODEL settings ∉ LLMRegistry_get_all_names LLMS ->
      exists entry : Entry,
        LLMS !! 0%nat = Some entry
        /\ LLMService_init LLMS settings
           = Return {| _llm := Some (entry_llm entry); _current_model_index := 0 |}).
Proof.
  intros Hne. destruct LLMS as [|entry0 LLMS]; [congruence|]. split.
  - intros model_name. unfold LLMRegistry_get, LLMRegistry_get_all_names.
    destruct (get_loop (entry0 :: LLMS) model_name) as [l|] eqn:Hget.
    + exists l. split; [reflexivity|]. split.
      * intros _. apply get_loop_found. exact Hget.
      * intros Hnot. apply get_loop_absent in Hnot. congruence.
    + exists (entry_llm entry0). split; [reflexivity|]. split.
      * intros Hin. apply get_loop_absent in Hget. contradiction.
      * intros _. exists entry0. split; reflexivity.
  - intros Hnot. exists entry0. split; [reflexivity|].
    unfold LLMService_init, LLMRegistry_get.
    pose proof Hnot as Hget. apply get_loop_absent in Hget. rewrite Hget.
    apply list_index_absent in Hnot. rewrite Hnot. reflexivity.
Qed.

(** C10 on the registry of the source, with a default model it does not list. *)
Lemma C10_registry_get_total_witness :
  LLMS_source <> []
  /\ LLMRegistry_get LLMS_source "gpt-4o" = Return (chat_model "gpt-4o")
  /\ LLMRegistry_get LLMS_source "gpt-3" = Return (chat_model "gpt-5-mini")
  /\ exists entry : Entry,
       LLMS_source !! 0%nat = Some entry
       /\ LLMService_init LLMS_source
            {| DEFAULT_LLM_MODEL := "gpt-3"; MAX_LLM_CALL_RETRIES := 3 |}
          = Return {| _llm := Some (entry_llm entry); _current_model_index := 0 |}.
Proof.
  assert (Hne : LLMS_source <> []) by discriminate.
  split; [exact Hne|]. split; [reflexivity|]. split; [reflexivity|].
  apply (C10_registry_get_total LLMS_source
           {| DEFAULT_LLM_MODEL := "gpt-3"; MAX_LLM_CALL_RETRIES := 3 |} Hne).
  simpl. vm_compute. intros Hin.
  repeat (apply elem_of_cons in Hin; destruct Hin as [Hin|Hin]; [discriminate|]).
  apply elem_of_nil in Hin. exact Hin.
Defined.

(** ** The retry decorator *)

Section Retry.

Variable LLMS : list Entry.
Variable settings : Settings.
Variable C : Collaborators.

(** The hook of the decorator raises: a retried error with an attempt left
    ends the loop with [TypeError], before any sleep. *)
Lemma retrying_unfold {A} (fuel : nat) (n : Z) (fn : M C A) (st : St C) :
  retrying settings C fuel n fn st =
  match fn st with
  | (Return a, st1) => (Return a, st1)
  | (Raise e, st1) =>
      if retry_if_exception_type e then
        if stop_after_attempt (MAX_LLM_CALL_RETRIES settings) n
        then (Raise e, st1)
        else
          match fuel with
          | O => (Raise e, st1)
          | S _ => (Raise TypeError, st1)
          end
      else (Raise e, st1)
  end.
Proof.
  destruct fuel; simpl; unfold try_except;
    destruct (fn st) as [[a|e] st1]; try reflexivity;
    destruct (retry_if_exception_type e); try reflexivity;
    destruct (stop_after_attempt _ n); reflexivity.
Qed.

(** The decorator stops by itself: fuel beyond the attempts that
    [stop_after_attempt] allows is never used. *)
Lemma retrying_fuel {A} (fuel : nat) (n : Z) (fn : M C A) (st : St C) :
  (Z.to_nat (MAX_LLM_CALL_RETRIES settings - n) <= fuel)%nat ->
  retrying settings C fuel n fn st =
  retrying settings C (Z.to_nat (MAX_LLM_CALL_RETRIES settings - n)) n fn st.
Proof.
  intros Hfuel. rewrite !retrying_unfold.
  destruct (fn st) as [[a|e] st1]; [reflexivity|].
  destruct (retry_if_exception_type e); [|reflexivity].
  unfold stop_after_attempt.
  destruct (Z.leb_spec (MAX_LLM_CALL_RETRIES settings) n) as [Hstop|Hgo];
    [reflexivity|].
  destruct (Z.to_nat (MAX_LLM_CALL_RETRIES settings - n)) as [|d] eqn:Hd; [lia|].
  destruct fuel; [lia | reflexivity].
Qed.

Lemma body_run (messages : list BaseMessage) (st : St C) :
  _call_with_retry_body C messages st =
  match _llm (llm_service st) with
  | None => (Raise (RuntimeError "LLM not initialized"), st)
  | Some l =>
      (fst (ainvoke C l messages (world st)),
       {| world := snd (ainvoke C l messages (world st));
          llm_service := llm_service st;
          trace := trace st ++ [EvInvoke l messages] |})
  end.
Proof.
  unfold _call_with_retry_body, bind, get_self.
  destruct (_llm (llm_service st)) as [l|]; [|reflexivity].
  unfold emit, lift_world; simpl.
  destruct (ainvoke C l messages (world st)) as [[m|e] w]; reflexivity.
Qed.

(** A run of the decorated call is one run of its body: the state is the
    one the body leaves, and so is the outcome, but for a retried error
    with an attempt left, which the hook replaces by [TypeError]. *)
Lemma retrying_body_run (messages : list BaseMessage) (fuel : nat) (n : Z)
    (st st' : St C) (r : result BaseMessage) :
  retrying settings C fuel n (_call_with_retry_body C messages) st = (r, st') ->
  st' = snd (_call_with_retry_body C messages st)
  /\ (r = fst (_call_with_retry_body C messages st)
      \/ (r = Raise TypeError
          /\ exists e : exn,
               fst (_call_with_retry_body C messages st) = Raise e
               /\ retry_if_exception_type e = true
               /\ stop_after_attempt (MAX_LLM_CALL_RETRIES settings) n = false)).
Proof.
  rewrite retrying_unfold.
  destruct (_call_with_retry_body C messages st) as [[m|e] st1]; simpl.
  - intros [= <- <-]. auto.
  - destruct (retry_if_exception_type e) eqn:Hretry; [|intros [= <- <-]; auto].
    destruct (stop_after_attempt _ n) eqn:Hstop; [intros [= <- <-]; auto|].
    destruct fuel; intros [= <- <-]; [auto|]. split; [reflexivity|].
    right. split; [reflexivity|]. exists e. auto.
Qed.

(** What a run of the decorated call leaves behind: the service object is
    untouched, the trace grows by invocations of the current model only
    (no sleep, no log line of the hook), and a returned message comes from
    an invocation. *)
Lemma retrying_body_frame (messages : list BaseMessage) (fuel : nat) (n : Z)
    (st st' : St C) (r : result BaseMessage) :
  retrying settings C fuel n (_call_with_retry_body C messages) st = (r, st') ->
  llm_service st' = llm_service st
  /\ exists evs : list event,
       trace st' = trace st ++ evs
       /\ switches evs = []
       /\ failed_rounds evs = []
       /\ Forall (fun e => retry_if_exception_type e = true) (retried_errors evs)
       /\ Forall (fun l => _llm (llm_service st) = Some l) (invoked evs)
       /\ (forall m, r = Return m ->
           exists l, last (invoked evs) = Some l
                     /\ _llm (llm_service st) = Some l).
Proof.
  intros Hrun. apply retrying_body_run in Hrun. destruct Hrun as [-> Hr].
  rewrite body_run in *.
  destruct (_llm (llm_service st)) as [l|] eqn:Hllm; simpl in *.
  - split; [reflexivity|]. exists [EvInvoke l messages].
    split; [reflexivity|]. split; [reflexivity|]. split; [reflexivity|].
    split; [constructor|]. split; [repeat constructor|].
    intros m _. exists l. split; reflexivity.
  - split; [reflexivity|]. exists []. rewrite app_nil_r.
    split; [reflexivity|]. split; [reflexivity|]. split; [reflexivity|].
    split; [constructor|]. split; [constructor|].
    intros m ->. destruct Hr as [Hr|[Hr _]]; discriminate.
Qed.

End Retry.

(** ** The fallback loop of [call] *)

Section Fallback.

Variable LLMS : list Entry.
Variable settings : Settings.
Variable C : Collaborators.

Local Abbreviation N := (length LLMS).
Local Abbreviation switched := (switched LLMS C).
Local Abbreviation failure_logged := (failure_logged LLMS C).
Local Abbreviation round_index := (round_index LLMS).
Local Abbreviation fallback_outcome := (fallback_outcome LLMS C).

Lemma after_switch_eq (e : exn) (st : St C) :
  after_switch LLMS e st = switched (failure_logged e st).
Proof.
  unfold after_switch, switched, failure_logged; simpl.
  rewrite <- app_assoc. reflexivity.
Qed.

Lemma switch_run (st : St C) :
  LLMS <> [] ->
  _switch_to_next_model LLMS C st = (Return true, switched st).
Proof.
  intros Hne. unfold _switch_to_next_model, bind, get_self.
  destruct N as [|n] eqn:HN.
  - destruct LLMS; [congruence | discriminate].
  - rewrite <- HN.
    assert (Hlt : ((_current_model_index (llm_service st) + 1) mod N < N)%nat)
      by (apply Nat.mod_upper_bound; lia).
    apply lookup_lt_is_Some_2 in Hlt. destruct Hlt as [entry Hentry].
    unfold switched. rewrite Hentry. reflexivity.
Qed.

Lemma call_loop_unfold (fuel tried : nat) (messages : list BaseMessage) (st : St C) :
  index_ok LLMS st ->
  (tried < N)%nat ->
  call_loop LLMS settings C (S fuel) tried N messages st =
  match _call_with_retry settings C messages st with
  | (Return m, st1) => (Return m, st1)
  | (Raise e, st1) =>
      if isinstance_OpenAIError e then
        if (N <=? tried + 1)%nat
        then (Raise exhausted_all_options, failure_logged e st1)
        else call_loop LLMS settings C fuel (tried + 1) N messages
               (after_switch LLMS e st1)
      else (Raise e, st1)
  end.
Proof.
  intros Hidx Htried. simpl.
  destruct (Nat.ltb_spec tried N) as [_|Hge]; [|lia].
  unfold try_except.
  destruct (_call_with_retry settings C messages st) as [[m|e] st1] eqn:Hrun;
    [reflexivity|].
  destruct (isinstance_OpenAIError e); [|reflexivity].
  apply retrying_body_frame in Hrun. destruct Hrun as [Hself _].
  unfold index_ok in Hidx. rewrite <- Hself in Hidx.
  unfold bind at 1, get_self.
  destruct (lookup_lt_is_Some_2 _ _ Hidx) as [entry Hentry]. rewrite Hentry.
  unfold bind at 1, emit at 1.
  assert (Hlog : {| world := world st1; llm_service := llm_service st1;
                    trace := trace st1
                             ++ [LogModelFailedExhaustedRetries (entry_name entry) e] |}
                 = failure_logged e st1).
  { unfold failure_logged. rewrite Hentry. reflexivity. }
  rewrite Hlog.
  destruct (N <=? tried + 1)%nat; [reflexivity|].
  unfold bind at 1. rewrite switch_run.
  - rewrite after_switch_eq. reflexivity.
  - intros ->. simpl in Hidx. lia.
Qed.

Lemma round_index_0 (i : nat) : (i < N)%nat -> round_index i 0 = i.
Proof.
  intros Hi. unfold round_index. rewrite Nat.add_0_r. apply Nat.mod_small, Hi.
Qed.

Lemma round_index_S (i j : nat) :
  round_index (round_index i 1) j = round_index i (S j).
Proof.
  unfold round_index. rewrite Nat.Div0.add_mod_idemp_l. f_equal. lia.
Qed.

Lemma call_loop_inv (messages : list BaseMessage) (fuel tried : nat)
    (st st' : St C) (r : result BaseMessage) :
  (tried + S fuel = N)%nat ->
  index_ok LLMS st ->
  call_loop LLMS settings C (S fuel) tried N messages st = (r, st') ->
  exists (k : nat) (evs : list event), fallback_outcome tried st st' r k evs.
Proof.
  revert tried st. induction fuel as [|fuel IH]; intros tried st Hfuel Hidx;
    (rewrite call_loop_unfold by (auto; lia));
    destruct (_call_with_retry settings C messages st) as [[m|e] st1] eqn:Hrun;
    apply retrying_body_frame in Hrun;
    destruct Hrun as (Hself & evs & Htrace & Hsw & Hfail & _ & _ & Hlast).
  all: try (intros [= <- <-]; exists 0%nat, evs; unfold fallback_outcome;
            rewrite Hself, Hsw, Hfail, round_index_0 by exact Hidx;
            repeat (split; [first [lia | reflexivity | exact Htrace
                                  | intros; lia | left; reflexivity]|]);
            intros m' Hm'; destruct (Hlast m' Hm') as (l & Hl & Hsome);
            exists l; split; [exact Hl | exact Hsome]).
  all: destruct (isinstance_OpenAIError e).
  all: try (intros [= <- <-]; exists 0%nat, evs; unfold fallback_outcome;
            rewrite Hself, Hsw, Hfail, round_index_0 by exact Hidx;
            repeat (split; [first [lia | reflexivity | exact Htrace
                                  | intros; lia | left; reflexivity]|]);
            intros m' Hm'; discriminate).
  all: destruct (Nat.leb_spec N (tried + 1)) as [Hlast_round|Hmore]; try lia.
  - (* the last backend left has failed *)
    intros [= <- <-].
    exists 0%nat, (evs ++ [LogModelFailedExhaustedRetries
                        (default "" (entry_name <$> LLMS !! _current_model_index (llm_service st1))) e]).
    unfold fallback_outcome, failure_logged; simpl.
    unfold switches, failed_rounds in *. rewrite !omap_app, Hsw, Hfail; simpl.
    rewrite Htrace, Hself, round_index_0, <- app_assoc by exact Hidx.
    repeat (split; [first [lia | reflexivity | intros; lia]|]).
    split; [right; repeat split; lia|]. intros m' Hm'; discriminate.
  - (* a switch, then the rest of the loop *)
    intros Hrest.
    assert (Hidx2 : index_ok LLMS (after_switch LLMS e st1)).
    { unfold index_ok, after_switch; simpl. apply Nat.mod_upper_bound. lia. }
    apply IH in Hrest; [|lia|exact Hidx2].
    destruct Hrest as (k & evs' & Hk & Htrace' & Hsw' & Hindex & Hsame & Hllm
                       & Hrounds & Hret).
    simpl in Hk, Htrace', Hsw', Hindex, Hsame, Hllm, Hrounds, Hret.
    rewrite Hself in *.
    set (i := _current_model_index (llm_service st)) in *.
    change ((i + 1) mod N)%nat with (round_index i 1) in *.
    rewrite round_index_S in *.
    exists (S k),
      (evs ++ [LogModelFailedExhaustedRetries (default "" (entry_name <$> LLMS !! i)) e;
               LogSwitchingModelFallback i
                 (default "" (entry_name <$> LLMS !! round_index i 1))] ++ evs').
    unfold fallback_outcome. fold i.
    split; [lia|].
    split; [rewrite Htrace', Htrace, <- !app_assoc; reflexivity|].
    split.
    { unfold switches in *. rewrite !omap_app, Hsw, Hsw'. simpl.
      rewrite (round_index_0 i) by exact Hidx. f_equal.
      rewrite <- seq_shift, map_map. apply map_ext. intros j.
      apply round_index_S. }
    split; [exact Hindex|].
    split; [intros; lia|].
    split.
    { intros _. destruct k as [|k].
      - rewrite Hsame by reflexivity. reflexivity.
      - apply Hllm. lia. }
    split.
    { unfold failed_rounds in *. rewrite !omap_app, Hfail. simpl.
      destruct Hrounds as [Hr|(Hr & Hn & Hexh)]; [left; lia | right].
      repeat split; [lia | lia | exact Hexh]. }
    intros m' Hm'. destruct (Hret m' Hm') as (l & Hl & Hsome).
    exists l. split; [|exact Hsome].
    unfold invoked in *. rewrite !omap_app. simpl.
    rewrite last_app, Hl. reflexivity.
Qed.

End Fallback.

(** ** One backend's round *)

Lemma retry_if_exception_type_APIError (e : exn) :
  retry_if_exception_type e = isinstance_APIError e.
Proof. destruct e; reflexivity. Qed.

Lemma isinstance_APIError_OpenAIError (e : exn) :
  isinstance_APIError e = true -> isinstance_OpenAIError e = true.
Proof. destruct e; simpl; congruence. Qed.

(** The wait object of the decorator: its values lie between 2 and 10
    seconds, never decrease, and start 2, 2, 4, 8, 10, 10. *)
Lemma wait_bounds (n : Z) : (2 <= wait n <= 10)%Z.
Proof. unfold wait, wait_exponential. lia. Qed.

Lemma wait_nondecreasing (n m : Z) : (1 <= n <= m)%Z -> (wait n <= wait m)%Z.
Proof.
  intros Hnm. unfold wait, wait_exponential.
  assert (2 ^ (n - 1) <= 2 ^ (m - 1))%Z by (apply Z.pow_le_mono_r; lia).
  lia.
Qed.

Lemma wait_values :
  map wait (zseq 1 6) = [2; 2; 4; 8; 10; 10]%Z.
Proof. reflexivity. Qed.

Section Round.

Variable settings : Settings.
Variable C : Collaborators.

Local Abbreviation MAX := (MAX_LLM_CALL_RETRIES settings).
Local Abbreviation model_invoked := (model_invoked C).

(** One backend's round in closed form: the model held is invoked once; its
    message is returned; its error is raised again, unless it is of a
    retried class and the settings allow a second attempt: then the round
    ends with the [TypeError] of the hook. *)
Lemma call_with_retry_run (messages : list BaseMessage) (l : BaseChatModel)
    (st : St C) :
  _llm (llm_service st) = Some l ->
  _call_with_retry settings C messages st =
  (match fst (ainvoke C l messages (world st)) with
   | Return m => Return m
   | Raise e =>
       if isinstance_APIError e && (1 <? MAX)%Z then Raise TypeError else Raise e
   end,
   model_invoked l messages st).
Proof.
  intros Hllm. unfold _call_with_retry.
  rewrite retrying_unfold, body_run, Hllm. unfold model_invoked.
  destruct (fst (ainvoke C l messages (world st))) as [m|e]; [reflexivity|].
  rewrite retry_if_exception_type_APIError.
  destruct (isinstance_APIError e); [|reflexivity].
  unfold stop_after_attempt. simpl andb.
  destruct (Z.leb_spec MAX 1) as [Hstop|Hgo];
    destruct (Z.ltb_spec 1 MAX) as [Hgo'|Hstop']; try lia; [reflexivity|].
  destruct (Z.to_nat MAX) eqn:Hfuel; [lia | reflexivity].
Qed.

(** A service that holds no model raises before any invocation. *)
Lemma call_with_retry_no_model (messages : list BaseMessage) (st : St C) :
  _llm (llm_service st) = None ->
  _call_with_retry settings C messages st
  = (Raise (RuntimeError "LLM not initialized"), st).
Proof.
  intros Hllm. unfold _call_with_retry.
  rewrite retrying_unfold, body_run, Hllm. reflexivity.
Qed.

(** When every round fails, a round raises an [OpenAIError]. *)
Lemma call_with_retry_fails (messages : list BaseMessage) (l : BaseChatModel)
    (st : St C) :
  every_round_fails settings C ->
  _llm (llm_service st) = Some l ->
  exists (e : exn) (st1 : St C),
    _call_with_retry settings C messages st = (Raise e, st1)
    /\ isinstance_OpenAIError e = true.
Proof.
  intros Hdown Hllm. rewrite (call_with_retry_run messages l st Hllm).
  destruct (Hdown l messages (world st)) as (e & -> & Hopenai & Hsingle).
  exists e, (model_invoked l messages st). split; [|exact Hopenai].
  destruct (isinstance_APIError e); [|reflexivity].
  destruct (Z.ltb_spec 1 MAX) as [Hgo|_]; [|reflexivity].
  specialize (Hsingle eq_refl). lia.
Qed.

End Round.

(** ** Circular fallback *)

Section FallbackTheorems.

Variable LLMS : list Entry.
Variable settings : Settings.
Variable C : Collaborators.

Local Abbreviation N := (length LLMS).

Lemma after_switch_index (e : exn) (st1 : St C) :
  LLMS <> [] ->
  _current_model_index (llm_service (after_switch LLMS e st1))
  = ((_current_model_index (llm_service st1) + 1) mod N)%nat
  /\ exists entry : Entry,
       LLMS !! ((_current_model_index (llm_service st1) + 1) mod N)%nat = Some entry
       /\ _llm (llm_service (after_switch LLMS e st1)) = Some (entry_llm entry).
Proof.
  intros Hne. split; [reflexivity|].
  assert (Hlt : ((_current_model_index (llm_service st1) + 1) mod N < N)%nat).
  { apply Nat.mod_upper_bound. destruct LLMS; simpl; [congruence | lia]. }
  destruct (lookup_lt_is_Some_2 _ _ Hlt) as [entry Hentry].
  exists entry. split; [exact Hentry|]. simpl. rewrite Hentry. reflexivity.
Qed.

Lemma call_loop_all_fail (messages : list BaseMessage) (fuel tried : nat)
    (st : St C) :
  every_round_fails settings C ->
  (tried + S fuel = N)%nat ->
  index_ok LLMS st ->
  is_Some (_llm (llm_service st)) ->
  exists (st' : St C) (evs : list event),
    call_loop LLMS settings C (S fuel) tried N messages st
    = (Raise exhausted_all_options, st')
    /\ trace st' = trace st ++ evs
    /\ length (failed_rounds evs) = S fuel
    /\ length (switches evs) = fuel
    /\ _current_model_index (llm_service st')
       = round_index LLMS (_current_model_index (llm_service st)) fuel.
Proof.
  intros Hdown. revert tried st.
  induction fuel as [|fuel IH]; intros tried st Hfuel Hidx [l Hllm];
    (rewrite call_loop_unfold by (auto; lia));
    destruct (call_with_retry_fails settings C messages l st Hdown Hllm)
      as (e & st1 & Hrun & Hopenai);
    rewrite Hrun, Hopenai;
    apply retrying_body_frame in Hrun;
    destruct Hrun as (Hself & evs & Htrace & Hsw & Hfail & _);
    destruct (Nat.leb_spec N (tried + 1)) as [Hlast_round|Hmore]; try lia.
  - exists (failure_logged LLMS C e st1),
      (evs ++ [LogModelFailedExhaustedRetries
                 (default "" (entry_name <$> LLMS !! _current_model_index (llm_service st1)))
                 e]).
    split; [reflexivity|]. unfold failure_logged; simpl.
    unfold failed_rounds, switches in *. rewrite !omap_app, Hsw, Hfail, Htrace.
    simpl. rewrite <- app_assoc, Hself, round_index_0 by exact Hidx.
    repeat split.
  - assert (Hne : LLMS <> []) by (intros ->; simpl in Hmore; lia).
    destruct (after_switch_index e st1 Hne) as (Hindex & entry & _ & Hllm2).
    destruct (IH (tried + 1)%nat (after_switch LLMS e st1)) as
      (st' & evs' & Hloop & Htrace' & Hfail' & Hsw' & Hindex');
      [lia | unfold index_ok; rewrite Hindex; apply Nat.mod_upper_bound; lia
      | rewrite Hllm2; eauto |].
    exists st',
      (evs ++ [LogModelFailedExhaustedRetries
                 (default "" (entry_name <$> LLMS !! _current_model_index (llm_service st1))) e;
               LogSwitchingModelFallback (_current_model_index (llm_service st1))
                 (default "" (entry_name <$> LLMS
                    !! ((_current_model_index (llm_service st1) + 1) mod N)%nat))]
            ++ evs').
    split; [exact Hloop|].
    split; [rewrite Htrace'; simpl; rewrite Htrace, <- !app_assoc; reflexivity|].
    unfold failed_rounds, switches in *. rewrite !omap_app, Hsw, Hfail. simpl.
    rewrite Hfail', Hsw', Hindex', Hindex, Hself.
    repeat split. apply round_index_S.
Qed.

End FallbackTheorems.

(** C1, on the test of the specification at the defaults of the source
    ([MAX_LLM_CALL_RETRIES = 3]): backends 0 and 1 fail every attempt with a
    rate-limit error, backend 2 would answer.  The first failure is a
    retried error with attempts left, so the decorator calls its
    [before_sleep] hook, which raises [TypeError]; [call] catches
    [OpenAIError] only, so its caller gets the [TypeError] after one
    invocation of backend 0: no second attempt, no failed round logged, no
    fallback transition, the service left as it was.  When every backend
    fails the outcome is the same, and not the terminal error.  With a
    single attempt a round the hook is not reached, and the same backends
    give the two transitions, from 0 and from 1, and the answer of
    backend 2. *)
Theorem C1_transient_failure_at_defaults :
  let st := initial two_backends_down tt service_at_0 in
  let '(r, st') := call LLMS_source settings_source two_backends_down [] st in
  let '(r_all, st_all) :=
    call LLMS_source settings_source all_backends_down []
      (initial all_backends_down tt service_at_0) in
  let '(r1, st1) := call LLMS_source settings_single_attempt two_backends_down [] st in
  MAX_LLM_CALL_RETRIES settings_source = 3%Z
  /\ r = Raise TypeError
  /\ invoked (trace st') = [chat_model "gpt-5-mini"]
  /\ sleeps (trace st') = []
  /\ failed_rounds (trace st') = []
  /\ switches (trace st') = []
  /\ llm_service st' = service_at_0
  /\ r_all = Raise TypeError
  /\ invoked (trace st_all) = [chat_model "gpt-5-mini"]
  /\ r1 = answer "ok"
  /\ switches (trace st1) = [0; 1]%nat
  /\ invoked (trace st1)
     = [chat_model "gpt-5-mini"; chat_model "gpt-4o"; chat_model "gpt-4o-mini"]
  /\ llm_service st1
     = {| _llm := Some (chat_model "gpt-4o-mini"); _current_model_index := 2 |}.
Proof. vm_compute. repeat split. Qed.

(** ** The sticky index *)

Section Sticky.

Variable LLMS : list Entry.
Variable settings : Settings.
Variable C : Collaborators.

Local Abbreviation N := (length LLMS).

Lemma round_index_fixed (i k : nat) :
  (i < N)%nat -> (k < N)%nat -> round_index LLMS i k = i <-> k = 0%nat.
Proof.
  intros Hi Hk. unfold round_index. split.
  - intros Hmod. destruct (Nat.lt_ge_cases (i + k) N) as [Hlt|Hge].
    + rewrite Nat.mod_small in Hmod by exact Hlt. lia.
    + replace (i + k)%nat with ((i + k - N) + 1 * N)%nat in Hmod by lia.
      rewrite Nat.Div0.mod_add, Nat.mod_small in Hmod by lia. lia.
  - intros ->. rewrite Nat.add_0_r. apply Nat.mod_small, Hi.
Qed.

(** A call first invokes the model the service holds when it starts. *)
Lemma call_first_invocation (messages : list BaseMessage) (st st' : St C)
    (r : result BaseMessage) :
  index_ok LLMS st ->
  call LLMS settings C messages st = (r, st') ->
  exists evs : list event,
    trace st' = trace st ++ evs
    /\ head (invoked evs) = _llm (llm_service st).
Proof.
  intros Hidx Hcall.
  destruct (index_ok_length LLMS st Hidx) as [n HN]. unfold call in Hcall. rewrite HN in Hcall at 1.
  rewrite call_loop_unfold in Hcall by (auto; lia).
  destruct (_call_with_retry settings C messages st) as [r1 st1] eqn:Hrun.
  destruct (_llm (llm_service st)) as [l|] eqn:Hllm.
  - pose proof Hrun as Hone.
    rewrite (call_with_retry_run settings C messages l st Hllm) in Hone.
    injection Hone as _ Hst1.
    assert (Htrace : trace st1 = trace st ++ [EvInvoke l messages])
      by (rewrite <- Hst1; reflexivity).
    clear Hst1. remember [EvInvoke l messages] as evs eqn:Hevs.
    assert (Hhead : forall rest, head (invoked (evs ++ rest)) = Some l)
      by (intros rest; rewrite Hevs; reflexivity).
    pose proof Hrun as Hframe. apply retrying_body_frame in Hframe.
    destruct Hframe as [Hself _].
    destruct r1 as [m|e].
    + injection Hcall as <- <-. exists evs. split; [exact Htrace|].
      rewrite <- (app_nil_r evs). apply Hhead.
    + destruct (isinstance_OpenAIError e).
      * destruct (Nat.leb_spec N (0 + 1)) as [Hlast_round|Hmore].
        -- injection Hcall as <- <-. eexists (evs ++ [_]).
           split; [|apply Hhead]. unfold failure_logged; simpl.
           rewrite Htrace, <- app_assoc. reflexivity.
        -- destruct n as [|n]; [lia|].
           apply call_loop_inv in Hcall;
             [|lia|unfold index_ok; simpl; apply Nat.mod_upper_bound; lia].
           destruct Hcall as (k' & evs' & _ & Htrace' & _).
           simpl in Htrace'.
           exists (evs ++ [LogModelFailedExhaustedRetries
                             (default "" (entry_name <$> LLMS
                                !! _current_model_index (llm_service st1))) e;
                           LogSwitchingModelFallback
                             (_current_model_index (llm_service st1))
                             (default "" (entry_name <$> LLMS
                                !! ((_current_model_index (llm_service st1) + 1)
                                      mod N)%nat))] ++ evs').
           split; [|apply Hhead].
           rewrite Htrace', Htrace, <- !app_assoc. reflexivity.
      * injection Hcall as <- <-. exists evs. split; [exact Htrace|].
        rewrite <- (app_nil_r evs). apply Hhead.
  - unfold _call_with_retry in Hrun.
    rewrite retrying_unfold, body_run, Hllm in Hrun. simpl in Hrun.
    injection Hrun as <- <-. simpl in Hcall. injection Hcall as <- <-.
    exists []. rewrite app_nil_r. split; reflexivity.
Qed.

(** C4: a call never resets the index: it leaves it [k] places further
    round the registry, [k < N] being the number of fallback switches of
    that call, so the index is where it was exactly when the call did not
    switch; a message returned after a switch comes from the entry the index
    now points at, and the next call starts by invoking that model.  Only
    [__init__] sets the index from the default model's name. *)
Theorem C4_sticky_index (messages : list BaseMessage) (st st' : St C)
    (r : result BaseMessage) :
  index_ok LLMS st ->
  call LLMS settings C messages st = (r, st') ->
  let i := _current_model_index (llm_service st) in
  let i' := _current_model_index (llm_service st') in
  index_ok LLMS st'
  /\ (exists (k : nat) (evs : list event),
        trace st' = trace st ++ evs
        /\ length (switches evs) = k
        /\ (k < N)%nat
        /\ i' = ((i + k) mod N)%nat
        /\ (i' = i <-> k = 0%nat)
        /\ (k = 0%nat -> llm_service st' = llm_service st)
        /\ (forall m, r = Return m ->
            exists l, last (invoked evs) = Some l
                      /\ _llm (llm_service st') = Some l
                      /\ ((0 < k)%nat -> (entry_llm <$> LLMS !! i') = Some l)))
  /\ (forall (messages2 : list BaseMessage) (r2 : result BaseMessage) (st2 : St C),
        call LLMS settings C messages2 st' = (r2, st2) ->
        exists evs2 : list event,
          trace st2 = trace st' ++ evs2
          /\ head (invoked evs2) = _llm (llm_service st'))
  /\ (forall self : LLMService,
        LLMService_init LLMS settings = Return self ->
        list_index (DEFAULT_LLM_MODEL settings) (LLMRegistry_get_all_names LLMS)
        = Some (_current_model_index self)
        \/ ((DEFAULT_LLM_MODEL settings ∉ LLMRegistry_get_all_names LLMS)
            /\ _current_model_index self = 0%nat)).
Proof.
  intros Hidx Hcall i i'.
  destruct (index_ok_length LLMS st Hidx) as [n HN]. pose proof Hcall as Hinv.
  unfold call in Hinv. rewrite HN in Hinv at 1.
  apply call_loop_inv in Hinv; [|lia|exact Hidx].
  destruct Hinv as (k & evs & Hk & Htrace & Hsw & Hindex & Hsame & Hllm & _ & Hret).
  assert (Hidx' : index_ok LLMS st').
  { unfold index_ok. rewrite Hindex. apply Nat.mod_upper_bound. lia. }
  split; [exact Hidx'|]. split; [|split].
  - exists k, evs. split; [exact Htrace|].
    split; [rewrite Hsw, length_map, length_seq; reflexivity|].
    split; [lia|]. split; [exact Hindex|].
    split; [unfold i'; rewrite Hindex; apply round_index_fixed; [exact Hidx | lia]|].
    split; [exact Hsame|].
    intros m Hm. destruct (Hret m Hm) as (l & Hl & Hsome).
    exists l. split; [exact Hl|]. split; [exact Hsome|].
    intros Hpos. unfold i'. rewrite Hindex, <- Hllm by exact Hpos. exact Hsome.
  - intros messages2 r2 st2 Hcall2.
    apply (call_first_invocation messages2 st' st2 r2 Hidx' Hcall2).
  - intros self. unfold LLMService_init.
    destruct (LLMRegistry_get LLMS (DEFAULT_LLM_MODEL settings)); [|discriminate].
    destruct (list_index _ _) as [j|] eqn:Hj.
    + intros [= <-]. left. reflexivity.
    + apply list_index_absent in Hj.
      destruct (LLMS !! 0%nat); [|discriminate].
      intros [= <-]. right. split; [exact Hj | reflexivity].
Qed.

End Sticky.

(** C4 on a call that falls back twice, with the settings of the source:
    backends 0 and 1 raise an [OpenAIError] that is not retried, backend 2
    answers.  The call leaves the index at 2, and the next call starts on
    that backend. *)
Lemma C4_sticky_index_witness :
  let st := initial two_backends_reject tt service_at_0 in
  let st' := snd (call LLMS_source settings_source two_backends_reject [] st) in
  index_ok LLMS_source st
  /\ fst (call LLMS_source settings_source two_backends_reject [] st) = answer "ok"
  /\ switches (trace st') = [0; 1]%nat
  /\ _current_model_index (llm_service st') = 2%nat
  /\ exists evs2 : list event,
       trace (snd (call LLMS_source settings_source two_backends_reject [] st'))
       = trace st' ++ evs2
       /\ head (invoked evs2) = Some (chat_model "gpt-4o-mini").
Proof.
  intros st st'.
  assert (Hidx : index_ok LLMS_source st) by (unfold index_ok; simpl; lia).
  split; [exact Hidx|].
  assert (Hcall : call LLMS_source settings_source two_backends_reject [] st
                  = (answer "ok", st')) by (vm_compute; reflexivity).
  assert (Hcall2 : call LLMS_source settings_source two_backends_reject [] st'
                   = (answer "ok",
                      snd (call LLMS_source settings_source two_backends_reject [] st')))
    by (vm_compute; reflexivity).
  destruct (C4_sticky_index LLMS_source settings_source two_backends_reject [] st st'
              (answer "ok") Hidx Hcall) as (_ & _ & Hnext & _).
  split; [rewrite Hcall; reflexivity|].
  split; [vm_compute; reflexivity|].
  split; [vm_compute; reflexivity|].
  destruct (Hnext [] (answer "ok") _ Hcall2) as (evs2 & Htrace & Hhead).
  exists evs2. split; [exact Htrace | exact Hhead].
Defined.

(** ** Errors that are not retried *)

(** C2, as the specification states it, fails: the first backend raises an
    [OpenAIError] that is not of a retried class; the error is not retried,
    yet it does not reach the caller: [call] logs a failed round, switches
    to the next backend and returns that backend's answer. *)
Lemma C2_non_transient_openai_error_falls_back :
  let st := initial first_backend_rejects tt service_at_0 in
  let '(r, st') := call LLMS_source settings_source first_backend_rejects [] st in
  fst (_call_with_retry_body first_backend_rejects [] st) = Raise OpenAIError
  /\ retry_if_exception_type OpenAIError = false
  /\ r = answer "ok"
  /\ sleeps (trace st') = []
  /\ invoked (trace st') = [chat_model "gpt-5-mini"; chat_model "gpt-4o"]
  /\ switches (trace st') = [0%nat]
  /\ _current_model_index (llm_service st') = 1%nat.
Proof. vm_compute. repeat split. Qed.

Section NotRetried.

Variable LLMS : list Entry.
Variable settings : Settings.
Variable C : Collaborators.

Local Abbreviation N := (length LLMS).

Lemma retrying_not_retried (messages : list BaseMessage) (fuel : nat) (n : Z)
    (e : exn) (st st1 : St C) :
  _call_with_retry_body C messages st = (Raise e, st1) ->
  isinstance_APIError e = false ->
  retrying settings C fuel n (_call_with_retry_body C messages) st = (Raise e, st1).
Proof.
  intros Hbody Hapi.
  rewrite retrying_unfold, Hbody, retry_if_exception_type_APIError, Hapi.
  reflexivity.
Qed.

(** C2, amended: (a) the errors a round retries are all instances of
    [APIError], the class of rate-limit, timeout and generic API errors;
    (b) an attempt that raises any other error ends the round at once with
    that error; (c) if the error is not an [OpenAIError] either, [call]
    raises it to its caller in the state that attempt left: no sleep, no
    further attempt, no switch; (d) if it is an [OpenAIError], [call] counts
    the round as failed and goes on with the next backend. *)
Theorem C2_non_transient_errors (messages : list BaseMessage) (st : St C) :
  index_ok LLMS st ->
  (forall (r : result BaseMessage) (st' : St C),
      _call_with_retry settings C messages st = (r, st') ->
      exists evs : list event,
        trace st' = trace st ++ evs
        /\ Forall (fun e => isinstance_APIError e = true) (retried_errors evs))
  /\ (forall (fuel : nat) (n : Z) (e : exn) (st1 : St C),
        _call_with_retry_body C messages st = (Raise e, st1) ->
        isinstance_APIError e = false ->
        retrying settings C fuel n (_call_with_retry_body C messages) st
        = (Raise e, st1))
  /\ (forall (fuel tried : nat) (e : exn) (st1 : St C),
        (tried < N)%nat ->
        _call_with_retry_body C messages st = (Raise e, st1) ->
        isinstance_OpenAIError e = false ->
        call_loop LLMS settings C (S fuel) tried N messages st = (Raise e, st1)
        /\ (tried = 0%nat -> call LLMS settings C messages st = (Raise e, st1))
        /\ llm_service st1 = llm_service st
        /\ sleeps (trace st1) = sleeps (trace st)
        /\ switches (trace st1) = switches (trace st))
  /\ (forall (fuel tried : nat) (e : exn) (st1 : St C),
        (tried + 1 < N)%nat ->
        _call_with_retry_body C messages st = (Raise e, st1) ->
        isinstance_APIError e = false ->
        isinstance_OpenAIError e = true ->
        call_loop LLMS settings C (S fuel) tried N messages st
        = call_loop LLMS settings C fuel (tried + 1) N messages
            (after_switch LLMS e st1)).
Proof.
  intros Hidx. split; [|split; [|split]].
  - intros r st' Hrun. apply retrying_body_frame in Hrun.
    destruct Hrun as (_ & evs & Htrace & _ & _ & Hretried & _).
    exists evs. split; [exact Htrace|].
    eapply Forall_impl; [exact Hretried|]. intros e He.
    rewrite <- retry_if_exception_type_APIError. exact He.
  - intros fuel n e st1. apply retrying_not_retried.
  - intros fuel tried e st1 Htried Hbody Hopenai.
    assert (Hapi : isinstance_APIError e = false)
      by (destruct e; simpl in *; congruence).
    assert (Hloop : forall fuel' tried',
               (tried' < N)%nat ->
               call_loop LLMS settings C (S fuel') tried' N messages st
               = (Raise e, st1)).
    { intros fuel' tried' Htried'.
      rewrite call_loop_unfold by auto. unfold _call_with_retry.
      rewrite (retrying_not_retried messages _ _ e st st1 Hbody Hapi), Hopenai.
      reflexivity. }
    split; [apply Hloop, Htried|].
    split.
    { intros ->. destruct (index_ok_length LLMS st Hidx) as [n HN].
      unfold call. rewrite HN at 1. apply Hloop. lia. }
    rewrite body_run in Hbody.
    destruct (_llm (llm_service st)) as [l|].
    + injection Hbody as _ <-. simpl. unfold sleeps, switches.
      rewrite !omap_app. simpl. rewrite !app_nil_r. auto.
    + injection Hbody as _ <-. auto.
  - intros fuel tried e st1 Htried Hbody Hapi Hopenai.
    rewrite call_loop_unfold by (auto; lia). unfold _call_with_retry.
    rewrite (retrying_not_retried messages _ _ e st st1 Hbody Hapi), Hopenai.
    destruct (Nat.leb_spec N (tried + 1)); [lia | reflexivity].
Qed.

End NotRetried.

(** C2 amended, on the registry of the source: a [ValueError] of the first
    backend reaches the caller after one attempt; an [OpenAIError] of the
    first backend that is not an [APIError] makes the call go on with the
    second. *)
Lemma C2_non_transient_errors_witness :
  let st := initial backends_broken tt service_at_0 in
  let st1 := snd (_call_with_retry_body backends_broken [] st) in
  let st2 := initial first_backend_rejects tt service_at_0 in
  let st3 := snd (_call_with_retry_body first_backend_rejects [] st2) in
  index_ok LLMS_source st
  /\ call_loop LLMS_source settings_source backends_broken 3 0 3 [] st
     = (Raise ValueError, st1)
  /\ invoked (trace st1) = [chat_model "gpt-5-mini"]
  /\ call_loop LLMS_source settings_source first_backend_rejects 3 0 3 [] st2
     = call_loop LLMS_source settings_source first_backend_rejects 2 1 3 []
         (after_switch LLMS_source OpenAIError st3).
Proof.
  intros st st1 st2 st3.
  assert (Hidx : index_ok LLMS_source st) by (unfold index_ok; simpl; lia).
  assert (Hidx2 : index_ok LLMS_source st2) by (unfold index_ok; simpl; lia).
  split; [exact Hidx|].
  destruct (C2_non_transient_errors LLMS_source settings_source backends_broken
              [] st Hidx) as (_ & _ & Hraise & _).
  destruct (Hraise 2%nat 0%nat ValueError st1) as (Hloop & _);
    [simpl; lia | reflexivity | reflexivity |].
  split; [exact Hloop|]. split; [reflexivity|].
  destruct (C2_non_transient_errors LLMS_source settings_source
              first_backend_rejects [] st2 Hidx2) as (_ & _ & _ & Hswitch).
  apply (Hswitch 2%nat 0%nat OpenAIError st3);
    [simpl; lia | reflexivity | reflexivity | reflexivity].
Defined.

(** ** The retries of the source's decorator *)


(** ** The [tool_call] node *)

Section ToolCall.

Variable C : Collaborators.
Variable tools : list BaseTool.

Local Abbreviation resolve := (resolve tools).
Local Abbreviation invocation_of := (invocation_of tools).
Local Abbreviation tool_invoked := (tool_invoked C).
Local Abbreviation tools_return := (tools_return C).

Lemma tools_by_name_name (n : string) (tool : BaseTool) :
  tools_by_name tools !! n = Some tool -> tool_name tool = n.
Proof.
  unfold tools_by_name.
  assert (Hgen : forall (l : list BaseTool) (d : gmap string BaseTool),
             (forall n t, d !! n = Some t -> tool_name t = n) ->
             forall n t,
               foldl (fun d tool => <[tool_name tool := tool]> d) d l !! n = Some t ->
               tool_name t = n).
  { induction l as [|tool0 l IH]; intros d Hd n0 t; simpl; [apply Hd|].
    apply IH. intros n1 t1 Hlook.
    apply lookup_insert_Some in Hlook.
    destruct Hlook as [[<- <-]|[_ Hlook]]; [reflexivity | apply Hd, Hlook]. }
  apply Hgen. intros n0 t Hempty. rewrite lookup_empty in Hempty. discriminate.
Qed.

Lemma tool_call_loop_unfold (tc : ToolCall) (rest : list ToolCall)
    (outputs : list BaseMessage) (st : St C) :
  _tool_call_loop C tools (tc :: rest) outputs st =
  match resolve tc with
  | None => (Raise (KeyError (tc_name tc)), st)
  | Some tool =>
      match fst (tool_ainvoke C tool (tc_args tc) (world st)) with
      | Return s =>
          _tool_call_loop C tools rest
            (outputs ++ [ToolMessage s (tc_name tc) (tc_id tc)])
            (tool_invoked tool (tc_args tc) st)
      | Raise e => (Raise e, tool_invoked tool (tc_args tc) st)
      end
  end.
Proof.
  simpl. unfold resolve. destruct (tools_by_name tools !! tc_name tc) as [tool|];
    [|reflexivity].
  unfold bind, emit, lift_world, tool_invoked; simpl.
  destruct (tool_ainvoke C tool (tc_args tc) (world st)) as [[s|e] w]; reflexivity.
Qed.

(** Tools that never raise make the invocations of any message return. *)
Lemma tools_return_invocations (tool_calls : list ToolCall) (w : World C) :
  tools_return -> invocations_return C tools tool_calls w.
Proof.
  intros Hret. revert w. induction tool_calls as [|tc rest IH]; intros w; simpl; [exact I|].
  destruct (resolve tc) as [tool|]; [|exact I]. split; [apply Hret | apply IH].
Qed.

(** The loop over requests that all resolve and whose invocations return. *)
Lemma tool_call_loop_results (tool_calls : list ToolCall) :
  Forall (fun tc => is_Some (resolve tc)) tool_calls ->
  forall (outputs : list BaseMessage) (st : St C),
    invocations_return C tools tool_calls (world st) ->
    exists (results : list BaseMessage) (st' : St C) (evs : list event),
      _tool_call_loop C tools tool_calls outputs st = (Return (outputs ++ results), st')
      /\ Forall2 answers tool_calls results
      /\ llm_service st' = llm_service st
      /\ trace st' = trace st ++ evs
      /\ tool_invocations evs = omap invocation_of tool_calls.
Proof.
  intros Hres. induction Hres as [|tc rest [tool Htool] _ IH];
    intros outputs st Hret.
  - exists [], st, []. simpl. unfold ret. rewrite !app_nil_r.
    repeat split. constructor.
  - rewrite tool_call_loop_unfold, Htool.
    simpl in Hret. rewrite Htool in Hret. destruct Hret as [[s Hs] Hrest].
    rewrite Hs.
    destruct (IH (outputs ++ [ToolMessage s (tc_name tc) (tc_id tc)])
                (tool_invoked tool (tc_args tc) st) Hrest)
      as (results & st' & evs & Hloop & Hans & Hself & Htrace & Hinv).
    exists (ToolMessage s (tc_name tc) (tc_id tc) :: results), st',
      (EvToolInvoke tool (tc_args tc) :: evs).
    split; [rewrite Hloop, <- app_assoc; reflexivity|].
    split; [constructor; [exists s; reflexivity | exact Hans]|].
    split; [exact Hself|].
    split; [rewrite Htrace; simpl; rewrite <- app_assoc; reflexivity|].
    simpl. unfold invocation_of at 1. rewrite Htool. simpl. rewrite Hinv.
    reflexivity.
Qed.

(** The loop over requests one of which names no tool. *)
Lemma tool_call_loop_unknown (pre post : list ToolCall) (tc : ToolCall) :
  resolve tc = None ->
  forall (outputs : list BaseMessage) (st : St C),
    exists (e : exn) (st' : St C) (evs : list event),
      _tool_call_loop C tools (pre ++ tc :: post) outputs st = (Raise e, st')
      /\ llm_service st' = llm_service st
      /\ trace st' = trace st ++ evs
      /\ (length (tool_invocations evs) <= length pre)%nat
      /\ (tools_return ->
          Forall (fun tc' => is_Some (resolve tc')) pre ->
          e = KeyError (tc_name tc)
          /\ tool_invocations evs = omap invocation_of pre).
Proof.
  intros Hnone. induction pre as [|tc0 pre IH]; intros outputs st.
  - exists (KeyError (tc_name tc)), st, []. simpl app at 1.
    rewrite tool_call_loop_unfold, Hnone, app_nil_r. simpl.
    split; [reflexivity|]. split; [reflexivity|]. split; [reflexivity|].
    split; [lia|]. intros _ _. split; reflexivity.
  - simpl app at 1. rewrite tool_call_loop_unfold.
    destruct (resolve tc0) as [tool|] eqn:Htool.
    + destruct (fst (tool_ainvoke C tool (tc_args tc0) (world st))) as [s|e] eqn:Hrun.
      * destruct (IH (outputs ++ [ToolMessage s (tc_name tc0) (tc_id tc0)])
                    (tool_invoked tool (tc_args tc0) st))
          as (e & st' & evs & Hloop & Hself & Htrace & Hlen & Hexact).
        exists e, st', (EvToolInvoke tool (tc_args tc0) :: evs).
        split; [exact Hloop|]. split; [exact Hself|].
        split; [rewrite Htrace; simpl; rewrite <- app_assoc; reflexivity|].
        split; [simpl; lia|].
        intros Hret Hres. apply Forall_cons in Hres. destruct Hres as [_ Hres].
        destruct (Hexact Hret Hres) as [-> Hinv].
        split; [reflexivity|]. simpl. unfold invocation_of at 1.
        rewrite Htool. simpl. rewrite Hinv. reflexivity.
      * exists e, (tool_invoked tool (tc_args tc0) st), [EvToolInvoke tool (tc_args tc0)].
        split; [reflexivity|]. split; [reflexivity|]. split; [reflexivity|].
        split; [simpl; lia|].
        intros Hret _. destruct (Hret tool (tc_args tc0) (world st)) as [s Hs].
        congruence.
    + exists (KeyError (tc_name tc0)), st, []. rewrite app_nil_r.
      split; [reflexivity|]. split; [reflexivity|]. split; [reflexivity|].
      split; [simpl; lia|].
      intros _ Hres. apply Forall_cons in Hres. destruct Hres as [[t Ht] _].
      congruence.
Qed.

End ToolCall.

(** ** The graph and the turn *)

Section Turn.

Variable LLMS : list Entry.
Variable settings : Settings.
Variable C : Collaborators.
Variable tools : list BaseTool.
Variable load_system_prompt : string -> result string.
Variable prepare_messages :
  list BaseMessage -> option BaseChatModel -> string -> list Message.
Variable dump_messages : list Message -> list BaseMessage.
Variable process_llm_response : BaseMessage -> BaseMessage.

Local Abbreviation run_nodes' :=
  (run_nodes LLMS settings C tools load_system_prompt prepare_messages
     dump_messages process_llm_response).
Local Abbreviation get_response' :=
  (get_response LLMS settings C tools load_system_prompt prepare_messages
     dump_messages process_llm_response).
Local Abbreviation setup := (setup C).
Local Abbreviation searched := (searched C).
Local Abbreviation run_turn :=
  (run_turn LLMS settings C tools load_system_prompt prepare_messages
     dump_messages process_llm_response).

Lemma setup_frame (st st1 : St C) (r : result unit) :
  setup st = (r, st1) ->
  llm_service st1 = llm_service st /\ trace st1 = trace st.
Proof.
  unfold setup, bind, lift_world.
  destruct (create_graph C (world st)) as [[[]|e] w]; simpl.
  - destruct (_long_term_memory C w) as [[[]|e] w']; intros [= <- <-]; auto.
  - intros [= <- <-]; auto.
Qed.

Lemma get_response_unfold (messages : list Message) (session_id user_id : string)
    (st : St C) :
  get_response' messages session_id user_id st =
  match setup st with
  | (Raise e, st1) => (Raise e, st1)
  | (Return _, st1) =>
      match last messages with
      | None => (Raise IndexError, st1)
      | Some m =>
          match fst (memory_search C user_id (content m) (world st1)) with
          | Raise e => (Raise e, searched user_id (content m) st1)
          | Return relevant_memory =>
              run_turn messages session_id user_id relevant_memory
                (searched user_id (content m) st1)
          end
      end
  end.
Proof.
  unfold get_response, setup.
  cbv beta iota delta [bind lift_world emit searched].
  destruct (create_graph C (world st)) as [[[]|e] w]; [|reflexivity].
  cbn [world llm_service trace].
  destruct (_long_term_memory C w) as [[[]|e] w']; [|reflexivity].
  destruct (last messages) as [m|]; [|reflexivity].
  cbn [world llm_service trace fst snd].
  destruct (memory_search C user_id (content m) w') as [[relevant|e] w2];
    cbn [fst snd]; [|reflexivity].
  unfold run_turn. cbv beta iota delta [bind emit]. reflexivity.
Qed.

Lemma run_nodes_tool_call (fuel : nat) (state : GraphState) (st : St C) :
  run_nodes' (S fuel) node_tool_call state st =
  match _tool_call C tools state st with
  | (Return command, st') =>
      run_nodes' fuel (goto command) (apply_update state command) st'
  | (Raise e, st') => (Raise e, st')
  end.
Proof. reflexivity. Qed.

End Turn.

Section TurnTheorems.

Variable LLMS : list Entry.
Variable settings : Settings.
Variable C : Collaborators.
Variable tools : list BaseTool.
Variable load_system_prompt : string -> result string.
Variable prepare_messages :
  list BaseMessage -> option BaseChatModel -> string -> list Message.
Variable dump_messages : list Message -> list BaseMessage.
Variable process_llm_response : BaseMessage -> BaseMessage.

Local Abbreviation run_nodes' :=
  (run_nodes LLMS settings C tools load_system_prompt prepare_messages
     dump_messages process_llm_response).
Local Abbreviation get_response' :=
  (get_response LLMS settings C tools load_system_prompt prepare_messages
     dump_messages process_llm_response).
Local Abbreviation run_turn' :=
  (run_turn LLMS settings C tools load_system_prompt prepare_messages
     dump_messages process_llm_response).

(** C5, amended: when the last message is an assistant message whose [k]
    requests all name a tool of the registry, and the invocations of these
    requests all return (each tool on its request's arguments, one after
    the other, whatever the tools would do on other arguments), the
    [tool_call] node returns [k] tool-result messages, one per request in
    request order, each with the id and the name of its request, the name
    being that of the tool invoked; the tools are invoked once each in
    request order; the messages are appended to the state and the graph
    goes on with the chat node. *)
Theorem C5_tool_call_round_trip (state : GraphState) (text : string)
    (tool_calls : list ToolCall) (st : St C) :
  last (state_messages state) = Some (AIMessage text tool_calls) ->
  Forall (fun tc => is_Some (resolve tools tc)) tool_calls ->
  invocations_return C tools tool_calls (world st) ->
  exists (outputs : list BaseMessage) (st' : St C) (evs : list event),
    let command := {| update := outputs; goto := node_chat |} in
    _tool_call C tools state st = (Return command, st')
    /\ length outputs = length tool_calls
    /\ Forall2 answers tool_calls outputs
    /\ Forall (fun tc => exists tool, resolve tools tc = Some tool
                                      /\ tool_name tool = tc_name tc) tool_calls
    /\ trace st' = trace st ++ evs
    /\ tool_invocations evs = omap (invocation_of tools) tool_calls
    /\ state_messages (apply_update state command) = state_messages state ++ outputs
    /\ forall fuel : nat,
         run_nodes' (S fuel) node_tool_call state st
         = run_nodes' fuel node_chat (apply_update state command) st'.
Proof.
  intros Hlast Hres Hret.
  destruct (tool_call_loop_results C tools tool_calls Hres [] st Hret)
    as (outputs & st' & evs & Hloop & Hans & _ & Htrace & Hinv).
  assert (Hnode : _tool_call C tools state st
                  = (Return {| update := outputs; goto := node_chat |}, st')).
  { unfold _tool_call. rewrite Hlast. unfold bind. rewrite Hloop. reflexivity. }
  exists outputs, st', evs. cbv zeta.
  split; [exact Hnode|].
  split; [symmetry; eapply Forall2_length; exact Hans|].
  split; [exact Hans|].
  split.
  { eapply Forall_impl; [exact Hres|]. intros tc [tool Htool].
    exists tool. split; [exact Htool|].
    apply (tools_by_name_name tools). exact Htool. }
  split; [exact Htrace|]. split; [exact Hinv|]. split; [reflexivity|].
  intros fuel. rewrite run_nodes_tool_call, Hnode. reflexivity.
Qed.

(** C6: when the last message is an assistant message one of whose requests
    names no tool of the registry, the [tool_call] node raises and returns
    no command, so no tool-result message; the error goes through the run of
    the graph; no tool is invoked for that request or a later one, and none
    twice; when the earlier requests resolve and their tools return, the
    error is the [KeyError] of the unknown name and the tools invoked are
    those of the earlier requests, once each. *)
Theorem C6_unknown_tool (state : GraphState) (text : string)
    (pre post : list ToolCall) (tc : ToolCall) (st : St C) :
  last (state_messages state) = Some (AIMessage text (pre ++ tc :: post)) ->
  resolve tools tc = None ->
  exists (e : exn) (st' : St C) (evs : list event),
    _tool_call C tools state st = (Raise e, st')
    /\ (forall fuel : nat,
          run_nodes' (S fuel) node_tool_call state st = (Raise e, st'))
    /\ trace st' = trace st ++ evs
    /\ (length (tool_invocations evs) <= length pre)%nat
    /\ (tools_return C ->
        Forall (fun tc' => is_Some (resolve tools tc')) pre ->
        e = KeyError (tc_name tc)
        /\ tool_invocations evs = omap (invocation_of tools) pre).
Proof.
  intros Hlast Hnone.
  destruct (tool_call_loop_unknown C tools pre post tc Hnone [] st)
    as (e & st' & evs & Hloop & _ & Htrace & Hlen & Hexact).
  assert (Hnode : _tool_call C tools state st = (Raise e, st')).
  { unfold _tool_call. rewrite Hlast. unfold bind. rewrite Hloop. reflexivity. }
  exists e, st', evs.
  split; [exact Hnode|].
  split; [intros fuel; rewrite run_nodes_tool_call, Hnode; reflexivity|].
  split; [exact Htrace|]. split; [exact Hlen | exact Hexact].
Qed.

(** C7, amended: [get_response] does not recover from an error of the
    memory search: once the graph and the memory client are set up, an error
    raised by the search is raised by [get_response] itself, right after the
    search: no model is invoked, no node is run, no memory update is
    scheduled and no response is returned. *)
Theorem C7_memory_search_error_propagates (messages : list Message) (m : Message)
    (session_id user_id : string) (st st1 : St C) (e : exn) :
  last messages = Some m ->
  setup C st = (Return tt, st1) ->
  fst (memory_search C user_id (content m) (world st1)) = Raise e ->
  exists st' : St C,
    get_response' messages session_id user_id st = (Raise e, st')
    /\ trace st' = trace st ++ [EvMemorySearch user_id (content m)]
    /\ llm_service st' = llm_service st.
Proof.
  intros Hlast Hsetup Hsearch.
  rewrite get_response_unfold, Hsetup, Hlast, Hsearch.
  apply setup_frame in Hsetup. destruct Hsetup as [Hself Htrace].
  eexists. split; [reflexivity|]. simpl. rewrite Htrace, Hself. auto.
Qed.

Lemma concat_lines_not_empty (line0 : MemoryFact) (lines : list MemoryFact) :
  String.concat newline
    (map (fun res => String.append "* " (memory res)) (line0 :: lines)) <> "".
Proof.
  simpl. destruct (map _ lines); simpl; discriminate.
Qed.

(** C8: once the graph and the memory client are set up and the search has
    returned, [get_response] goes on with the run of the graph (no error
    comes from the search or from the building of the context), and the
    context of the initial state is the sentinel ["No relevant memory
    found."] when the search found nothing, else the hits, each as a line
    ["* " + memory], joined by newlines. *)
Theorem C8_memory_context (messages : list Message) (m : Message)
    (session_id user_id : string) (st st1 : St C)
    (relevant_memory : option (list MemoryFact)) :
  last messages = Some m ->
  setup C st = (Return tt, st1) ->
  fst (memory_search C user_id (content m) (world st1)) = Return relevant_memory ->
  get_response' messages session_id user_id st
  = run_turn' messages session_id user_id relevant_memory
      (searched C user_id (content m) st1)
  /\ (default [] relevant_memory = [] ->
      injected_context relevant_memory = no_relevant_memory
      /\ no_relevant_memory = "No relevant memory found.")
  /\ (default [] relevant_memory <> [] ->
      injected_context relevant_memory
      = String.concat newline
          (map (fun res => String.append "* " (memory res))
             (default [] relevant_memory))).
Proof.
  intros Hlast Hsetup Hsearch.
  split; [rewrite get_response_unfold, Hsetup, Hlast, Hsearch; reflexivity|].
  unfold injected_context, memory_context.
  destruct (default [] relevant_memory) as [|line0 lines].
  - split; [intros _; split; reflexivity | congruence].
  - split; [discriminate|]. intros _.
    pose proof (concat_lines_not_empty line0 lines) as Hne.
    destruct (String.concat newline _); [congruence | reflexivity].
Qed.

(** C9: on an empty list of messages [get_response] never returns a
    response: it raises, an [IndexError] once the graph and the memory
    client are set up, before any search, model call or node; on a list
    that is not empty the last message exists and its content is the query
    of the search that is called next. *)
Theorem C9_last_message (session_id user_id : string) (st : St C) :
  (exists (e : exn) (st' : St C),
      get_response' [] session_id user_id st = (Raise e, st')
      /\ trace st' = trace st
      /\ llm_service st' = llm_service st
      /\ (forall st1, setup C st = (Return tt, st1) -> e = IndexError))
  /\ (forall (messages : list Message) (st1 : St C),
        messages <> [] ->
        setup C st = (Return tt, st1) ->
        exists m : Message,
          last messages = Some m
          /\ get_response' messages session_id user_id st
             = match fst (memory_search C user_id (content m) (world st1)) with
               | Raise e => (Raise e, searched C user_id (content m) st1)
               | Return relevant_memory =>
                   run_turn' messages session_id user_id relevant_memory
                     (searched C user_id (content m) st1)
               end
          /\ memory_searches (trace (searched C user_id (content m) st1))
             = memory_searches (trace st) ++ [(user_id, content m)]).
Proof.
  split.
  - rewrite get_response_unfold.
    destruct (setup C st) as [[[]|e] st1] eqn:Hsetup;
      apply setup_frame in Hsetup; destruct Hsetup as [Hself Htrace]; simpl.
    + exists IndexError, st1. repeat split; auto.
    + exists e, st1. repeat split; auto. intros st2; discriminate.
  - intros messages st1 Hne Hsetup.
    destruct (last messages) as [m|] eqn:Hlast.
    + exists m. split; [reflexivity|].
      split; [rewrite get_response_unfold, Hsetup, Hlast; reflexivity|].
      apply setup_frame in Hsetup. destruct Hsetup as [_ Htrace].
      simpl. unfold memory_searches. rewrite omap_app, Htrace. reflexivity.
    + apply last_None in Hlast. contradiction.
Qed.

End TurnTheorems.

(** ** The theorems of the turn on concrete runs *)

Lemma search_request_resolves :
  resolve tools_source search_request = Some duckduckgo_search_tool.
Proof. vm_compute. reflexivity. Qed.

Lemma weather_request_unknown : resolve tools_source weather_request = None.
Proof. vm_compute. reflexivity. Qed.

Lemma tool_up_returns : tools_return tool_up.
Proof. intros tool args w. exists "15C, cloudy". reflexivity. Qed.

(** C5, as the specification states it, fails: the only request names a
    tool of the registry, the tool raises, and the node raises with it
    instead of producing a tool-result message. *)
Lemma C5_tool_error_no_result :
  Forall (fun tc => is_Some (resolve tools_source tc)) [search_request]
  /\ _tool_call tool_down tools_source (asking [search_request])
       (initial tool_down tt service_default)
     = (Raise (OtherException "search failed"),
        Build_St tool_down tt service_default
          [EvToolInvoke duckduckgo_search_tool "weather in Paris"]).
Proof.
  split.
  - constructor; [|constructor]. rewrite search_request_resolves. eauto.
  - vm_compute. reflexivity.
Qed.

(** C5 amended, on two requests to the search tool of the source, a tool
    that returns on these requests and would raise on another query. *)
Lemma C5_tool_call_round_trip_witness :
  fst (tool_ainvoke tool_picky duckduckgo_search_tool "boom" tt)
  = Raise (OtherException "search failed")
  /\ exists (outputs : list BaseMessage) (st' : St tool_picky),
       _tool_call tool_picky tools_source (asking [search_request; search_request])
         (initial tool_picky tt service_default)
       = (Return {| update := outputs; goto := node_chat |}, st')
       /\ length outputs = 2%nat
       /\ Forall2 answers [search_request; search_request] outputs
       /\ tool_invocations (trace st')
          = [(duckduckgo_search_tool, "weather in Paris");
             (duckduckgo_search_tool, "weather in Paris")].
Proof.
  split; [reflexivity|].
  assert (Hres : Forall (fun tc => is_Some (resolve tools_source tc))
                   [search_request; search_request]).
  { repeat constructor; rewrite search_request_resolves; eauto. }
  assert (Hret : invocations_return tool_picky tools_source
                   [search_request; search_request] tt).
  { simpl. rewrite search_request_resolves. simpl. eauto. }
  destruct (C5_tool_call_round_trip LLMS_source settings_source tool_picky tools_source
              load_system_prompt_example prepare_messages_example
              dump_messages_example process_llm_response_example
              (asking [search_request; search_request]) ""
              [search_request; search_request]
              (initial tool_picky tt service_default) eq_refl Hres Hret)
    as (outputs & st' & evs & Hnode & Hlen & Hans & _ & Htrace & Hinv & _).
  exists outputs, st'. split; [exact Hnode|]. split; [exact Hlen|].
  split; [exact Hans|].
  rewrite Htrace.
  change (trace (initial tool_picky tt service_default) ++ evs) with evs.
  rewrite Hinv. simpl. unfold invocation_of.
  rewrite search_request_resolves. reflexivity.
Defined.

(** C6 on a request for a tool the source does not have, after one for the
    search tool. *)
Lemma C6_unknown_tool_witness :
  exists (st' : St tool_up) (evs : list event),
    _tool_call tool_up tools_source (asking [search_request; weather_request])
      (initial tool_up tt service_default)
    = (Raise (KeyError "get_weather"), st')
    /\ trace st' = evs
    /\ tool_invocations evs = [(duckduckgo_search_tool, "weather in Paris")].
Proof.
  assert (Hres : Forall (fun tc => is_Some (resolve tools_source tc)) [search_request]).
  { repeat constructor; rewrite search_request_resolves; eauto. }
  destruct (C6_unknown_tool LLMS_source settings_source tool_up tools_source
              load_system_prompt_example prepare_messages_example
              dump_messages_example process_llm_response_example
              (asking [search_request; weather_request]) ""
              [search_request] [] weather_request
              (initial tool_up tt service_default) eq_refl weather_request_unknown)
    as (e & st' & evs & Hnode & _ & Htrace & _ & Hexact).
  destruct (Hexact tool_up_returns Hres) as [-> Hinv].
  exists st', evs. split; [exact Hnode|]. split; [exact Htrace|].
  rewrite Hinv. simpl. unfold invocation_of. rewrite search_request_resolves.
  reflexivity.
Defined.

(** C7, as the specification states it, fails: the memory search raises and
    so does [get_response], with the same error; no model has been invoked.
    With a search that finds nothing the same turn returns a response. *)
Lemma C7_memory_search_error_aborts_turn :
  let '(r, st') := get_response_example memory_down hello "session" "user"
                     (initial memory_down tt service_default) in
  r = Raise (OtherException "vector store unreachable")
  /\ trace st' = [EvMemorySearch "user" "hello"]
  /\ fst (get_response_example memory_empty hello "session" "user"
            (initial memory_empty tt service_default))
     = Return [ {| role := "user"; content := "hello" |};
                {| role := "assistant"; content := "ok" |} ].
Proof. vm_compute. repeat split. Qed.

(** C7 amended, on that run. *)
Lemma C7_memory_search_error_propagates_witness :
  exists st' : St memory_down,
    get_response_example memory_down hello "session" "user"
      (initial memory_down tt service_default)
    = (Raise (OtherException "vector store unreachable"), st')
    /\ trace st' = [EvMemorySearch "user" "hello"].
Proof.
  destruct (C7_memory_search_error_propagates LLMS_source settings_source
              memory_down tools_source load_system_prompt_example
              prepare_messages_example dump_messages_example
              process_llm_response_example hello
              {| role := "user"; content := "hello" |} "session" "user"
              (initial memory_down tt service_default)
              (initial memory_down tt service_default)
              (OtherException "vector store unreachable")
              eq_refl eq_refl eq_refl)
    as (st' & Hrun & Htrace & _).
  exists st'. split; [exact Hrun | exact Htrace].
Defined.

(** C8 on a search that finds nothing. *)
Lemma C8_memory_context_witness :
  injected_context (Some []) = "No relevant memory found."
  /\ get_response_example memory_empty hello "session" "user"
       (initial memory_empty tt service_default)
     = run_turn LLMS_source settings_source memory_empty tools_source
         load_system_prompt_example prepare_messages_example
         dump_messages_example process_llm_response_example
         hello "session" "user" (Some [])
         (searched memory_empty "user" "hello"
            (initial memory_empty tt service_default)).
Proof.
  destruct (C8_memory_context LLMS_source settings_source memory_empty
              tools_source load_system_prompt_example prepare_messages_example
              dump_messages_example process_llm_response_example hello
              {| role := "user"; content := "hello" |} "session" "user"
              (initial memory_empty tt service_default)
              (initial memory_empty tt service_default) (Some [])
              eq_refl eq_refl eq_refl)
    as (Hrun & Hempty & _).
  destruct (Hempty eq_refl) as [Hctx Hsentinel].
  split; [rewrite Hctx; exact Hsentinel | exact Hrun].
Defined.

(** The context of two hits. *)
Example memory_context_two_hits :
  injected_context (Some [ {| memory := "likes tea" |}; {| memory := "lives in Paris" |} ])
  = String.append "* likes tea" (String.append newline "* lives in Paris").
Proof. reflexivity. Qed.

(** C9 on the empty list and on a list of one message. *)
Lemma C9_last_message_witness :
  fst (get_response_example memory_empty [] "session" "user"
         (initial memory_empty tt service_default)) = Raise IndexError
  /\ exists m : Message,
       last hello = Some m
       /\ memory_searches
            (trace (searched memory_empty "user" (content m)
                      (initial memory_empty tt service_default)))
          = [("user", "hello")].
Proof.
  destruct (C9_last_message LLMS_source settings_source memory_empty tools_source
              load_system_prompt_example prepare_messages_example
              dump_messages_example process_llm_response_example
              "session" "user" (initial memory_empty tt service_default))
    as ((e & st' & Hrun & _ & _ & Hindex) & Hnonempty).
  split.
  - unfold get_response_example. rewrite Hrun. simpl.
    f_equal. apply (Hindex (initial memory_empty tt service_default)). reflexivity.
  - destruct (Hnonempty hello (initial memory_empty tt service_default))
      as (m & Hlast & _ & Hsearch); [discriminate | reflexivity |].
    exists m. split; [exact Hlast|]. rewrite Hsearch.
    injection Hlast as <-. reflexivity.
Defined.

(** * Further properties *)

(** ** Construction of the service *)

Lemma list_index_get_loop (LLMS : list Entry) (x : string) (i : nat) :
  list_index x (map entry_name LLMS) = Some i ->
  exists entry : Entry,
    LLMS !! i = Some entry
    /\ entry_name entry = x
    /\ get_loop LLMS x = Some (entry_llm entry)
    /\ forall (j : nat) (entry' : Entry),
         (j < i)%nat -> LLMS !! j = Some entry' -> entry_name entry' <> x.
Proof.
  revert i. induction LLMS as [|entry0 LLMS IH]; simpl; intros i; [discriminate|].
  destruct (String.eqb (entry_name entry0) x) eqn:Heq.
  - intros [= <-]. apply String.eqb_eq in Heq. exists entry0.
    repeat split; auto. intros j entry' Hj; lia.
  - apply String.eqb_neq in Heq.
    destruct (list_index x (map entry_name LLMS)) as [i'|]; simpl; [|discriminate].
    intros [= <-]. destruct (IH i' eq_refl) as (entry & Hi & Hname & Hget & Hfirst).
    exists entry. repeat split; auto.
    intros [|j] entry' Hj Hlook; simpl in Hlook.
    + injection Hlook as <-. exact Heq.
    + apply (Hfirst j); [lia | exact Hlook].
Qed.

(** On a registry with an entry [__init__] returns, and the model of the
    service is that of the entry at its index. *)
Lemma LLMService_init_returns (LLMS : list Entry) (settings : Settings) :
  LLMS <> [] ->
  exists (self : LLMService) (entry : Entry),
    LLMService_init LLMS settings = Return self
    /\ LLMS !! _current_model_index self = Some entry
    /\ _llm self = Some (entry_llm entry)
    /\ (DEFAULT_LLM_MODEL settings ∈ LLMRegistry_get_all_names LLMS ->
        entry_name entry = DEFAULT_LLM_MODEL settings
        /\ forall (j : nat) (entry' : Entry),
             (j < _current_model_index self)%nat ->
             LLMS !! j = Some entry' ->
             entry_name entry' <> DEFAULT_LLM_MODEL settings)
    /\ ((DEFAULT_LLM_MODEL settings ∉ LLMRegistry_get_all_names LLMS) ->
        _current_model_index self = 0%nat).
Proof.
  intros Hne. destruct LLMS as [|entry0 LLMS]; [congruence|].
  unfold LLMService_init, LLMRegistry_get, LLMRegistry_get_all_names.
  destruct (list_index (DEFAULT_LLM_MODEL settings)
              (map entry_name (entry0 :: LLMS))) as [i|] eqn:Hidx.
  - destruct (list_index_get_loop _ _ _ Hidx)
      as (entry & Hi & Hname & Hget & Hfirst).
    rewrite Hget.
    exists {| _llm := Some (entry_llm entry); _current_model_index := i |}, entry.
    split; [reflexivity|]. split; [exact Hi|]. split; [reflexivity|].
    split; [intros _; split; [exact Hname | exact Hfirst]|].
    intros Hnot. apply list_index_absent in Hnot. congruence.
  - pose proof Hidx as Habsent. apply list_index_absent in Habsent.
    apply get_loop_absent in Habsent. rewrite Habsent.
    exists {| _llm := Some (entry_llm entry0); _current_model_index := 0 |}, entry0.
    split; [reflexivity|]. split; [reflexivity|]. split; [reflexivity|].
    split; [|reflexivity].
    intros Hin. apply list_index_absent in Hidx. contradiction.
Qed.

(** X1: [LLMService.__init__] raises [IndexError] on an empty registry (the
    handler is for [ValueError] only); on any other registry it returns a
    service whose model is that of the entry its index points at; that
    entry is the first of the default model's name when the name is listed,
    and the first entry when it is not. *)
Theorem X1_init_model_matches_index (LLMS : list Entry) (settings : Settings) :
  (LLMS = [] -> LLMService_init LLMS settings = Raise IndexError)
  /\ (LLMS <> [] ->
      exists (self : LLMService) (entry : Entry),
        LLMService_init LLMS settings = Return self
        /\ LLMS !! _current_model_index self = Some entry
        /\ _llm self = Some (entry_llm entry)
        /\ (DEFAULT_LLM_MODEL settings ∈ LLMRegistry_get_all_names LLMS ->
            entry_name entry = DEFAULT_LLM_MODEL settings
            /\ forall (j : nat) (entry' : Entry),
                 (j < _current_model_index self)%nat ->
                 LLMS !! j = Some entry' ->
                 entry_name entry' <> DEFAULT_LLM_MODEL settings)
        /\ ((DEFAULT_LLM_MODEL settings ∉ LLMRegistry_get_all_names LLMS) ->
            _current_model_index self = 0%nat)).
Proof.
  split.
  - intros ->. reflexivity.
  - apply LLMService_init_returns.
Qed.

(** X1 on the registry and the default model of the source: index 2. *)
Lemma X1_init_model_matches_index_witness :
  LLMS_source <> []
  /\ LLMService_init LLMS_source settings_source
     = Return {| _llm := Some (chat_model "gpt-4o-mini"); _current_model_index := 2 |}
  /\ LLMService_init [] settings_source = Raise IndexError.
Proof.
  assert (Hne : LLMS_source <> []) by discriminate.
  split; [exact Hne|].
  destruct (X1_init_model_matches_index LLMS_source settings_source) as [_ Hinit].
  destruct (X1_init_model_matches_index [] settings_source) as [Hempty _].
  split; [|exact (Hempty eq_refl)].
  destruct (Hinit Hne) as (self & entry & Hself & _).
  rewrite Hself. vm_compute in Hself. injection Hself as <-. reflexivity.
Defined.

(** ** Switching round the registry *)

Section MoreFallback.

Variable LLMS : list Entry.
Variable settings : Settings.
Variable C : Collaborators.

Local Abbreviation N := (length LLMS).
Local Abbreviation A := (Z.max 1 (MAX_LLM_CALL_RETRIES settings)).

Lemma switch_times_run (k : nat) (st : St C) :
  index_ok LLMS st ->
  exists (st' : St C) (evs : list event),
    switch_times LLMS C k st = (Return tt, st')
    /\ world st' = world st
    /\ trace st' = trace st ++ evs
    /\ switches evs
       = map (round_index LLMS (_current_model_index (llm_service st))) (seq 0 k)
    /\ _current_model_index (llm_service st')
       = round_index LLMS (_current_model_index (llm_service st)) k
    /\ ((0 < k)%nat ->
        _llm (llm_service st')
        = entry_llm <$> LLMS !! round_index LLMS (_current_model_index (llm_service st)) k).
Proof.
  revert st. induction k as [|k IH]; intros st Hidx.
  - exists st, []. simpl. unfold ret. rewrite app_nil_r, round_index_0 by exact Hidx.
    repeat split. intros; lia.
  - assert (Hne : LLMS <> []).
    { intros Hnil. unfold index_ok in Hidx. rewrite Hnil in Hidx. simpl in Hidx. lia. }
    assert (Hidx2 : index_ok LLMS (switched LLMS C st)).
    { unfold index_ok, switched; simpl. apply Nat.mod_upper_bound.
      destruct LLMS; simpl; [congruence | lia]. }
    destruct (IH (switched LLMS C st) Hidx2)
      as (st' & evs & Hrun & Hworld & Htrace & Hsw & Hindex & Hllm).
    simpl in Hworld, Htrace, Hsw, Hindex, Hllm.
    set (i := _current_model_index (llm_service st)) in *.
    change ((i + 1) mod N)%nat with (round_index LLMS i 1) in *.
    rewrite round_index_S in *.
    exists st',
      (LogSwitchingModelFallback i
         (default "" (entry_name <$> LLMS !! round_index LLMS i 1)) :: evs).
    split.
    { simpl. unfold bind. rewrite switch_run by exact Hne. exact Hrun. }
    split; [exact Hworld|].
    split; [rewrite Htrace, <- app_assoc; reflexivity|].
    split.
    { simpl. rewrite Hsw, (round_index_0 LLMS i) by exact Hidx. f_equal.
      rewrite <- seq_shift, map_map. apply map_ext. intros j.
      apply round_index_S. }
    split; [exact Hindex|].
    intros _. destruct k as [|k].
    + simpl in Hrun. injection Hrun as <-. reflexivity.
    + apply Hllm. lia.
Qed.

(** X2: [_switch_to_next_model] goes round the registry: from an index [i]
    inside a registry of [N] entries, [k] switches in a row all succeed and
    leave the index at [(i + k) mod N], without touching the world; after
    [N] switches the service is back at entry [i], and after fewer (but at
    least one) it is at another entry.  On an empty registry a switch
    changes nothing but the log. *)
Theorem X2_switch_goes_round (st : St C) :
  (LLMS = [] ->
   _switch_to_next_model LLMS C st
   = (Return false,
      {| world := world st; llm_service := llm_service st;
         trace := trace st ++ [LogModelSwitchFailed] |}))
  /\ (index_ok LLMS st ->
      let i := _current_model_index (llm_service st) in
      (forall k : nat,
          exists (st' : St C) (evs : list event),
            switch_times LLMS C k st = (Return tt, st')
            /\ world st' = world st
            /\ trace st' = trace st ++ evs
            /\ length (switches evs) = k
            /\ _current_model_index (llm_service st') = ((i + k) mod N)%nat
            /\ ((0 < k < N)%nat -> _current_model_index (llm_service st') <> i))
      /\ exists st' : St C,
           switch_times LLMS C N st = (Return tt, st')
           /\ _current_model_index (llm_service st') = i
           /\ _llm (llm_service st') = entry_llm <$> LLMS !! i).
Proof.
  split.
  - intros ->. reflexivity.
  - intros Hidx i. split.
    + intros k.
      destruct (switch_times_run k st Hidx)
        as (st' & evs & Hrun & Hworld & Htrace & Hsw & Hindex & _).
      exists st', evs. split; [exact Hrun|]. split; [exact Hworld|].
      split; [exact Htrace|].
      split; [rewrite Hsw, length_map, length_seq; reflexivity|].
      split; [exact Hindex|].
      intros [Hpos Hlt] Hback. rewrite Hindex in Hback.
      apply round_index_fixed in Hback; [lia | exact Hidx | exact Hlt].
    + destruct (switch_times_run N st Hidx)
        as (st' & evs & Hrun & _ & _ & _ & Hindex & Hllm).
      assert (Hround : round_index LLMS i N = i).
      { unfold round_index. replace (i + N)%nat with (i + 1 * N)%nat by lia.
        rewrite Nat.Div0.mod_add. apply Nat.mod_small. exact Hidx. }
      exists st'. split; [exact Hrun|].
      fold i in Hindex, Hllm. rewrite Hround in Hindex, Hllm.
      split; [exact Hindex|]. apply Hllm. unfold index_ok in Hidx. lia.
Qed.

(** ** What a call can raise, and what it keeps *)

Lemma call_loop_raises (messages : list BaseMessage) (fuel tried : nat)
    (st st' : St C) (e : exn) :
  (tried + S fuel = N)%nat ->
  index_ok LLMS st ->
  call_loop LLMS settings C (S fuel) tried N messages st = (Raise e, st') ->
  isinstance_OpenAIError e = false.
Proof.
  revert tried st. induction fuel as [|fuel IH]; intros tried st Hfuel Hidx;
    (rewrite call_loop_unfold by (auto; lia));
    destruct (_call_with_retry settings C messages st) as [[m|e1] st1] eqn:Hrun;
    try discriminate;
    destruct (isinstance_OpenAIError e1) eqn:Hopenai;
    try (intros [= <- <-]; exact Hopenai);
    destruct (Nat.leb_spec N (tried + 1)) as [Hlast_round|Hmore]; try lia.
  - intros [= <- <-]. reflexivity.
  - apply IH; [lia|].
    unfold index_ok, after_switch; simpl. apply Nat.mod_upper_bound. lia.
Qed.

(** X3: [call] never lets an error of the OpenAI family reach its caller:
    from a state whose index is inside the registry, whatever [call] raises
    is not an [OpenAIError]; it is the terminal [RuntimeError] or an error
    from outside that family. *)
Theorem X3_call_raises_no_openai_error (messages : list BaseMessage)
    (st st' : St C) (e : exn) :
  index_ok LLMS st ->
  call LLMS settings C messages st = (Raise e, st') ->
  isinstance_OpenAIError e = false
  /\ isinstance_APIError e = false
  /\ e <> RateLimitError /\ e <> APITimeoutError.
Proof.
  intros Hidx Hcall. destruct (index_ok_length LLMS st Hidx) as [n HN].
  unfold call in Hcall. rewrite HN in Hcall at 1.
  apply call_loop_raises in Hcall; [|lia|exact Hidx].
  destruct e; simpl in *; try discriminate; repeat split; congruence.
Qed.

(** X4: "the index is inside the registry and a model is held" is an
    invariant of the service: [__init__] establishes it, and [bind_tools],
    [_switch_to_next_model] and [call], whatever its outcome, keep it. *)
Theorem X4_service_invariant (st : St C) :
  (forall (self : LLMService) (w : World C),
      LLMService_init LLMS settings = Return self ->
      service_ok LLMS (initial C w self))
  /\ (service_ok LLMS st ->
      (forall tools : list BaseTool,
          service_ok LLMS (snd (bind_tools C tools st)))
      /\ service_ok LLMS (snd (_switch_to_next_model LLMS C st))
      /\ (forall messages : list BaseMessage,
             service_ok LLMS (snd (call LLMS settings C messages st)))).
Proof.
  split.
  - intros self w Hinit. split.
    + apply (LLMService_init_index LLMS settings self Hinit).
    + destruct LLMS as [|entry0 rest] eqn:HL; [discriminate|].
      destruct (LLMService_init_returns (entry0 :: rest) settings)
        as (self' & entry & Hinit' & _ & Hllm & _); [discriminate|].
      rewrite Hinit in Hinit'. injection Hinit' as <-. simpl. rewrite Hllm. eauto.
  - intros [Hidx [l Hllm]].
    assert (Hne : LLMS <> []).
    { intros Hnil. unfold index_ok in Hidx. rewrite Hnil in Hidx. simpl in Hidx. lia. }
    split; [|split].
    + intros tools. unfold bind_tools, bind, get_self. rewrite Hllm. simpl.
      split; [exact Hidx | simpl; eauto].
    + rewrite switch_run by exact Hne. simpl.
      assert (Hlt : ((_current_model_index (llm_service st) + 1) mod N < N)%nat).
      { apply Nat.mod_upper_bound. destruct LLMS; simpl; [congruence | lia]. }
      split; [exact Hlt|]. simpl.
      destruct (lookup_lt_is_Some_2 _ _ Hlt) as [entry Hentry].
      rewrite Hentry. simpl. eauto.
    + intros messages.
      destruct (call LLMS settings C messages st) as [r st'] eqn:Hcall.
      destruct (index_ok_length LLMS st Hidx) as [n HN].
      unfold call in Hcall. rewrite HN in Hcall at 1.
      apply call_loop_inv in Hcall; [|lia|exact Hidx].
      destruct Hcall as (k & evs & Hk & _ & _ & Hindex & Hsame & Hswitched & _).
      simpl.
      assert (Hlt : (round_index LLMS (_current_model_index (llm_service st)) k < N)%nat).
      { unfold round_index. apply Nat.mod_upper_bound. lia. }
      split; [unfold index_ok; rewrite Hindex; exact Hlt|].
      destruct k as [|k].
      * rewrite Hsame by reflexivity. eauto.
      * rewrite Hswitched by lia.
        destruct (lookup_lt_is_Some_2 _ _ Hlt) as [entry Hentry].
        rewrite Hentry. simpl. eauto.
Qed.

(** X5: the tools bound with [bind_tools] do not survive a fallback: a call
    that does not switch leaves the service as it was, tools bound; a call
    that switches leaves it with the model of the registry entry the index
    points at, as the registry has it.  So when the registry's models have
    no tools bound, as in the source, the model held after a fallback has
    none of the tools bound before the call. *)
Theorem X5_fallback_drops_bound_tools (tools : list BaseTool)
    (messages : list BaseMessage) (st st' : St C) (r : result BaseMessage) :
  index_ok LLMS st ->
  call LLMS settings C messages (snd (bind_tools C tools st)) = (r, st') ->
  exists evs : list event,
    trace st' = trace st ++ evs
    /\ (switches evs = [] ->
        llm_service st' = llm_service (snd (bind_tools C tools st)))
    /\ (switches evs <> [] ->
        exists entry : Entry,
          LLMS !! _current_model_index (llm_service st') = Some entry
          /\ _llm (llm_service st') = Some (entry_llm entry)
          /\ (Forall (fun entry' => bound_tools (entry_llm entry') = []) LLMS ->
              bound_tools <$> _llm (llm_service st') = Some [])).
Proof.
  intros Hidx Hcall.
  assert (Hbound : index_ok LLMS (snd (bind_tools C tools st))
                   /\ trace (snd (bind_tools C tools st)) = trace st).
  { unfold bind_tools, bind, get_self, index_ok.
    destruct (_llm (llm_service st)); simpl; auto. }
  destruct Hbound as [Hidx1 Htrace1].
  destruct (index_ok_length LLMS _ Hidx1) as [n HN].
  unfold call in Hcall. rewrite HN in Hcall at 1.
  apply call_loop_inv in Hcall; [|lia|exact Hidx1].
  destruct Hcall as (k & evs & Hk & Htrace & Hsw & Hindex & Hsame & Hswitched & _).
  exists evs. split; [rewrite Htrace, Htrace1; reflexivity|].
  destruct k as [|k].
  - split; [intros _; apply Hsame; reflexivity|].
    rewrite Hsw. simpl. congruence.
  - split; [rewrite Hsw; simpl; discriminate|]. intros _.
    assert (Hlt : (_current_model_index (llm_service st') < N)%nat).
    { rewrite Hindex. unfold round_index. apply Nat.mod_upper_bound. lia. }
    destruct (lookup_lt_is_Some_2 _ _ Hlt) as [entry Hentry].
    exists entry. split; [exact Hentry|].
    assert (Hllm : _llm (llm_service st') = Some (entry_llm entry)).
    { rewrite Hswitched by lia. rewrite <- Hindex, Hentry. reflexivity. }
    split; [exact Hllm|].
    intros Hplain. rewrite Hllm. simpl. f_equal.
    eapply Forall_lookup_1 in Hplain; [|exact Hentry]. exact Hplain.
Qed.

(** X18: the fallback loop of [call], from a state whose index [i] is
    inside the registry of [N] entries.  (a) A round that ends on an
    [OpenAIError], with a backend still untried, has invoked the model held
    once and is followed by a round on backend [(i+1) mod N], the index and
    the model of the service being those of that entry.  (b) A call
    switches [k < N] times, from [i], [i+1], ... modulo [N], and logs at
    most [N] failed rounds; when it has logged [N], it raises the terminal
    error.  (c) When every round fails (every backend raises an
    [OpenAIError], of a retried class only if the settings allow a single
    attempt), the call raises the terminal error after [N] failed rounds
    and [N - 1] switches, and returns no message. *)
Theorem X18_fallback_round_robin (messages : list BaseMessage) (st : St C) :
  index_ok LLMS st ->
  let i := _current_model_index (llm_service st) in
  (forall (fuel tried : nat) (e : exn) (st1 : St C),
      (tried + 1 < N)%nat ->
      _call_with_retry settings C messages st = (Raise e, st1) ->
      isinstance_OpenAIError e = true ->
      call_loop LLMS settings C (S fuel) tried N messages st
      = call_loop LLMS settings C fuel (tried + 1) N messages
          (after_switch LLMS e st1)
      /\ _current_model_index (llm_service (after_switch LLMS e st1))
         = ((i + 1) mod N)%nat
      /\ (exists entry : Entry,
           LLMS !! ((i + 1) mod N)%nat = Some entry
           /\ _llm (llm_service (after_switch LLMS e st1)) = Some (entry_llm entry))
      /\ (exists l : BaseChatModel,
           _llm (llm_service st) = Some l
           /\ trace st1 = trace st ++ [EvInvoke l messages]))
  /\ (forall (r : result BaseMessage) (st' : St C),
        call LLMS settings C messages st = (r, st') ->
        exists (k : nat) (evs : list event),
          trace st' = trace st ++ evs
          /\ (k < N)%nat
          /\ switches evs = map (round_index LLMS i) (seq 0 k)
          /\ _current_model_index (llm_service st') = round_index LLMS i k
          /\ (length (failed_rounds evs) <= N)%nat
          /\ (length (failed_rounds evs) = N -> r = Raise exhausted_all_options))
  /\ (every_round_fails settings C ->
      is_Some (_llm (llm_service st)) ->
      exists (st' : St C) (evs : list event),
        call LLMS settings C messages st = (Raise exhausted_all_options, st')
        /\ trace st' = trace st ++ evs
        /\ length (failed_rounds evs) = N
        /\ length (switches evs) = (N - 1)%nat
        /\ _current_model_index (llm_service st') = round_index LLMS i (N - 1)).
Proof.
  intros Hidx i.
  assert (Hne : LLMS <> []) by (intros Hnil; unfold index_ok in Hidx;
                                rewrite Hnil in Hidx; simpl in Hidx; lia).
  assert (HN : exists n, N = S n) by (destruct LLMS; [congruence | eauto]).
  destruct HN as [n HN].
  split; [|split].
  - intros fuel tried e st1 Htried Hrun Hopenai.
    pose proof Hrun as Hframe. apply retrying_body_frame in Hframe.
    destruct Hframe as [Hself _].
    rewrite call_loop_unfold by (auto; lia).
    rewrite Hrun, Hopenai.
    destruct (Nat.leb_spec N (tried + 1)) as [Hlast_round|_]; [lia|].
    split; [reflexivity|].
    destruct (after_switch_index LLMS C e st1 Hne) as (Hindex & entry & Hentry & Hllm).
    rewrite Hself in Hindex, Hentry.
    split; [exact Hindex|]. split; [eauto|].
    destruct (_llm (llm_service st)) as [l|] eqn:Hcurrent.
    + rewrite (call_with_retry_run settings C messages l st Hcurrent) in Hrun.
      injection Hrun as _ <-. exists l. split; reflexivity.
    + rewrite (call_with_retry_no_model settings C messages st Hcurrent) in Hrun.
      injection Hrun as <- _. discriminate.
  - intros r st' Hcall. unfold call in Hcall. rewrite HN in Hcall at 1.
    apply call_loop_inv in Hcall; [|lia|exact Hidx].
    destruct Hcall as (k & evs & Hk & Htrace & Hsw & Hindex & _ & _ & Hrounds & _).
    exists k, evs.
    split; [exact Htrace|]. split; [lia|]. split; [exact Hsw|].
    split; [exact Hindex|].
    split; [destruct Hrounds as [Hr|(Hr & _)]; lia|].
    intros Hall. destruct Hrounds as [Hr|(_ & _ & Hexh)]; [lia | exact Hexh].
  - intros Hdown Hllm.
    assert (Hcall : call LLMS settings C messages st
                    = call_loop LLMS settings C (S n) 0 N messages st)
      by (unfold call; rewrite HN at 1; reflexivity).
    destruct (call_loop_all_fail LLMS settings C messages n 0 st Hdown) as
      (st' & evs & Hloop & Htrace & Hfail & Hsw & Hindex); [lia | exact Hidx | exact Hllm |].
    exists st', evs. rewrite Hcall, Hloop.
    replace (N - 1)%nat with n by lia.
    split; [reflexivity|]. split; [exact Htrace|]. split; [lia|].
    split; [exact Hsw | exact Hindex].
Qed.

End MoreFallback.

(** ** The work of a round and of a call *)

Lemma total_app (l1 l2 : list Z) : total (l1 ++ l2) = (total l1 + total l2)%Z.
Proof. unfold total. induction l1 as [|x l1 IH]; simpl; lia. Qed.

Section Work.

Variable LLMS : list Entry.
Variable settings : Settings.
Variable C : Collaborators.

Local Abbreviation N := (length LLMS).
Local Abbreviation A := (Z.max 1 (MAX_LLM_CALL_RETRIES settings)).

(** What one round of [call] adds to the trace. *)
Lemma round_work (messages : list BaseMessage) (st st1 : St C)
    (r : result BaseMessage) :
  _call_with_retry settings C messages st = (r, st1) ->
  llm_service st1 = llm_service st
  /\ exists evs : list event,
       trace st1 = trace st ++ evs
       /\ (Z.of_nat (invocations evs) <= A)%Z
       /\ (Z.of_nat (length (sleeps evs)) <= A - 1)%Z
       /\ (total (sleeps evs) <= 10 * (A - 1))%Z.
Proof.
  intros Hrun. pose proof Hrun as Hframe. apply retrying_body_frame in Hframe.
  destruct Hframe as [Hself _]. split; [exact Hself|].
  destruct (_llm (llm_service st)) as [l|] eqn:Hllm.
  - rewrite (call_with_retry_run settings C messages l st Hllm) in Hrun.
    injection Hrun as _ <-. exists [EvInvoke l messages].
    split; [reflexivity|]. unfold invocations, total; simpl. lia.
  - rewrite (call_with_retry_no_model settings C messages st Hllm) in Hrun.
    injection Hrun as _ <-. exists []. rewrite app_nil_r.
    split; [reflexivity|]. unfold invocations, total; simpl. lia.
Qed.

Lemma call_loop_work (messages : list BaseMessage) (fuel tried : nat)
    (st st' : St C) (r : result BaseMessage) :
  (tried + S fuel = N)%nat ->
  index_ok LLMS st ->
  call_loop LLMS settings C (S fuel) tried N messages st = (r, st') ->
  exists evs : list event,
    trace st' = trace st ++ evs
    /\ (Z.of_nat (invocations evs) <= Z.of_nat (S fuel) * A)%Z
    /\ (Z.of_nat (length (sleeps evs)) <= Z.of_nat (S fuel) * (A - 1))%Z
    /\ (total (sleeps evs) <= Z.of_nat (S fuel) * (10 * (A - 1)))%Z.
Proof.
  revert tried st. induction fuel as [|fuel IH]; intros tried st Hfuel Hidx;
    (rewrite call_loop_unfold by (auto; lia));
    destruct (_call_with_retry settings C messages st) as [[m|e] st1] eqn:Hrun;
    apply round_work in Hrun;
    destruct Hrun as (Hself & evs & Htrace & Hinv & Hlen & Htotal).
  all: try (intros [= <- <-]; exists evs; split; [exact Htrace|]; nia).
  all: destruct (isinstance_OpenAIError e).
  all: try (intros [= <- <-]; exists evs; split; [exact Htrace|]; nia).
  all: destruct (Nat.leb_spec N (tried + 1)) as [Hlast_round|Hmore]; try lia.
  - intros [= <- <-]. eexists (evs ++ [_]).
    split; [unfold failure_logged; simpl; rewrite Htrace, <- app_assoc; reflexivity|].
    unfold invocations, invoked, sleeps in *. rewrite !omap_app. simpl.
    rewrite !app_nil_r. nia.
  - intros Hrest. apply IH in Hrest;
      [|lia|unfold index_ok, after_switch; simpl; apply Nat.mod_upper_bound; lia].
    destruct Hrest as (evs' & Htrace' & Hinv' & Hlen' & Htotal').
    simpl in Htrace'.
    exists (evs ++ [LogModelFailedExhaustedRetries
                      (default "" (entry_name <$> LLMS
                         !! _current_model_index (llm_service st1))) e;
                    LogSwitchingModelFallback
                      (_current_model_index (llm_service st1))
                      (default "" (entry_name <$> LLMS
                         !! ((_current_model_index (llm_service st1) + 1)
                               mod N)%nat))] ++ evs').
    split; [rewrite Htrace', Htrace, <- !app_assoc; reflexivity|].
    unfold invocations, invoked, sleeps in *. rewrite !omap_app. simpl.
    rewrite !length_app, total_app. nia.
Qed.

(** X6: the work of a call is bounded: over a registry of [N] entries and
    with [A = max(1, MAX_LLM_CALL_RETRIES)] attempts a round, a call invokes
    the backends at most [N * A] times, sleeps at most [N * (A - 1)] times
    and for at most [10 * N * (A - 1)] seconds in all, whatever the backends
    answer. *)
Theorem X6_call_work_bounded (messages : list BaseMessage) (st st' : St C)
    (r : result BaseMessage) :
  index_ok LLMS st ->
  call LLMS settings C messages st = (r, st') ->
  exists evs : list event,
    trace st' = trace st ++ evs
    /\ (Z.of_nat (invocations evs) <= Z.of_nat N * A)%Z
    /\ (Z.of_nat (length (sleeps evs)) <= Z.of_nat N * (A - 1))%Z
    /\ (total (sleeps evs) <= 10 * Z.of_nat N * (A - 1))%Z.
Proof.
  intros Hidx Hcall. destruct (index_ok_length LLMS st Hidx) as [n HN].
  unfold call in Hcall. rewrite HN in Hcall at 1.
  apply call_loop_work in Hcall; [|lia|exact Hidx].
  destruct Hcall as (evs & Htrace & Hinv & Hlen & Htotal).
  exists evs. rewrite HN. split; [exact Htrace|]. nia.
Qed.

(** X7: one round of the decorated call is one attempt, whatever the
    settings.  A service without a model raises [RuntimeError] and invokes
    nothing.  Otherwise the round invokes the model the service holds once,
    on the messages given, never sleeps and never logs a retry; it returns
    the model's message; it raises the model's error again when that error
    is not of a retried class, or when the settings allow a single attempt
    ([MAX_LLM_CALL_RETRIES] at most 1); and when the error is of a retried
    class and the settings allow a second attempt, it raises [TypeError] in
    its place. *)
Theorem X7_round_is_one_attempt (messages : list BaseMessage)
    (st st' : St C) (r : result BaseMessage) :
  _call_with_retry settings C messages st = (r, st') ->
  llm_service st' = llm_service st
  /\ (_llm (llm_service st) = None ->
      r = Raise (RuntimeError "LLM not initialized") /\ st' = st)
  /\ (forall l : BaseChatModel,
        _llm (llm_service st) = Some l ->
        let outcome := fst (ainvoke C l messages (world st)) in
        (exists evs : list event,
            trace st' = trace st ++ evs
            /\ invoked evs = [l]
            /\ sent evs = [messages]
            /\ sleeps evs = []
            /\ retried_errors evs = [])
        /\ world st' = snd (ainvoke C l messages (world st))
        /\ (forall m, outcome = Return m -> r = Return m)
        /\ (forall e, outcome = Raise e ->
            (isinstance_APIError e = false -> r = Raise e)
            /\ ((MAX_LLM_CALL_RETRIES settings <= 1)%Z -> r = Raise e)
            /\ (isinstance_APIError e = true ->
                (2 <= MAX_LLM_CALL_RETRIES settings)%Z -> r = Raise TypeError))).
Proof.
  intros Hrun. pose proof Hrun as Hframe. apply retrying_body_frame in Hframe.
  destruct Hframe as [Hself _]. split; [exact Hself|]. split.
  - intros Hllm.
    rewrite (call_with_retry_no_model settings C messages st Hllm) in Hrun.
    injection Hrun as <- <-. split; reflexivity.
  - intros l Hllm outcome.
    rewrite (call_with_retry_run settings C messages l st Hllm) in Hrun.
    injection Hrun as <- <-. fold outcome.
    split; [exists [EvInvoke l messages]; repeat split|].
    split; [reflexivity|]. split; [intros m ->; reflexivity|].
    intros e ->. split; [intros ->; reflexivity|]. split.
    + intros Hsingle. destruct (Z.ltb_spec 1 (MAX_LLM_CALL_RETRIES settings)); [lia|].
      rewrite andb_false_r. reflexivity.
    + intros -> Hmore.
      destruct (Z.ltb_spec 1 (MAX_LLM_CALL_RETRIES settings)); [reflexivity | lia].
Qed.

End Work.

(** ** The registry of tools *)

Lemma tools_by_name_last (tools : list BaseTool) (d : gmap string BaseTool)
    (n : string) :
  foldl (fun d tool => <[tool_name tool := tool]> d) d tools !! n
  = match last (filter (fun tool => tool_name tool = n) tools) with
    | Some tool => Some tool
    | None => d !! n
    end.
Proof.
  revert d. induction tools as [|tool0 tools IH]; intros d; simpl; [reflexivity|].
  rewrite IH, filter_cons. destruct (decide (tool_name tool0 = n)) as [<-|Hne].
  - rewrite last_cons, lookup_insert_eq.
    destruct (last (filter _ tools)); reflexivity.
  - rewrite lookup_insert_ne by exact Hne. reflexivity.
Qed.

(** X8: [tools_by_name] resolves a name to the last tool of that name in
    [tools] (a later tool replaces an earlier one of the same name), so a
    name resolves exactly when some tool of the list has it, and the tool
    found is a tool of the list with that name. *)
Theorem X8_tools_by_name_last_wins (tools : list BaseTool) (tc : ToolCall) :
  resolve tools tc
  = last (filter (fun tool => tool_name tool = tc_name tc) tools)
  /\ (is_Some (resolve tools tc) <-> tc_name tc ∈ map tool_name tools)
  /\ (forall tool : BaseTool,
        resolve tools tc = Some tool ->
        tool ∈ tools /\ tool_name tool = tc_name tc).
Proof.
  assert (Hlast : resolve tools tc
                  = last (filter (fun tool => tool_name tool = tc_name tc) tools)).
  { unfold resolve, tools_by_name. rewrite tools_by_name_last, lookup_empty.
    destruct (last _); reflexivity. }
  assert (Hin : forall tool : BaseTool,
             resolve tools tc = Some tool ->
             tool ∈ tools /\ tool_name tool = tc_name tc).
  { intros tool Htool. rewrite Hlast in Htool. apply last_Some in Htool.
    destruct Htool as [l' Hl'].
    assert (Hmem : tool ∈ filter (fun tool => tool_name tool = tc_name tc) tools).
    { rewrite Hl'. apply elem_of_app. right. apply list_elem_of_here. }
    apply list_elem_of_filter in Hmem. destruct Hmem; auto. }
  split; [exact Hlast|]. split; [|exact Hin]. split.
  - intros [tool Htool]. destruct (Hin tool Htool) as [Hmem <-].
    apply list_elem_of_fmap. exists tool. auto.
  - intros Hname. apply list_elem_of_fmap in Hname.
    destruct Hname as (tool & Hname & Hmem). rewrite Hlast.
    assert (Hfilter : tool ∈ filter (fun tool => tool_name tool = tc_name tc) tools).
    { apply list_elem_of_filter. auto. }
    destruct (filter _ tools) as [|x l] eqn:Hf.
    + apply elem_of_nil in Hfilter. contradiction.
    + rewrite last_cons. destruct (last l); eauto.
Qed.

(** ** The response shape *)

(** X9: [_process_messages] keeps the order of the messages and works
    message by message; what it returns has only the roles [user] and
    [assistant] and no empty content; tool and system messages, and
    assistant messages without text (such as bare tool requests), never
    appear in a response. *)
Theorem X9_process_messages_filter (ms1 ms2 : list BaseMessage) :
  _process_messages (ms1 ++ ms2) = _process_messages ms1 ++ _process_messages ms2
  /\ Forall (fun m => (role m = "assistant" \/ role m = "user") /\ content m <> "")
       (_process_messages ms1)
  /\ (length (_process_messages ms1) <= length ms1)%nat
  /\ (forall (text name id : string),
        _process_messages (ms1 ++ ToolMessage text name id :: ms2)
        = _process_messages (ms1 ++ ms2))
  /\ (forall text : string,
        _process_messages (ms1 ++ SystemMessage text :: ms2)
        = _process_messages (ms1 ++ ms2))
  /\ (forall tool_calls : list ToolCall,
        _process_messages (ms1 ++ AIMessage "" tool_calls :: ms2)
        = _process_messages (ms1 ++ ms2))
  /\ (forall (text : string) (tool_calls : list ToolCall),
        text <> "" ->
        _process_messages (ms1 ++ AIMessage text tool_calls :: ms2)
        = _process_messages ms1
          ++ {| role := "assistant"; content := text |} :: _process_messages ms2).
Proof.
  assert (Happ : forall a b, _process_messages (a ++ b)
                             = _process_messages a ++ _process_messages b).
  { intros a b. unfold _process_messages. rewrite filter_app, map_app. reflexivity. }
  assert (Hdrop : forall m,
             ~ ((openai_role m = "assistant" \/ openai_role m = "user")
                /\ openai_content m <> "") ->
             _process_messages (ms1 ++ m :: ms2) = _process_messages (ms1 ++ ms2)).
  { intros m Hm. rewrite !Happ. f_equal. unfold _process_messages.
    rewrite filter_cons. destruct (decide _); [contradiction | reflexivity]. }
  split; [apply Happ|]. split.
  { unfold _process_messages. apply Forall_forall. intros m Hm.
    apply list_elem_of_fmap in Hm. destruct Hm as (m0 & -> & Hm0).
    apply list_elem_of_filter in Hm0. destruct Hm0 as [Hkeep _]. exact Hkeep. }
  split.
  { unfold _process_messages. rewrite length_map. apply length_filter. }
  split; [intros text name id; apply Hdrop; simpl; intros [[H|H] _]; discriminate|].
  split; [intros text; apply Hdrop; simpl; intros [[H|H] _]; discriminate|].
  split; [intros tool_calls; apply Hdrop; simpl; intros [_ H]; congruence|].
  intros text tool_calls Htext. rewrite Happ. f_equal.
  unfold _process_messages. rewrite filter_cons.
  destruct (decide _) as [_|Hno]; [reflexivity|].
  exfalso. apply Hno. simpl. auto.
Qed.

(** ** The nodes and the run of the graph *)

Section Nodes.

Variable LLMS : list Entry.
Variable settings : Settings.
Variable C : Collaborators.
Variable tools : list BaseTool.
Variable load_system_prompt : string -> result string.
Variable prepare_messages :
  list BaseMessage -> option BaseChatModel -> string -> list Message.
Variable dump_messages : list Message -> list BaseMessage.
Variable process_llm_response : BaseMessage -> BaseMessage.

Local Abbreviation N := (length LLMS).
Local Abbreviation _chat' :=
  (_chat LLMS settings C load_system_prompt prepare_messages dump_messages
     process_llm_response).
Local Abbreviation run_nodes' :=
  (run_nodes LLMS settings C tools load_system_prompt prepare_messages
     dump_messages process_llm_response).
Local Abbreviation get_response' :=
  (get_response LLMS settings C tools load_system_prompt prepare_messages
     dump_messages process_llm_response).
Local Abbreviation chat_input' :=
  (chat_input load_system_prompt prepare_messages dump_messages).

Lemma chat_unfold (state : GraphState) (st : St C) :
  _chat' state st =
  match load_system_prompt (long_term_memory state) with
  | Raise e => (Raise e, st)
  | Return prompt =>
      match call LLMS settings C
              (chat_input' state (_llm (llm_service st)) prompt) st with
      | (Return m, st1) =>
          match process_llm_response m with
          | AIMessage text tool_calls => (Return (route text tool_calls), st1)
          | _ => (Raise AttributeError, node_failed C AttributeError st1)
          end
      | (Raise e, st1) => (Raise e, node_failed C e st1)
      end
  end.
Proof.
  unfold _chat, chat_input, route, node_failed.
  cbv beta iota delta [bind get_llm get_self try_except ret raise emit].
  destruct (load_system_prompt (long_term_memory state)) as [prompt|e];
    [|reflexivity].
  destruct (call LLMS settings C _ st) as [[m|e] st1]; [|reflexivity].
  destruct (process_llm_response m); reflexivity.
Qed.

(** X10: the [chat] node, when it returns, has loaded the prompt and
    called the model once through [call], on the messages prepared from the
    state, in the state [call] left; it returns one message, the processed
    response of that call, an assistant message, and routes to the tool
    node exactly when that message carries tool requests, to the end of the
    turn otherwise, never to itself; when [call] raises, or the response is
    not an assistant message, the node logs the failure once and raises the
    same error; an error of the prompt loader is raised before any model is
    called and is not logged. *)
Theorem X10_chat_routing (state : GraphState) (st st' : St C)
    (r : result Command) :
  _chat' state st = (r, st') ->
  (forall command : Command,
      r = Return command ->
      exists (prompt : string) (m : BaseMessage)
             (text : string) (tool_calls : list ToolCall),
        load_system_prompt (long_term_memory state) = Return prompt
        /\ call LLMS settings C
             (chat_input' state (_llm (llm_service st)) prompt) st
           = (Return m, st')
        /\ process_llm_response m = AIMessage text tool_calls
        /\ update command = [process_llm_response m]
        /\ (tool_calls = [] -> goto command = END)
        /\ (tool_calls <> [] -> goto command = node_tool_call)
        /\ goto command <> node_chat)
  /\ (forall e : exn,
        r = Raise e ->
        (load_system_prompt (long_term_memory state) = Raise e /\ st' = st)
        \/ (exists (prompt : string) (st1 : St C),
              load_system_prompt (long_term_memory state) = Return prompt
              /\ st' = node_failed C e st1
              /\ (call LLMS settings C
                    (chat_input' state (_llm (llm_service st)) prompt) st
                  = (Raise e, st1)
                  \/ (e = AttributeError
                      /\ exists m : BaseMessage,
                           call LLMS settings C
                             (chat_input' state (_llm (llm_service st)) prompt) st
                           = (Return m, st1))))).
Proof.
  rewrite chat_unfold.
  destruct (load_system_prompt (long_term_memory state)) as [prompt|e0] eqn:Hprompt.
  - destruct (call LLMS settings C _ st) as [[m|e1] st1] eqn:Hcall.
    + destruct (process_llm_response m) as [c|text tool_calls|c n i|c] eqn:Hm;
        intros [= <- <-]; (split; [intros command [= <-] | intros e [= <-]]);
        try (right; exists prompt, st1; split; [reflexivity|];
             split; [reflexivity|]; right; split; [reflexivity|]; eauto).
      exists prompt, m, text, tool_calls.
      split; [reflexivity|]. split; [exact Hcall|]. split; [exact Hm|].
      split; [rewrite Hm; reflexivity|].
      destruct tool_calls; simpl; repeat split; congruence.
    + intros [= <- <-]. split; [intros command; discriminate|].
      intros e [= <-]. right. exists prompt, st1. auto.
  - intros [= <- <-]. split; [intros command; discriminate|].
    intros e [= <-]. left. auto.
Qed.

(** What the [tool_call] node leaves behind. *)
Lemma tool_call_loop_frame (tool_calls : list ToolCall) :
  forall (outputs : list BaseMessage) (st st' : St C)
         (r : result (list BaseMessage)),
    _tool_call_loop C tools tool_calls outputs st = (r, st') ->
    llm_service st' = llm_service st
    /\ exists evs : list event,
         trace st' = trace st ++ evs
         /\ Forall (fun ev => exists tool args, ev = EvToolInvoke tool args) evs
         /\ (length evs <= length tool_calls)%nat
         /\ (forall results, r = Return results ->
             exists new, results = outputs ++ new
                         /\ Forall2 answers tool_calls new
                         /\ length evs = length tool_calls).
Proof.
  induction tool_calls as [|tc rest IH]; intros outputs st st' r.
  - simpl. unfold ret. intros [= <- <-]. split; [reflexivity|].
    exists []. rewrite app_nil_r. repeat split; auto.
    intros results [= <-]. exists []. rewrite app_nil_r.
    repeat split. constructor.
  - rewrite tool_call_loop_unfold.
    destruct (resolve tools tc) as [tool|].
    + destruct (fst (tool_ainvoke C tool (tc_args tc) (world st))) as [s|e].
      * intros Hrest. apply IH in Hrest.
        destruct Hrest as (Hself & evs & Htrace & Hkind & Hlen & Hret).
        split; [exact Hself|].
        exists (EvToolInvoke tool (tc_args tc) :: evs).
        split; [rewrite Htrace; simpl; rewrite <- app_assoc; reflexivity|].
        split; [constructor; eauto|]. split; [simpl; lia|].
        intros results Hresults. destruct (Hret results Hresults)
          as (new & -> & Hans & Hlen').
        exists (ToolMessage s (tc_name tc) (tc_id tc) :: new).
        split; [rewrite <- app_assoc; reflexivity|].
        split; [constructor; [exists s; reflexivity | exact Hans]|].
        simpl. lia.
      * intros [= <- <-]. split; [reflexivity|].
        exists [EvToolInvoke tool (tc_args tc)].
        split; [reflexivity|]. split; [repeat constructor; eauto|].
        split; [simpl; lia|]. intros results; discriminate.
    + intros [= <- <-]. split; [reflexivity|]. exists [].
      rewrite app_nil_r. split; [reflexivity|]. split; [constructor|].
      split; [simpl; lia|]. intros results; discriminate.
Qed.

(** X11: the [tool_call] node never touches the service object and adds
    nothing to the trace but tool invocations, at most one for each request;
    when it returns, it has invoked one tool for each request, its messages
    answer the requests one for one in order, and the next node is [chat];
    on a state without messages it raises [IndexError] and on a last
    message that is not an assistant message [AttributeError], in both cases
    without invoking a tool. *)
Theorem X11_tool_call_frame (state : GraphState) (st st' : St C)
    (r : result Command) :
  _tool_call C tools state st = (r, st') ->
  llm_service st' = llm_service st
  /\ (exists evs : list event,
        trace st' = trace st ++ evs
        /\ Forall (fun ev => exists tool args, ev = EvToolInvoke tool args) evs
        /\ (forall (text : string) (tool_calls : list ToolCall),
              last (state_messages state) = Some (AIMessage text tool_calls) ->
              (length evs <= length tool_calls)%nat
              /\ forall command, r = Return command ->
                   goto command = node_chat
                   /\ Forall2 answers tool_calls (update command)
                   /\ length evs = length tool_calls))
  /\ (state_messages state = [] -> r = Raise IndexError /\ st' = st)
  /\ (forall m : BaseMessage,
        last (state_messages state) = Some m ->
        (forall text tool_calls, m <> AIMessage text tool_calls) ->
        r = Raise AttributeError /\ st' = st).
Proof.
  unfold _tool_call.
  destruct (last (state_messages state)) as [[c|text tool_calls|c n i|c]|] eqn:Hlast.
  all: try (intros [= <- <-]; split; [reflexivity|];
            split; [exists []; rewrite app_nil_r; split; [reflexivity|];
                    split; [constructor|]; intros; discriminate|];
            split; [intros Hnil; rewrite Hnil in Hlast; discriminate|];
            intros m [= <-] Hm; first [auto | exfalso; eapply Hm; reflexivity]).
  - unfold bind.
    destruct (_tool_call_loop C tools tool_calls [] st) as [[outputs|e] st1] eqn:Hloop;
      intros [= <- <-]; apply tool_call_loop_frame in Hloop;
      destruct Hloop as (Hself & evs & Htrace & Hkind & Hlen & Hret);
      (split; [exact Hself|]);
      (split; [exists evs; split; [exact Htrace|]; split; [exact Hkind|];
               intros text' tool_calls' [= <- <-]; split; [exact Hlen|] |]).
    + intros command [= <-]. destruct (Hret outputs eq_refl) as (new & -> & Hans & Hall).
      simpl. auto.
    + split; [intros Hnil; rewrite Hnil in Hlast; discriminate|].
      intros m [= <-] Hm. exfalso. eapply Hm. reflexivity.
    + intros command; discriminate.
    + split; [intros Hnil; rewrite Hnil in Hlast; discriminate|].
      intros m [= <-] Hm. exfalso. eapply Hm. reflexivity.
  - intros [= <- <-]. split; [reflexivity|].
    split; [exists []; rewrite app_nil_r; split; [reflexivity|];
            split; [constructor|]; intros; discriminate|].
    split; [auto|]. intros m; discriminate.
Qed.

End Nodes.

Section Run.

Variable LLMS : list Entry.
Variable settings : Settings.
Variable C : Collaborators.
Variable tools : list BaseTool.
Variable load_system_prompt : string -> result string.
Variable prepare_messages :
  list BaseMessage -> option BaseChatModel -> string -> list Message.
Variable dump_messages : list Message -> list BaseMessage.
Variable process_llm_response : BaseMessage -> BaseMessage.

Local Abbreviation N := (length LLMS).
Local Abbreviation _chat' :=
  (_chat LLMS settings C load_system_prompt prepare_messages dump_messages
     process_llm_response).
Local Abbreviation run_nodes' :=
  (run_nodes LLMS settings C tools load_system_prompt prepare_messages
     dump_messages process_llm_response).
Local Abbreviation get_response' :=
  (get_response LLMS settings C tools load_system_prompt prepare_messages
     dump_messages process_llm_response).
Local Abbreviation run_turn' :=
  (run_turn LLMS settings C tools load_system_prompt prepare_messages
     dump_messages process_llm_response).
Local Abbreviation graph_ainvoke' :=
  (graph_ainvoke LLMS settings C tools load_system_prompt prepare_messages
     dump_messages process_llm_response).

Lemma retrying_tasks (messages : list BaseMessage) (fuel : nat) (n : Z)
    (st st' : St C) (r : result BaseMessage) :
  retrying settings C fuel n (_call_with_retry_body C messages) st = (r, st') ->
  exists evs : list event, trace st' = trace st ++ evs /\ tasks evs = [].
Proof.
  intros Hrun. apply retrying_body_run in Hrun. destruct Hrun as [-> _].
  rewrite body_run. destruct (_llm (llm_service st)) as [l|]; simpl.
  - exists [EvInvoke l messages]. split; reflexivity.
  - exists []. rewrite app_nil_r. split; reflexivity.
Qed.

Lemma call_loop_tasks (messages : list BaseMessage) (fuel tried : nat)
    (st st' : St C) (r : result BaseMessage) :
  (tried + S fuel = N)%nat ->
  index_ok LLMS st ->
  call_loop LLMS settings C (S fuel) tried N messages st = (r, st') ->
  index_ok LLMS st'
  /\ exists evs : list event, trace st' = trace st ++ evs /\ tasks evs = [].
Proof.
  revert tried st. induction fuel as [|fuel IH]; intros tried st Hfuel Hidx;
    (rewrite call_loop_unfold by (auto; lia));
    destruct (_call_with_retry settings C messages st) as [[m|e] st1] eqn:Hrun;
    pose proof Hrun as Hframe; apply retrying_body_frame in Hframe;
    destruct Hframe as [Hself _];
    apply retrying_tasks in Hrun; destruct Hrun as (evs & Htrace & Htasks);
    assert (Hidx1 : index_ok LLMS st1) by (unfold index_ok; rewrite Hself; exact Hidx).
  all: try (intros [= <- <-]; split; [exact Hidx1|]; exists evs; auto).
  all: destruct (isinstance_OpenAIError e).
  all: try (intros [= <- <-]; split; [exact Hidx1|]; exists evs; auto).
  all: destruct (Nat.leb_spec N (tried + 1)) as [Hlast_round|Hmore]; try lia.
  - intros [= <- <-]. split; [exact Hidx1|]. eexists (evs ++ [_]).
    split; [unfold failure_logged; simpl; rewrite Htrace, <- app_assoc; reflexivity|].
    unfold tasks in *. rewrite omap_app, Htasks. reflexivity.
  - intros Hrest. apply IH in Hrest;
      [|lia|unfold index_ok, after_switch; simpl; apply Nat.mod_upper_bound; lia].
    destruct Hrest as (Hidx' & evs' & Htrace' & Htasks').
    split; [exact Hidx'|]. simpl in Htrace'.
    exists (evs ++ [LogModelFailedExhaustedRetries
                      (default "" (entry_name <$> LLMS
                         !! _current_model_index (llm_service st1))) e;
                    LogSwitchingModelFallback
                      (_current_model_index (llm_service st1))
                      (default "" (entry_name <$> LLMS
                         !! ((_current_model_index (llm_service st1) + 1)
                               mod N)%nat))] ++ evs').
    split; [rewrite Htrace', Htrace, <- !app_assoc; reflexivity|].
    unfold tasks in *. rewrite !omap_app, Htasks, Htasks'. reflexivity.
Qed.

Lemma call_tasks (messages : list BaseMessage) (st st' : St C)
    (r : result BaseMessage) :
  index_ok LLMS st ->
  call LLMS settings C messages st = (r, st') ->
  index_ok LLMS st'
  /\ exists evs : list event, trace st' = trace st ++ evs /\ tasks evs = [].
Proof.
  intros Hidx Hcall. destruct (index_ok_length LLMS st Hidx) as [n HN].
  unfold call in Hcall. rewrite HN in Hcall at 1.
  apply call_loop_tasks in Hcall; [exact Hcall | lia | exact Hidx].
Qed.

Lemma chat_frame (state : GraphState) (st st' : St C) (r : result Command) :
  index_ok LLMS st ->
  _chat' state st = (r, st') ->
  index_ok LLMS st'
  /\ (exists evs : list event, trace st' = trace st ++ evs /\ tasks evs = [])
  /\ (forall command, r = Return command ->
      exists text tool_calls, command = route text tool_calls).
Proof.
  intros Hidx. rewrite chat_unfold.
  destruct (load_system_prompt (long_term_memory state)) as [prompt|e0].
  - destruct (call LLMS settings C _ st) as [[m|e1] st1] eqn:Hcall;
      apply call_tasks in Hcall; try exact Hidx;
      destruct Hcall as (Hidx1 & evs & Htrace & Htasks).
    + destruct (process_llm_response m) as [c|text tool_calls|c n i|c];
        intros [= <- <-]; (split; [exact Hidx1|]);
        try (split; [exists (evs ++ [LogLlmCallNodeFailed AttributeError]);
                     split; [simpl; rewrite Htrace, <- app_assoc; reflexivity|];
                     unfold tasks in *; rewrite omap_app, Htasks; reflexivity|];
             intros command; discriminate).
      split; [exists evs; auto|]. intros command [= <-]. eauto.
    + intros [= <- <-]. split; [exact Hidx1|].
      split; [exists (evs ++ [LogLlmCallNodeFailed e1]);
              split; [simpl; rewrite Htrace, <- app_assoc; reflexivity|];
              unfold tasks in *; rewrite omap_app, Htasks; reflexivity|].
      intros command; discriminate.
  - intros [= <- <-]. split; [exact Hidx|].
    split; [exists []; rewrite app_nil_r; auto|]. intros command; discriminate.
Qed.

Lemma tool_events_no_task (evs : list event) :
  Forall (fun ev => exists tool args, ev = EvToolInvoke tool args) evs ->
  tasks evs = [].
Proof.
  induction 1 as [|ev evs (tool & args & ->) _ IH]; [reflexivity|].
  simpl. exact IH.
Qed.

Lemma run_nodes_frame (fuel : nat) :
  forall (node : Node) (state : GraphState) (st st' : St C)
         (r : result GraphState),
    index_ok LLMS st ->
    node <> END ->
    run_nodes' fuel node state st = (r, st') ->
    index_ok LLMS st'
    /\ (exists evs : list event, trace st' = trace st ++ evs /\ tasks evs = [])
    /\ (fuel = 0%nat -> r = Raise GraphRecursionError)
    /\ (forall final : GraphState,
          r = Return final ->
          long_term_memory final = long_term_memory state
          /\ exists (new : list BaseMessage) (text : string),
               state_messages final
               = state_messages state ++ new ++ [AIMessage text []]).
Proof.
  induction fuel as [|fuel IH]; intros node state st st' r Hidx Hnode.
  - destruct node; [| |congruence]; intros [= <- <-];
      (split; [exact Hidx|]);
      (split; [exists []; rewrite app_nil_r; auto|]);
      (split; [reflexivity|]); intros final; discriminate.
  - destruct node; [| |congruence].
    + (* chat *)
      change (run_nodes' (S fuel) node_chat state st)
        with (match _chat' state st with
              | (Return command, st1) =>
                  run_nodes' fuel (goto command) (apply_update state command) st1
              | (Raise e, st1) => (Raise e, st1)
              end).
      destruct (_chat' state st) as [[command|e] st1] eqn:Hchat;
        apply chat_frame in Hchat; try exact Hidx;
        destruct Hchat as (Hidx1 & (evs & Htrace & Htasks) & Hroute).
      * destruct (Hroute command eq_refl) as (text & tool_calls & ->).
        destruct tool_calls as [|tc tool_calls].
        -- assert (Hend : run_nodes' fuel END
                            (apply_update state (route text [])) st1
                          = (Return (apply_update state (route text [])), st1))
             by (destruct fuel; reflexivity).
           cbn [route goto]. rewrite Hend. intros [= <- <-].
           split; [exact Hidx1|]. split; [exists evs; auto|].
           split; [discriminate|]. intros final [= <-].
           split; [reflexivity|]. exists [], text. reflexivity.
        -- cbn [route goto]. intros Hrest.
           apply IH in Hrest; [|exact Hidx1|discriminate].
           destruct Hrest as (Hidx' & (evs' & Htrace' & Htasks') & _ & Hfinal).
           split; [exact Hidx'|].
           split.
           { exists (evs ++ evs'). split; [rewrite Htrace', Htrace, app_assoc; reflexivity|].
             unfold tasks in *. rewrite omap_app, Htasks, Htasks'. reflexivity. }
           split; [discriminate|]. intros final Hr.
           destruct (Hfinal final Hr) as (Hmem & new & text' & Hmsgs).
           split; [exact Hmem|].
           exists (AIMessage text (tc :: tool_calls) :: new), text'.
           rewrite Hmsgs. simpl. rewrite <- app_assoc. reflexivity.
      * intros [= <- <-]. split; [exact Hidx1|]. split; [exists evs; auto|].
        split; [discriminate|]. intros final; discriminate.
    + (* tool_call *)
      rewrite run_nodes_tool_call.
      destruct (_tool_call C tools state st) as [[command|e] st1] eqn:Htool;
        pose proof Htool as Hloop; unfold _tool_call in Hloop.
      * destruct (last (state_messages state)) as [[c|text tool_calls|c n i|c]|];
          try discriminate.
        unfold bind in Hloop.
        destruct (_tool_call_loop C tools tool_calls [] st) as [[outputs|e] st2] eqn:Hrun;
          [|discriminate].
        injection Hloop as <- <-. apply tool_call_loop_frame in Hrun.
        destruct Hrun as (Hself & evs & Htrace & Hkind & _).
        cbn [goto]. intros Hrest.
        apply IH in Hrest;
          [|unfold index_ok; rewrite Hself; exact Hidx|discriminate].
        destruct Hrest as (Hidx' & (evs' & Htrace' & Htasks') & _ & Hfinal).
        split; [exact Hidx'|].
        split.
        { exists (evs ++ evs'). split; [rewrite Htrace', Htrace, app_assoc; reflexivity|].
          pose proof (tool_events_no_task evs Hkind) as Htasks.
          unfold tasks in *. rewrite omap_app, Htasks, Htasks'. reflexivity. }
        split; [discriminate|]. intros final Hr.
        destruct (Hfinal final Hr) as (Hmem & new & text' & Hmsgs).
        split; [exact Hmem|]. exists (outputs ++ new), text'.
        rewrite Hmsgs. simpl. rewrite <- !app_assoc. reflexivity.
      * intros [= <- <-].
        assert (Hframe : llm_service st1 = llm_service st
                         /\ exists evs, trace st1 = trace st ++ evs /\ tasks evs = []).
        { destruct (last (state_messages state)) as [[c|text tool_calls|c n i|c]|];
            try (injection Hloop as _ <-; split; [reflexivity|];
                 exists []; rewrite app_nil_r; auto).
          unfold bind in Hloop.
          destruct (_tool_call_loop C tools tool_calls [] st) as [[outputs|e'] st2] eqn:Hrun;
            [discriminate|].
          injection Hloop as _ <-. apply tool_call_loop_frame in Hrun.
          destruct Hrun as (Hself & evs & Htrace & Hkind & _).
          split; [exact Hself|]. exists evs. split; [exact Htrace|].
          apply tool_events_no_task, Hkind. }
        destruct Hframe as (Hself & evs & Htrace & Htasks).
        split; [unfold index_ok; rewrite Hself; exact Hidx|].
        split; [exists evs; auto|]. split; [discriminate|].
        intros final; discriminate.
Qed.

(** X12: a run of the graph from the [chat] node never creates a background
    task and keeps the index of the service inside the registry; when it
    returns, the memory context of the state is unchanged, the messages the
    run started with are all still there, in order, followed by the new
    ones, and the last message is an assistant message without tool
    requests; a run that is allowed no step raises [GraphRecursionError]. *)
Theorem X12_run_ends_on_plain_answer (fuel : nat) (state : GraphState)
    (st st' : St C) (r : result GraphState) :
  index_ok LLMS st ->
  run_nodes' fuel node_chat state st = (r, st') ->
  index_ok LLMS st'
  /\ (exists evs : list event, trace st' = trace st ++ evs /\ tasks evs = [])
  /\ (fuel = 0%nat -> r = Raise GraphRecursionError)
  /\ (forall final : GraphState,
        r = Return final ->
        long_term_memory final = long_term_memory state
        /\ exists (new : list BaseMessage) (text : string),
             state_messages final
             = state_messages state ++ new ++ [AIMessage text []]).
Proof.
  intros Hidx Hrun.
  apply (run_nodes_frame fuel node_chat state st st' r Hidx); [discriminate | exact Hrun].
Qed.

(** A run of the compiled graph creates no background task and, when it
    returns, ends on an assistant message without tool requests. *)
Lemma graph_ainvoke_frame (input_state : GraphState) (thread_id : string)
    (st st' : St C) (r : result GraphState) :
  index_ok LLMS st ->
  graph_ainvoke' input_state thread_id st = (r, st') ->
  (exists evs : list event, trace st' = trace st ++ evs /\ tasks evs = [])
  /\ (forall final_state : GraphState,
        r = Return final_state ->
        exists text : string,
          last (state_messages final_state) = Some (AIMessage text [])).
Proof.
  intros Hidx. unfold graph_ainvoke.
  cbv beta iota delta [bind lift_world].
  intros Hrun. apply run_nodes_frame in Hrun; [|exact Hidx|discriminate].
  destruct Hrun as (_ & Htasks & _ & Hfinal). split; [exact Htasks|].
  intros final_state Hr. destruct (Hfinal final_state Hr) as (_ & new & text & Hmsgs).
  exists text. rewrite Hmsgs, !app_assoc. apply last_snoc.
Qed.

(** X13: [get_response] schedules the memory update exactly when the turn
    has succeeded.  When it returns, the set-up and the memory search have
    returned, the graph has run on the input messages with the injected
    memory context and has returned a final state; [get_response] has then
    created one background task, as its last act, for the user and with
    the messages of that final state, of which the response is the
    processed form and the last is an assistant message without tool
    requests.  When it raises, it has created no task. *)
Theorem X13_memory_update_scheduled_on_success (messages : list Message)
    (session_id user_id : string) (st st' : St C) (r : result (list Message)) :
  index_ok LLMS st ->
  get_response' messages session_id user_id st = (r, st') ->
  exists evs : list event,
    trace st' = trace st ++ evs
    /\ (forall response : list Message,
          r = Return response ->
          exists (m : Message) (st1 st2 : St C)
                 (relevant_memory : option (list MemoryFact))
                 (final_state : GraphState) (text : string),
            setup C st = (Return tt, st1)
            /\ last messages = Some m
            /\ fst (memory_search C user_id (content m) (world st1))
               = Return relevant_memory
            /\ graph_ainvoke'
                 {| state_messages := dump_messages messages;
                    long_term_memory := injected_context relevant_memory |}
                 session_id (searched C user_id (content m) st1)
               = (Return final_state, st2)
            /\ trace st' = trace st2 ++ [EvCreateTask user_id (state_messages final_state)]
            /\ tasks evs = [(user_id, state_messages final_state)]
            /\ last evs = Some (EvCreateTask user_id (state_messages final_state))
            /\ response = _process_messages (state_messages final_state)
            /\ last (state_messages final_state) = Some (AIMessage text []))
    /\ (forall e : exn, r = Raise e -> tasks evs = []).
Proof.
  intros Hidx. rewrite get_response_unfold.
  destruct (setup C st) as [[[]|e0] st1] eqn:Hsetup;
    pose proof Hsetup as Hframe;
    apply setup_frame in Hframe; destruct Hframe as [Hself1 Htrace1].
  2:{ intros [= <- <-]. exists []. rewrite app_nil_r.
      split; [auto|]. split; [intros response; discriminate | auto]. }
  destruct (last messages) as [m|].
  2:{ intros [= <- <-]. exists []. rewrite app_nil_r.
      split; [auto|]. split; [intros response; discriminate | auto]. }
  destruct (fst (memory_search C user_id (content m) (world st1)))
    as [relevant|e1] eqn:Hsearch.
  2:{ intros [= <- <-]. exists [EvMemorySearch user_id (content m)].
      split; [simpl; rewrite Htrace1; reflexivity|].
      split; [intros response; discriminate | auto]. }
  unfold run_turn. unfold bind at 1.
  destruct (graph_ainvoke' _ session_id (searched C user_id (content m) st1))
    as [[final_state|e2] st2] eqn:Hgraph;
    pose proof Hgraph as Hrun;
    (apply graph_ainvoke_frame in Hrun;
       [|unfold index_ok; simpl; rewrite Hself1; exact Hidx]);
    destruct Hrun as ((evs & Htrace & Htasks) & Hfinal); simpl in Htrace.
  - cbv beta iota delta [bind emit ret]. intros [= <- <-].
    destruct (Hfinal final_state eq_refl) as (text & Hlast).
    exists ([EvMemorySearch user_id (content m)] ++ evs
            ++ [EvCreateTask user_id (state_messages final_state)]).
    split; [simpl; rewrite Htrace, Htrace1, <- !app_assoc; reflexivity|].
    split; [|intros e; discriminate].
    intros response [= <-].
    exists m, st1, st2, relevant, final_state, text.
    split; [reflexivity|]. split; [reflexivity|]. split; [exact Hsearch|].
    split; [exact Hgraph|]. split; [reflexivity|].
    split.
    { unfold tasks in *. rewrite !omap_app, Htasks. reflexivity. }
    split; [rewrite app_assoc; apply last_snoc|].
    split; [reflexivity | exact Hlast].
  - intros [= <- <-].
    exists ([EvMemorySearch user_id (content m)] ++ evs).
    split; [rewrite Htrace, Htrace1, <- !app_assoc; reflexivity|].
    split; [intros response; discriminate|]. intros e _.
    unfold tasks in *. rewrite omap_app, Htasks. reflexivity.
Qed.

End Run.

(** ** The further properties on concrete runs *)

(** X2 on the registry of the source: three switches from entry 0 come back
    to entry 0. *)
Lemma X2_switch_goes_round_witness :
  let st := initial all_backends_down tt service_at_0 in
  index_ok LLMS_source st
  /\ exists st' : St all_backends_down,
       switch_times LLMS_source all_backends_down 3 st = (Return tt, st')
       /\ _current_model_index (llm_service st') = 0%nat.
Proof.
  intros st.
  assert (Hidx : index_ok LLMS_source st) by (unfold index_ok; simpl; lia).
  split; [exact Hidx|].
  destruct (X2_switch_goes_round LLMS_source all_backends_down st) as [_ Hround].
  destruct (Hround Hidx) as (_ & st' & Hrun & Hindex & _).
  exists st'. split; [exact Hrun | exact Hindex].
Defined.

(** X3 on a call that exhausts the registry, with the settings of the
    source: every backend raises an [OpenAIError] that is not retried, and
    the caller gets the terminal [RuntimeError]. *)
Lemma X3_call_raises_no_openai_error_witness :
  let st := initial all_backends_reject tt service_at_0 in
  index_ok LLMS_source st
  /\ fst (call LLMS_source settings_source all_backends_reject [] st)
     = Raise exhausted_all_options
  /\ failed_rounds
       (trace (snd (call LLMS_source settings_source all_backends_reject [] st)))
     = ["gpt-5-mini"; "gpt-4o"; "gpt-4o-mini"]
  /\ isinstance_OpenAIError exhausted_all_options = false.
Proof.
  intros st.
  assert (Hidx : index_ok LLMS_source st) by (unfold index_ok; simpl; lia).
  assert (Hcall : call LLMS_source settings_source all_backends_reject [] st
                  = (Raise exhausted_all_options,
                     snd (call LLMS_source settings_source all_backends_reject [] st)))
    by (vm_compute; reflexivity).
  split; [exact Hidx|]. split; [rewrite Hcall; reflexivity|].
  split; [vm_compute; reflexivity|].
  apply (X3_call_raises_no_openai_error LLMS_source settings_source
           all_backends_reject [] st _ exhausted_all_options Hidx Hcall).
Defined.

(** X4 on the service the source builds and a call on it. *)
Lemma X4_service_invariant_witness :
  let st := initial two_backends_down tt service_default in
  LLMService_init LLMS_source settings_source = Return service_default
  /\ service_ok LLMS_source st
  /\ service_ok LLMS_source
       (snd (call LLMS_source settings_source two_backends_down [] st)).
Proof.
  intros st.
  assert (Hinit : LLMService_init LLMS_source settings_source = Return service_default)
    by reflexivity.
  destruct (X4_service_invariant LLMS_source settings_source two_backends_down st)
    as [Hbuilt Hkept].
  pose proof (Hbuilt service_default tt Hinit) as Hok.
  split; [exact Hinit|]. split; [exact Hok|].
  destruct (Hkept Hok) as (_ & _ & Hcall). apply Hcall.
Defined.

(** X5 on a call that falls back twice, with the search tool bound before
    the call: after the fallback no tool is bound. *)
Lemma X5_fallback_drops_bound_tools_witness :
  let st := initial two_backends_reject tt service_at_0 in
  let st1 := snd (bind_tools two_backends_reject tools_source st) in
  let st' := snd (call LLMS_source settings_source two_backends_reject [] st1) in
  index_ok LLMS_source st
  /\ bound_tools <$> _llm (llm_service st1) = Some tools_source
  /\ switches (trace st') = [0; 1]%nat
  /\ bound_tools <$> _llm (llm_service st') = Some [].
Proof.
  intros st st1 st'.
  assert (Hidx : index_ok LLMS_source st) by (unfold index_ok; simpl; lia).
  split; [exact Hidx|]. split; [reflexivity|].
  assert (Hconcrete : switches (trace st') = [0; 1]%nat) by (vm_compute; reflexivity).
  split; [exact Hconcrete|].
  destruct (X5_fallback_drops_bound_tools LLMS_source settings_source
              two_backends_reject tools_source [] st st'
              (fst (call LLMS_source settings_source two_backends_reject [] st1))
              Hidx (surjective_pairing _))
    as (evs & Htrace & _ & Hdropped).
  assert (Hsw : switches evs <> []).
  { rewrite Htrace in Hconcrete. simpl in Hconcrete.
    intros Hnil. rewrite Hnil in Hconcrete. discriminate. }
  destruct (Hdropped Hsw) as (entry & _ & _ & Hplain).
  apply Hplain. repeat constructor.
Defined.

(** X6 on a call that exhausts the registry of the source, with its
    settings: at most 9 invocations and 60 seconds. *)
Lemma X6_call_work_bounded_witness :
  let st := initial all_backends_reject tt service_at_0 in
  index_ok LLMS_source st
  /\ exists evs : list event,
       trace (snd (call LLMS_source settings_source all_backends_reject [] st)) = evs
       /\ (Z.of_nat (invocations evs) <= 9)%Z
       /\ (total (sleeps evs) <= 60)%Z.
Proof.
  intros st.
  assert (Hidx : index_ok LLMS_source st) by (unfold index_ok; simpl; lia).
  split; [exact Hidx|].
  destruct (X6_call_work_bounded LLMS_source settings_source all_backends_reject []
              st _ _ Hidx (surjective_pairing _))
    as (evs & Htrace & Hinv & _ & Htotal).
  exists evs. split; [exact Htrace|]. simpl in Hinv, Htotal. split; lia.
Defined.

(** X7 on a round against a backend that is down, with the settings of
    the source: one invocation, no sleep, and [TypeError] in place of the
    rate-limit error. *)
Lemma X7_round_is_one_attempt_witness :
  let st := initial all_backends_down tt service_at_0 in
  let round := _call_with_retry settings_source all_backends_down [] st in
  fst round = Raise TypeError
  /\ exists evs : list event,
       trace (snd round) = evs
       /\ invoked evs = [chat_model "gpt-5-mini"]
       /\ sleeps evs = [].
Proof.
  intros st round.
  destruct (X7_round_is_one_attempt settings_source all_backends_down []
              st (snd round) (fst round) (surjective_pairing _))
    as (_ & _ & Hone).
  destruct (Hone (chat_model "gpt-5-mini") eq_refl)
    as ((evs & Htrace & Hinv & _ & Hsleeps & _) & _ & _ & Hraise).
  destruct (Hraise RateLimitError eq_refl) as (_ & _ & Htype).
  split; [apply Htype; [reflexivity | simpl; lia]|].
  exists evs. split; [exact Htrace|]. split; [exact Hinv | exact Hsleeps].
Defined.

Lemma all_backends_reject_every_round_fails :
  every_round_fails settings_source all_backends_reject.
Proof.
  intros l messages w. exists OpenAIError.
  split; [reflexivity|]. split; [reflexivity | discriminate].
Qed.

(** X18 on the registry and the settings of the source: with the first
    two backends rejecting, the round on backend 0 is followed by a round on
    backend 1; with all three rejecting, the call raises the terminal error
    after three failed rounds. *)
Lemma X18_fallback_round_robin_witness :
  let st := initial two_backends_reject tt service_at_0 in
  let st1 := snd (_call_with_retry settings_source two_backends_reject [] st) in
  index_ok LLMS_source st
  /\ (call_loop LLMS_source settings_source two_backends_reject 3 0 3 [] st
      = call_loop LLMS_source settings_source two_backends_reject 2 1 3 []
          (after_switch LLMS_source OpenAIError st1)
      /\ _current_model_index
           (llm_service (after_switch LLMS_source OpenAIError st1)) = 1%nat)
  /\ exists (st' : St all_backends_reject) (evs : list event),
       call LLMS_source settings_source all_backends_reject []
         (initial all_backends_reject tt service_at_0)
       = (Raise exhausted_all_options, st')
       /\ trace st' = evs
       /\ length (failed_rounds evs) = 3%nat
       /\ _current_model_index (llm_service st') = 2%nat.
Proof.
  intros st st1.
  assert (Hidx : index_ok LLMS_source st) by (unfold index_ok; simpl; lia).
  assert (Hidx' : index_ok LLMS_source (initial all_backends_reject tt service_at_0))
    by (unfold index_ok; simpl; lia).
  split; [exact Hidx|]. split.
  - destruct (X18_fallback_round_robin LLMS_source settings_source two_backends_reject
                [] st Hidx) as (Hstep & _ & _).
    destruct (Hstep 2%nat 0%nat OpenAIError st1) as (Hloop & Hindex & _);
      [simpl; lia | reflexivity | reflexivity |].
    split; [exact Hloop | exact Hindex].
  - destruct (X18_fallback_round_robin LLMS_source settings_source all_backends_reject
                [] (initial all_backends_reject tt service_at_0) Hidx')
      as (_ & _ & Hall).
    destruct (Hall all_backends_reject_every_round_fails) as
      (st' & evs & Hcall & Htrace & Hfail & _ & Hindex); [simpl; eauto|].
    exists st', evs. split; [exact Hcall|]. split; [exact Htrace|].
    split; [exact Hfail | exact Hindex].
Defined.

(** X8 on the tools of the source. *)
Lemma X8_tools_by_name_last_wins_witness :
  resolve tools_source search_request = Some duckduckgo_search_tool
  /\ duckduckgo_search_tool ∈ tools_source.
Proof.
  destruct (X8_tools_by_name_last_wins tools_source search_request)
    as (_ & _ & Hin).
  split; [apply search_request_resolves|].
  apply (Hin duckduckgo_search_tool search_request_resolves).
Defined.

(** X9 on a turn with a tool round trip: only the question and the answer
    are shown. *)
Lemma X9_process_messages_filter_witness :
  _process_messages
    ([HumanMessage "What is the weather in Paris?"; AIMessage "" [search_request]]
     ++ ToolMessage "15C, cloudy" "duckduckgo_results_json" "call_1"
        :: [AIMessage "15C and cloudy." []])
  = [ {| role := "user"; content := "What is the weather in Paris?" |};
      {| role := "assistant"; content := "15C and cloudy." |} ].
Proof.
  destruct (X9_process_messages_filter
              [HumanMessage "What is the weather in Paris?";
               AIMessage "" [search_request]]
              [AIMessage "15C and cloudy." []])
    as (_ & _ & _ & Htool & _).
  rewrite Htool. reflexivity.
Defined.

(** X10, X11, X12 and X13 on a turn with the collaborators of the
    examples. *)
Lemma X10_chat_routing_witness :
  let st := initial memory_empty tt service_default in
  let node := _chat LLMS_source settings_source memory_empty
                load_system_prompt_example prepare_messages_example
                dump_messages_example process_llm_response_example
                (asking []) st in
  exists (prompt : string) (m : BaseMessage),
    call LLMS_source settings_source memory_empty
      (chat_input load_system_prompt_example prepare_messages_example
         dump_messages_example (asking []) (_llm (llm_service st)) prompt) st
    = (Return m, snd node)
    /\ fst node
       = Return {| update := [process_llm_response_example m]; goto := END |}.
Proof.
  intros st node.
  assert (Hnode : fst node = Return (route "ok" [])) by (vm_compute; reflexivity).
  destruct (X10_chat_routing LLMS_source settings_source memory_empty
              load_system_prompt_example prepare_messages_example
              dump_messages_example process_llm_response_example
              (asking []) st (snd node) (fst node) (surjective_pairing _))
    as [Hret _].
  destruct (Hret (route "ok" []) Hnode)
    as (prompt & m & text & tool_calls & _ & Hcall & _ & Hupdate & _).
  exists prompt, m. split; [exact Hcall|].
  rewrite Hnode, <- Hupdate. reflexivity.
Defined.

Lemma X11_tool_call_frame_witness :
  let st := initial tool_up tt service_default in
  let st' := snd (_tool_call tool_up tools_source (asking [search_request]) st) in
  llm_service st' = llm_service st
  /\ exists evs : list event,
       trace st' = evs
       /\ Forall (fun ev => exists tool args, ev = EvToolInvoke tool args) evs.
Proof.
  intros st st'.
  destruct (X11_tool_call_frame tool_up tools_source (asking [search_request])
              st st' _ (surjective_pairing _))
    as (Hself & (evs & Htrace & Hkind & _) & _).
  split; [exact Hself|]. exists evs. split; [exact Htrace | exact Hkind].
Defined.

Lemma X12_run_ends_on_plain_answer_witness :
  let st := initial memory_empty tt service_default in
  let run := run_nodes LLMS_source settings_source memory_empty tools_source
               load_system_prompt_example prepare_messages_example
               dump_messages_example process_llm_response_example
               (recursion_limit memory_empty) node_chat (asking []) st in
  index_ok LLMS_source st
  /\ index_ok LLMS_source (snd run)
  /\ exists evs : list event, trace (snd run) = evs /\ tasks evs = [].
Proof.
  intros st run.
  assert (Hidx : index_ok LLMS_source st) by (unfold index_ok; simpl; lia).
  split; [exact Hidx|].
  destruct (X12_run_ends_on_plain_answer LLMS_source settings_source memory_empty
              tools_source load_system_prompt_example prepare_messages_example
              dump_messages_example process_llm_response_example
              (recursion_limit memory_empty) (asking []) st (snd run) (fst run) Hidx
              (surjective_pairing _))
    as (Hidx' & (evs & Htrace & Htasks) & _).
  split; [exact Hidx'|]. exists evs. split; [exact Htrace | exact Htasks].
Defined.

Lemma X13_memory_update_scheduled_on_success_witness :
  let st := initial memory_empty tt service_default in
  let turn := get_response_example memory_empty hello "session" "user" st in
  index_ok LLMS_source st
  /\ exists evs : list event,
       trace (snd turn) = evs
       /\ exists (final_state : GraphState) (st2 : St memory_empty),
            graph_ainvoke LLMS_source settings_source memory_empty tools_source
              load_system_prompt_example prepare_messages_example
              dump_messages_example process_llm_response_example
              {| state_messages := dump_messages_example hello;
                 long_term_memory := injected_context (Some []) |}
              "session" (searched memory_empty "user" "hello" st)
            = (Return final_state, st2)
            /\ tasks evs = [("user", state_messages final_state)]
            /\ fst turn = Return (_process_messages (state_messages final_state)).
Proof.
  intros st turn.
  assert (Hidx : index_ok LLMS_source st) by (unfold index_ok; simpl; lia).
  split; [exact Hidx|].
  destruct (X13_memory_update_scheduled_on_success LLMS_source settings_source
              memory_empty tools_source load_system_prompt_example
              prepare_messages_example dump_messages_example
              process_llm_response_example hello "session" "user" st
              (snd turn) (fst turn) Hidx (surjective_pairing _))
    as (evs & Htrace & Hret & _).
  assert (Hturn : fst turn
                  = Return [ {| role := "user"; content := "hello" |};
                             {| role := "assistant"; content := "ok" |} ])
    by (vm_compute; reflexivity).
  destruct (Hret _ Hturn)
    as (m & st1 & st2 & relevant & final_state & text & Hsetup & Hlast & Hsearch
        & Hgraph & _ & Htasks & _ & Hresponse & _).
  injection Hlast as <-.
  vm_compute in Hsetup. injection Hsetup as <-.
  vm_compute in Hsearch. injection Hsearch as <-.
  exists evs. split; [exact Htrace|]. exists final_state, st2.
  split; [exact Hgraph|]. split; [exact Htasks|].
  rewrite Hturn, Hresponse. reflexivity.
Defined.

(** ** The resources created on first use *)

Section LazyResources.

Variable World : Type.
Variable Memory : Type.
Variable Pool : Type.
Variable Graph : Type.
Variable from_config : World -> result Memory * World.
Variable AsyncConnectionPool : World -> result Pool * World.
Variable open : Pool -> World -> result unit * World.
Variable setup : Pool -> World -> result unit * World.
Variable compile : Pool -> Graph.

Local Abbreviation Agent := (Resources.LangGraphAgent Memory Pool Graph).
Local Abbreviation _long_term_memory' :=
  (Resources._long_term_memory World Memory Pool Graph from_config).
Local Abbreviation _get_connection_pool' :=
  (Resources._get_connection_pool World Memory Pool Graph AsyncConnectionPool open).
Local Abbreviation create_graph' :=
  (Resources.create_graph World Memory Pool Graph AsyncConnectionPool open setup
     compile).

(** X14: the memory client is created at most once: when the agent holds a
    client, [_long_term_memory] returns it without calling the outside;
    when it returns a client, the agent holds that client from then on and
    every later call returns it, the outside untouched; when the creation
    fails the agent is unchanged, so the next call tries again.  The pool
    and the graph are never touched. *)
Theorem X14_memory_client_created_once (self self1 : Agent) (w w1 : World)
    (r : result Memory) :
  _long_term_memory' self w = (r, self1, w1) ->
  Resources._connection_pool _ _ _ self1 = Resources._connection_pool _ _ _ self
  /\ Resources._graph _ _ _ self1 = Resources._graph _ _ _ self
  /\ (forall m : Memory,
        Resources.memory _ _ _ self = Some m -> r = Return m /\ self1 = self /\ w1 = w)
  /\ (forall m : Memory,
        r = Return m ->
        Resources.memory _ _ _ self1 = Some m
        /\ forall w' : World, _long_term_memory' self1 w' = (Return m, self1, w'))
  /\ (forall e : exn,
        r = Raise e ->
        self1 = self
        /\ Resources.memory _ _ _ self = None
        /\ from_config w = (Raise e, w1)).
Proof.
  unfold Resources._long_term_memory.
  destruct (Resources.memory _ _ _ self) as [m|] eqn:Hmem.
  - intros [= <- <- <-]. split; [reflexivity|]. split; [reflexivity|].
    split; [intros m' [= <-]; auto|].
    split; [|intros e; discriminate].
    intros m' [= <-]. split; [exact Hmem|].
    intros w'. rewrite Hmem. reflexivity.
  - destruct (from_config w) as [[m|e] w0] eqn:Hconfig; intros [= <- <- <-];
      (split; [reflexivity|]); (split; [reflexivity|]);
      (split; [intros m'; discriminate|]).
    + split; [|intros e; discriminate].
      intros m' [= <-]. split; reflexivity.
    + split; [intros m'; discriminate|].
      intros e' [= <-]. auto.
Qed.

(** What [_get_connection_pool] does to the agent. *)
Lemma get_connection_pool_frame (self self1 : Agent) (w w1 : World) (r : result Pool) :
  _get_connection_pool' self w = (r, self1, w1) ->
  Resources.memory _ _ _ self1 = Resources.memory _ _ _ self
  /\ Resources._graph _ _ _ self1 = Resources._graph _ _ _ self
  /\ (forall pool : Pool,
        r = Return pool ->
        Resources._connection_pool _ _ _ self1 = Some pool
        /\ forall w' : World,
             _get_connection_pool' self1 w' = (Return pool, self1, w'))
  /\ (forall e : exn,
        r = Raise e ->
        Resources._connection_pool _ _ _ self = None
        /\ ((self1 = self /\ AsyncConnectionPool w = (Raise e, w1))
            \/ exists (pool : Pool) (w0 : World),
                 AsyncConnectionPool w = (Return pool, w0)
                 /\ open pool w0 = (Raise e, w1)
                 /\ Resources._connection_pool _ _ _ self1 = Some pool
                 /\ forall w' : World,
                      _get_connection_pool' self1 w' = (Return pool, self1, w'))).
Proof.
  unfold Resources._get_connection_pool.
  destruct (Resources._connection_pool _ _ _ self) as [pool|] eqn:Hpool.
  - intros [= <- <- <-]. split; [reflexivity|]. split; [reflexivity|].
    split; [|intros e; discriminate].
    intros pool' [= <-]. split; [exact Hpool|].
    intros w'. rewrite Hpool. reflexivity.
  - destruct (AsyncConnectionPool w) as [[pool|e] w0] eqn:Hnew.
    + destruct (open pool w0) as [[[]|e] w2] eqn:Hopen; intros [= <- <- <-];
        (split; [reflexivity|]); (split; [reflexivity|]).
      * split; [|intros e; discriminate].
        intros pool' [= <-]. split; reflexivity.
      * split; [intros pool'; discriminate|].
        intros e' [= <-]. split; [reflexivity|]. right.
        exists pool, w0. repeat split; auto.
    + intros [= <- <- <-]. split; [reflexivity|]. split; [reflexivity|].
      split; [intros pool'; discriminate|].
      intros e' [= <-]. split; [reflexivity|]. left. auto.
Qed.

(** X15: the connection pool is created at most once, and is kept even
    when it could not be opened: [_get_connection_pool] stores the new pool
    before it opens it, so after a failed [open] the agent holds the pool,
    and every later call returns that pool without opening it again.  When
    the call returns a pool the agent holds it and later calls return it,
    the outside untouched. *)
Theorem X15_pool_kept_when_open_fails (self self1 : Agent) (w w1 : World)
    (r : result Pool) :
  _get_connection_pool' self w = (r, self1, w1) ->
  Resources.memory _ _ _ self1 = Resources.memory _ _ _ self
  /\ Resources._graph _ _ _ self1 = Resources._graph _ _ _ self
  /\ (forall pool : Pool,
        r = Return pool ->
        Resources._connection_pool _ _ _ self1 = Some pool
        /\ forall w' : World,
             _get_connection_pool' self1 w' = (Return pool, self1, w'))
  /\ (forall e : exn,
        r = Raise e ->
        Resources._connection_pool _ _ _ self = None
        /\ ((self1 = self /\ AsyncConnectionPool w = (Raise e, w1))
            \/ exists (pool : Pool) (w0 : World),
                 AsyncConnectionPool w = (Return pool, w0)
                 /\ open pool w0 = (Raise e, w1)
                 /\ Resources._connection_pool _ _ _ self1 = Some pool
                 /\ forall w' : World,
                      _get_connection_pool' self1 w' = (Return pool, self1, w'))).
Proof.
  apply get_connection_pool_frame.
Qed.

(** X16: the graph is compiled at most once: a graph the agent holds is
    returned without calling the outside, a graph returned is held from
    then on, and a failure leaves the agent without a graph, so the next
    call tries again; but a pool that could not be opened is kept: after
    such a failure the next call does not open it and goes on with the
    set-up of the checkpointer on that pool. *)
Theorem X16_graph_compiled_once (self self1 : Agent) (w w1 : World)
    (r : result Graph) :
  create_graph' self w = (r, self1, w1) ->
  Resources.memory _ _ _ self1 = Resources.memory _ _ _ self
  /\ (forall graph : Graph,
        Resources._graph _ _ _ self = Some graph ->
        r = Return graph /\ self1 = self /\ w1 = w)
  /\ (forall graph : Graph,
        r = Return graph ->
        Resources._graph _ _ _ self1 = Some graph
        /\ (Resources._graph _ _ _ self = None ->
            exists pool : Pool,
              Resources._connection_pool _ _ _ self1 = Some pool
              /\ graph = compile pool)
        /\ forall w' : World, create_graph' self1 w' = (Return graph, self1, w'))
  /\ (forall e : exn,
        r = Raise e ->
        Resources._graph _ _ _ self1 = None
        /\ Resources._graph _ _ _ self = None)
  /\ (forall (pool : Pool) (w0 : World) (e : exn),
        Resources._graph _ _ _ self = None ->
        Resources._connection_pool _ _ _ self = None ->
        AsyncConnectionPool w = (Return pool, w0) ->
        open pool w0 = (Raise e, w1) ->
        r = Raise e
        /\ Resources._connection_pool _ _ _ self1 = Some pool
        /\ forall w' : World,
             create_graph' self1 w'
             = match setup pool w' with
               | (Return _, w2) =>
                   (Return (compile pool),
                    {| Resources._connection_pool := Some pool;
                       Resources._graph := Some (compile pool);
                       Resources.memory := Resources.memory _ _ _ self |}, w2)
               | (Raise e', w2) => (Raise e', self1, w2)
               end).
Proof.
  unfold Resources.create_graph.
  destruct (Resources._graph _ _ _ self) as [graph|] eqn:Hgraph.
  - intros [= <- <- <-]. split; [reflexivity|].
    split; [intros graph' [= <-]; auto|].
    split.
    { intros graph' [= <-]. split; [exact Hgraph|].
      split; [discriminate|]. intros w'. rewrite Hgraph. reflexivity. }
    split; [intros e; discriminate|]. intros pool w0 e; discriminate.
  - destruct (_get_connection_pool' self w) as [[[pool|e] self0] w0] eqn:Hget;
      pose proof (get_connection_pool_frame self self0 w w0 _ Hget) as (Hmem & Hg & Hret & Hraise).
    + destruct (Hret pool eq_refl) as [Hpool _].
      destruct (setup pool w0) as [[[]|e] w2] eqn:Hsetup; intros [= <- <- <-].
      * split; [exact Hmem|]. split; [intros graph; discriminate|].
        split.
        { intros graph [= <-]. split; [reflexivity|].
          split; [intros _; exists pool; rewrite Hpool; auto|].
          intros w'. reflexivity. }
        split; [intros e; discriminate|].
        intros pool' w0' e' _ Hnone Hnew Hopen.
        unfold Resources._get_connection_pool in Hget.
        rewrite Hnone, Hnew in Hget.
        destruct (open pool' w0') as [[[]|e2] w3]; discriminate.
      * split; [exact Hmem|]. split; [intros graph; discriminate|].
        split; [intros graph; discriminate|].
        split; [intros e' [= <-]; rewrite Hg; auto|].
        intros pool' w0' e' _ Hnone Hnew Hopen.
        unfold Resources._get_connection_pool in Hget.
        rewrite Hnone, Hnew, Hopen in Hget. discriminate.
    + intros [= <- <- <-]. split; [exact Hmem|].
      split; [intros graph; discriminate|].
      split; [intros graph; discriminate|].
      split; [intros e' [= <-]; rewrite Hg; auto|].
      intros pool w0' e' _ Hnone Hnew Hopen.
      unfold Resources._get_connection_pool in Hget.
      rewrite Hnone, Hnew, Hopen in Hget. injection Hget as <- <-.
      split; [reflexivity|]. split; [reflexivity|].
      intros w'. simpl. rewrite Hgraph. reflexivity.
Qed.

End LazyResources.

(** X14 on a fresh agent: the second call returns the client of the first
    and makes no call to the outside. *)
Lemma X14_memory_client_created_once_witness :
  let first := Resources._long_term_memory Resources.Counts nat nat nat
                 Resources.from_config_counting
                 (Resources.fresh nat nat nat) Resources.nothing_yet in
  fst (fst first) = Return 0%nat
  /\ Resources._long_term_memory Resources.Counts nat nat nat
       Resources.from_config_counting (snd (fst first)) (snd first)
     = (Return 0%nat, snd (fst first), snd first)
  /\ Resources.configs (snd first) = 1%nat.
Proof.
  intros first.
  destruct (X14_memory_client_created_once Resources.Counts nat nat nat
              Resources.from_config_counting
              (Resources.fresh nat nat nat) (snd (fst first))
              Resources.nothing_yet (snd first) (Return 0%nat) eq_refl)
    as (_ & _ & _ & Hkept & _).
  destruct (Hkept 0%nat eq_refl) as [_ Hagain].
  split; [reflexivity|]. split; [apply Hagain | reflexivity].
Defined.

(** X15 on a fresh agent and a database that refuses the first opening:
    the first call raises, the second returns the pool that was never
    opened, and no second opening is tried. *)
Lemma X15_pool_kept_when_open_fails_witness :
  let first := Resources._get_connection_pool Resources.Counts nat nat nat
                 Resources.pool_counting (Resources.open_counting 1)
                 (Resources.fresh nat nat nat) Resources.nothing_yet in
  fst (fst first) = Raise (OtherException "connection refused")
  /\ Resources._get_connection_pool Resources.Counts nat nat nat
       Resources.pool_counting (Resources.open_counting 1)
       (snd (fst first)) (snd first)
     = (Return 0%nat, snd (fst first), snd first)
  /\ Resources.opens (snd first) = 1%nat.
Proof.
  intros first.
  destruct (X15_pool_kept_when_open_fails Resources.Counts nat nat nat
              Resources.pool_counting (Resources.open_counting 1)
              (Resources.fresh nat nat nat) (snd (fst first))
              Resources.nothing_yet (snd first)
              (Raise (OtherException "connection refused")) eq_refl)
    as (_ & _ & _ & Hraise).
  destruct (Hraise _ eq_refl) as [_ [[_ Hnew]|(pool & w0 & Hnew & _ & Hpool & Hagain)]];
    [discriminate|].
  split; [reflexivity|]. split; [|reflexivity].
  rewrite Hagain. injection Hnew as <- _. reflexivity.
Defined.

(** X16 on the same agent and database: the first [create_graph] raises,
    the second compiles the graph on the pool that was never opened. *)
Lemma X16_graph_compiled_once_witness :
  let create := Resources.create_graph Resources.Counts nat nat nat
                  Resources.pool_counting (Resources.open_counting 1)
                  Resources.setup_counting (fun pool => pool) in
  let first := create (Resources.fresh nat nat nat) Resources.nothing_yet in
  let second := create (snd (fst first)) (snd first) in
  fst (fst first) = Raise (OtherException "connection refused")
  /\ fst (fst second) = Return 0%nat
  /\ Resources.opens (snd second) = 1%nat
  /\ Resources.setups (snd second) = 1%nat.
Proof.
  intros create first second.
  destruct (X16_graph_compiled_once Resources.Counts nat nat nat
              Resources.pool_counting (Resources.open_counting 1)
              Resources.setup_counting (fun pool => pool)
              (Resources.fresh nat nat nat) (snd (fst first))
              Resources.nothing_yet (snd first)
              (Raise (OtherException "connection refused")) eq_refl)
    as (_ & _ & _ & _ & Hrefused).
  destruct (Hrefused 0%nat
              {| Resources.configs := 0; Resources.pools := 1;
                 Resources.opens := 0; Resources.setups := 0 |}
              (OtherException "connection refused")
              eq_refl eq_refl eq_refl eq_refl) as (Hraise & _ & Hnext).
  split; [exact Hraise|].
  unfold second, create. rewrite Hnext. repeat split.
Defined.

(** ** What the backends are sent *)

Section Sent.

Variable LLMS : list Entry.
Variable settings : Settings.
Variable C : Collaborators.
Variable load_system_prompt : string -> result string.
Variable prepare_messages :
  list BaseMessage -> option BaseChatModel -> string -> list Message.
Variable dump_messages : list Message -> list BaseMessage.
Variable process_llm_response : BaseMessage -> BaseMessage.

Local Abbreviation N := (length LLMS).
Local Abbreviation _chat' :=
  (_chat LLMS settings C load_system_prompt prepare_messages dump_messages
     process_llm_response).
Local Abbreviation chat_input' :=
  (chat_input load_system_prompt prepare_messages dump_messages).

Lemma retrying_sent (messages : list BaseMessage) (fuel : nat) (n : Z)
    (st st' : St C) (r : result BaseMessage) :
  retrying settings C fuel n (_call_with_retry_body C messages) st = (r, st') ->
  exists evs : list event,
    trace st' = trace st ++ evs /\ Forall (fun ms => ms = messages) (sent evs).
Proof.
  intros Hrun. apply retrying_body_run in Hrun. destruct Hrun as [-> _].
  rewrite body_run. destruct (_llm (llm_service st)) as [l|]; simpl.
  - exists [EvInvoke l messages]. split; [reflexivity | repeat constructor].
  - exists []. rewrite app_nil_r. split; [reflexivity | constructor].
Qed.

Lemma call_loop_sent (messages : list BaseMessage) (fuel tried : nat)
    (st st' : St C) (r : result BaseMessage) :
  (tried + S fuel = N)%nat ->
  index_ok LLMS st ->
  call_loop LLMS settings C (S fuel) tried N messages st = (r, st') ->
  exists evs : list event,
    trace st' = trace st ++ evs /\ Forall (fun ms => ms = messages) (sent evs).
Proof.
  revert tried st. induction fuel as [|fuel IH]; intros tried st Hfuel Hidx;
    (rewrite call_loop_unfold by (auto; lia));
    destruct (_call_with_retry settings C messages st) as [[m|e] st1] eqn:Hrun;
    pose proof Hrun as Hframe; apply retrying_body_frame in Hframe;
    destruct Hframe as [Hself _];
    apply retrying_sent in Hrun; destruct Hrun as (evs & Htrace & Hsent).
  all: try (intros [= <- <-]; exists evs; auto).
  all: destruct (isinstance_OpenAIError e).
  all: try (intros [= <- <-]; exists evs; auto).
  all: destruct (Nat.leb_spec N (tried + 1)) as [Hlast_round|Hmore]; try lia.
  - intros [= <- <-]. eexists (evs ++ [_]).
    split; [unfold failure_logged; simpl; rewrite Htrace, <- app_assoc; reflexivity|].
    unfold sent in *. rewrite omap_app. simpl. rewrite app_nil_r. exact Hsent.
  - intros Hrest. apply IH in Hrest;
      [|lia|unfold index_ok, after_switch; simpl; rewrite Hself;
            apply Nat.mod_upper_bound; lia].
    destruct Hrest as (evs' & Htrace' & Hsent'). simpl in Htrace'.
    exists (evs ++ [LogModelFailedExhaustedRetries
                      (default "" (entry_name <$> LLMS
                         !! _current_model_index (llm_service st1))) e;
                    LogSwitchingModelFallback
                      (_current_model_index (llm_service st1))
                      (default "" (entry_name <$> LLMS
                         !! ((_current_model_index (llm_service st1) + 1)
                               mod N)%nat))] ++ evs').
    split; [rewrite Htrace', Htrace, <- !app_assoc; reflexivity|].
    unfold sent in *. rewrite !omap_app. simpl.
    apply Forall_app. split; [exact Hsent | exact Hsent'].
Qed.

(** X17: every backend a [chat] node calls, the fallback ones included, is
    sent the same messages: those prepared, before the call, for the model
    the service held when the node started; the node does not prepare them
    again for the model it falls back to. *)
Theorem X17_fallback_models_get_the_same_messages (state : GraphState)
    (prompt : string) (st st' : St C) (r : result Command) :
  index_ok LLMS st ->
  load_system_prompt (long_term_memory state) = Return prompt ->
  _chat' state st = (r, st') ->
  exists evs : list event,
    trace st' = trace st ++ evs
    /\ Forall (fun ms => ms = chat_input' state (_llm (llm_service st)) prompt)
         (sent evs)
    /\ length (sent evs) = invocations evs.
Proof.
  intros Hidx Hprompt. rewrite chat_unfold, Hprompt.
  destruct (index_ok_length LLMS st Hidx) as [n HN].
  assert (Hcount : forall evs, length (sent evs) = invocations evs).
  { intros evs. unfold sent, invocations, invoked.
    induction evs as [|ev evs IH]; [reflexivity|].
    destruct ev; simpl; auto. }
  assert (Hlog : forall evs e,
             sent (evs ++ [LogLlmCallNodeFailed e]) = sent evs).
  { intros evs e. unfold sent. rewrite omap_app. simpl. apply app_nil_r. }
  destruct (call LLMS settings C _ st) as [[m|e] st1] eqn:Hcall;
    unfold call in Hcall; rewrite HN in Hcall at 1;
    apply call_loop_sent in Hcall; try lia; try exact Hidx;
    destruct Hcall as (evs & Htrace & Hsent).
  - destruct (process_llm_response m); intros [= <- <-];
      try (exists (evs ++ [LogLlmCallNodeFailed AttributeError]);
           split; [simpl; rewrite Htrace, <- app_assoc; reflexivity|];
           split; [rewrite Hlog; exact Hsent | apply Hcount]).
    exists evs. split; [exact Htrace|]. split; [exact Hsent | apply Hcount].
  - intros [= <- <-]. exists (evs ++ [LogLlmCallNodeFailed e]).
    split; [simpl; rewrite Htrace, <- app_assoc; reflexivity|].
    split; [rewrite Hlog; exact Hsent | apply Hcount].
Qed.

End Sent.

(** X17 on a chat node whose call falls back twice, with the settings of
    the source: the three backends are sent the same list. *)
Lemma X17_fallback_models_get_the_same_messages_witness :
  let st := initial two_backends_reject tt service_at_0 in
  let st' := snd (_chat LLMS_source settings_source two_backends_reject
                    load_system_prompt_example prepare_messages_example
                    dump_messages_example process_llm_response_example
                    (asking []) st) in
  index_ok LLMS_source st
  /\ exists evs : list event,
       trace st' = evs
       /\ invoked evs
          = [chat_model "gpt-5-mini"; chat_model "gpt-4o"; chat_model "gpt-4o-mini"]
       /\ Forall (fun ms => ms = chat_input load_system_prompt_example
                                   prepare_messages_example dump_messages_example
                                   (asking []) (Some (chat_model "gpt-5-mini"))
                                   "You are an agent. Memory: No relevant memory found.")
            (sent evs).
Proof.
  intros st st'.
  assert (Hidx : index_ok LLMS_source st) by (unfold index_ok; simpl; lia).
  split; [exact Hidx|].
  destruct (X17_fallback_models_get_the_same_messages LLMS_source settings_source
              two_backends_reject load_system_prompt_example
              prepare_messages_example dump_messages_example
              process_llm_response_example (asking [])
              "You are an agent. Memory: No relevant memory found."
              st st' _ Hidx eq_refl (surjective_pairing _))
    as (evs & Htrace & Hsent & _).
  assert (Hevs : evs = trace st') by (rewrite Htrace; reflexivity).
  exists evs. split; [exact Htrace|]. split; [|exact Hsent].
  rewrite Hevs. vm_compute. reflexivity.
Defined.
